(** * KOL sentiment tracker: price acquisition and analytics

    A shallow embedding of the Python sources

      - [yfinance_helper.py]           (price cache, retrying fetcher, batches)
      - [KOLSentiment.py]              (forward returns, record insertion)
      - [kol_accuracy.py]              (direction scoring, accuracy tables)
      - [kol_performance_metrics.py]   (per-horizon risk metrics)
      - [kol_grade_system.py]          (composite grade)

    Python [float]s and numpy [float64]s are IEEE binary64 numbers and are
    modelled by Rocq's primitive floats, so that infinities and NaN appear
    exactly where the interpreter produces them.  The composite grade is an
    order-theoretic statement about a formula; it is modelled over exact
    rationals, and its nominal value is re-checked in binary64. *)

From Stdlib Require Import Floats ZArith QArith Qround Qminmax Lqa Ascii String List Bool Lia Uint63 Sorted Permutation.
From stdpp Require Import gmap strings pretty list fin_maps.
Import ListNotations.

#[local] Set Warnings "-inexact-float".

Open Scope string_scope.
Open Scope Z_scope.

(** ** Python values shared by all modules *)

(** [str.lower()] on ASCII text. *)
Definition lower_ascii (c : ascii) : ascii :=
  let n := nat_of_ascii c in
  if ((65 <=? n)%nat && (n <=? 90)%nat)%bool then ascii_of_nat (n + 32) else c.

Fixpoint lower (s : string) : string :=
  match s with
  | EmptyString => EmptyString
  | String c s' => String (lower_ascii c) (lower s')
  end.

(** [str.endswith(suffix)]. *)
Definition endswith (s suffix : string) : bool :=
  let n := String.length s in
  let k := String.length suffix in
  ((k <=? n)%nat && String.eqb (substring (n - k) k s) suffix)%bool.

(** [needle in haystack] on strings. *)
Fixpoint contains (needle haystack : string) : bool :=
  (String.prefix needle haystack ||
   match haystack with
   | EmptyString => false
   | String _ rest => contains needle rest
   end)%bool.

(** A Python [int] that counts something, seen as a binary64 number
    (exact below 2^53). *)
Definition float_of_nat (n : nat) : float :=
  PrimFloat.of_uint63 (Uint63.of_Z (Z.of_nat n)).

(** What a call can do: return a value or raise.  [InvalidInput] is the
    error kind the specification names for bad arguments; the other
    constructors are the exceptions the modelled code can meet. *)
Inductive exn : Type :=
| KeyError (key : string)
| IndexError
| ValueError (msg : string)
| ZeroDivisionError
| InvalidInput (msg : string)
| IntegrityError (msg : string).

Inductive outcome (A : Type) : Type :=
| Returned (a : A)
| Raised (e : exn).
Arguments Returned {A} a.
Arguments Raised {A} e.

(** ** kol_accuracy.py *)

Module kol_accuracy.

(** The columns of a [KOLSentiment] row that the scorers read. *)
Record record := mk_record {
  kol_name : string;
  sentiment : string;
  return_1d : option float;
  return_3d : option float;
  return_10d : option float
}.

Definition is_direction_correct (sentiment : string) (ret : float) : Z :=
  if (String.eqb (lower sentiment) "positive" && PrimFloat.ltb 0%float ret)%bool then 1
  else if (String.eqb (lower sentiment) "negative" && PrimFloat.ltb ret 0%float)%bool then 1
  else if (String.eqb (lower sentiment) "neutral" && PrimFloat.ltb (PrimFloat.abs ret) 0.01%float)%bool then 1
  else 0.

(** A Python [int] used as a condition. *)
Definition truthy (z : Z) : bool := negb (z =? 0).

Record accuracy_scores := mk_scores {
  sc_accuracy_1d : option Z;
  sc_accuracy_3d : option Z;
  sc_accuracy_10d : option Z
}.

Definition calculate_accuracy_score (sentiment : string)
    (ret_1d ret_3d ret_10d : option float) : accuracy_scores :=
  {| sc_accuracy_1d := is_direction_correct sentiment <$> ret_1d;
     sc_accuracy_3d := is_direction_correct sentiment <$> ret_3d;
     sc_accuracy_10d := is_direction_correct sentiment <$> ret_10d |}.

(** One entry of [kol_stats] / [sentiment_stats]; the key ['total'] of the
    latter plays the part of ['total_predictions']. *)
Record stats := mk_stats {
  total_predictions : nat;
  correct_1d : nat;
  correct_3d : nat;
  correct_10d : nat;
  accuracy_1d : float;
  accuracy_3d : float;
  accuracy_10d : float
}.

Definition fresh_stats : stats :=
  {| total_predictions := 0; correct_1d := 0; correct_3d := 0; correct_10d := 0;
     accuracy_1d := 0%float; accuracy_3d := 0%float; accuracy_10d := 0%float |}.

(** [if ret is not None: if is_direction_correct(sentiment, ret): n += 1] *)
Definition bump (sentiment : string) (ret : option float) (n : nat) : nat :=
  match ret with
  | Some r => if truthy (is_direction_correct sentiment r) then S n else n
  | None => n
  end.

(** The body of the counting loops once the entry exists. *)
Definition count_record (r : record) (st : stats) : stats :=
  {| total_predictions := S (total_predictions st);
     correct_1d := bump (sentiment r) (return_1d r) (correct_1d st);
     correct_3d := bump (sentiment r) (return_3d r) (correct_3d st);
     correct_10d := bump (sentiment r) (return_10d r) (correct_10d st);
     accuracy_1d := accuracy_1d st;
     accuracy_3d := accuracy_3d st;
     accuracy_10d := accuracy_10d st |}.

(** The second loop: [if stats['total'] > 0: stats['accuracy_*'] = ...] *)
Definition set_accuracy (st : stats) : stats :=
  if (0 <? total_predictions st)%nat then
    {| total_predictions := total_predictions st;
       correct_1d := correct_1d st;
       correct_3d := correct_3d st;
       correct_10d := correct_10d st;
       accuracy_1d := PrimFloat.div (float_of_nat (correct_1d st)) (float_of_nat (total_predictions st));
       accuracy_3d := PrimFloat.div (float_of_nat (correct_3d st)) (float_of_nat (total_predictions st));
       accuracy_10d := PrimFloat.div (float_of_nat (correct_10d st)) (float_of_nat (total_predictions st)) |}
  else st.

Definition kol_step (kol_stats : gmap string stats) (r : record) : gmap string stats :=
  match return_1d r with
  | None => kol_stats                                   (* continue *)
  | Some _ =>
      let entry := default fresh_stats (kol_stats !! kol_name r) in
      <[kol_name r := count_record r entry]> kol_stats
  end.

Definition get_kol_performance_stats (records : list record) : gmap string stats :=
  set_accuracy <$> fold_left kol_step records ∅.

Definition initial_sentiment_stats : gmap string stats :=
  <["positive" := fresh_stats]> (<["negative" := fresh_stats]> (<["neutral" := fresh_stats]> ∅)).

Definition sentiment_step (sentiment_stats : gmap string stats) (r : record)
    : gmap string stats :=
  match return_1d r with
  | None => sentiment_stats                             (* continue *)
  | Some _ =>
      match sentiment_stats !! lower (sentiment r) with
      | Some entry => <[lower (sentiment r) := count_record r entry]> sentiment_stats
      | None => sentiment_stats
      end
  end.

Definition analyze_sentiment_accuracy (records : list record) : gmap string stats :=
  set_accuracy <$> fold_left sentiment_step records initial_sentiment_stats.

End kol_accuracy.

(** ** kol_performance_metrics.py *)

Module kol_performance_metrics.

(** The eight partial sums of numpy's unrolled loop, combined as a tree. *)
Definition tree8 (r : list float) : float :=
  match r with
  | [r0; r1; r2; r3; r4; r5; r6; r7] =>
      PrimFloat.add
        (PrimFloat.add (PrimFloat.add r0 r1) (PrimFloat.add r2 r3))
        (PrimFloat.add (PrimFloat.add r4 r5) (PrimFloat.add r6 r7))
  | _ => 0%float
  end.

(** [blocks] more blocks of eight items, each added lane by lane. *)
Fixpoint lanes (blocks : nat) (r a : list float) : list float * list float :=
  match blocks with
  | O => (r, a)
  | S blocks' => lanes blocks' (zip_with PrimFloat.add r (firstn 8 a)) (skipn 8 a)
  end.

(** numpy's pairwise summation of a contiguous float64 array: fewer than
    8 items are added left to right; up to 128 items go through eight lanes,
    the lanes are combined as a tree and the items left over are added one by
    one; a longer array is cut near the middle, at a multiple of 8, and the
    two sums are added.  [fuel] bounds the depth of the cuts. *)
Fixpoint pairwise_sum (fuel : nat) (a : list float) : float :=
  let n := length a in
  if (n <? 8)%nat then fold_left PrimFloat.add a 0%float
  else if (n <=? 128)%nat then
    let (r, rest) := lanes (n / 8 - 1) (firstn 8 a) (skipn 8 a) in
    fold_left PrimFloat.add rest (tree8 r)
  else
    match fuel with
    | O => 0%float
    | S fuel' =>
        let n2 := (n / 2 - (n / 2) mod 8)%nat in
        PrimFloat.add (pairwise_sum fuel' (firstn n2 a)) (pairwise_sum fuel' (skipn n2 a))
    end.

(** [np.sum] of a one-dimensional float64 array: the reduction starts from
    the additive identity and adds the pairwise sum of the items.  (The sign
    of a sum that is a zero is the one thing NumPy versions differ on.) *)
Definition np_sum (xs : list float) : float :=
  PrimFloat.add 0%float (pairwise_sum (length xs) xs).

(** [np.mean(a)]: the sum divided by the number of items. *)
Definition np_mean (xs : list float) : float :=
  PrimFloat.div (np_sum xs) (float_of_nat (length xs)).

(** [np.var(a, ddof)]: squared deviations from the mean, summed and
    divided by [max(N - ddof, 0)]. *)
Definition np_var (xs : list float) (ddof : nat) : float :=
  let arrmean := np_mean xs in
  let x := map (fun v => PrimFloat.sub v arrmean) xs in
  let x := map (fun d => PrimFloat.mul d d) x in
  PrimFloat.div (np_sum x) (float_of_nat (length xs - ddof)).

(** [np.std(a, ddof)] *)
Definition np_std (xs : list float) (ddof : nat) : float :=
  PrimFloat.sqrt (np_var xs ddof).

Record period_metrics := mk_period_metrics {
  mean_return : float;
  volatility : float;
  sharpe_ratio : float;
  information_ratio : float
}.

Definition calculate_period_metrics (returns : list float) : period_metrics :=
  match returns with
  | [] =>
      {| mean_return := 0; volatility := 0; sharpe_ratio := 0; information_ratio := 0 |}
  | _ =>
      let mean_return := np_mean returns in
      let risk_free_rate := 0.001%float in
      let volatility := np_std returns 1 in
      let sharpe_ratio :=
        if PrimFloat.ltb 0 volatility
        then PrimFloat.div (PrimFloat.sub mean_return risk_free_rate) volatility
        else 0%float in
      let benchmark_return := 0.01%float in
      let tracking_error := volatility in
      let information_ratio :=
        if PrimFloat.ltb 0 tracking_error
        then PrimFloat.div (PrimFloat.sub mean_return benchmark_return) tracking_error
        else 0%float in
      {| mean_return := mean_return; volatility := volatility;
         sharpe_ratio := sharpe_ratio; information_ratio := information_ratio |}
  end.

Definition is_direction_correct (sentiment : string) (ret : float) : Z :=
  if (String.eqb (lower sentiment) "positive" && PrimFloat.ltb 0%float ret)%bool then 1
  else if (String.eqb (lower sentiment) "negative" && PrimFloat.ltb ret 0%float)%bool then 1
  else if (String.eqb (lower sentiment) "neutral" && PrimFloat.ltb (PrimFloat.abs ret) 0.01%float)%bool then 1
  else 0.

(** The dataclass of the results. *)
Record KOLPerformanceMetrics := mk_metrics {
  kol_name : string;
  direction_correctness_rate : float;
  mean_return_1d : float;
  mean_return_3d : float;
  mean_return_10d : float;
  volatility_1d : float;
  volatility_3d : float;
  volatility_10d : float;
  sharpe_ratio_1d : float;
  sharpe_ratio_3d : float;
  sharpe_ratio_10d : float;
  information_ratio_1d : float;
  information_ratio_3d : float;
  information_ratio_10d : float;
  total_predictions : nat
}.

(** One entry of the dict [kol_metrics] of the first loop. *)
Record kol_data := mk_kol_data {
  returns_1d : list float;
  returns_3d : list float;
  returns_10d : list float;
  correct_predictions : nat;
  d_total_predictions : nat
}.

Definition fresh_data : kol_data :=
  {| returns_1d := []; returns_3d := []; returns_10d := [];
     correct_predictions := 0; d_total_predictions := 0 |}.

(** [if ret is not None: returns.append(ret)] *)
Definition append_present (ret : option float) (returns : list float) : list float :=
  match ret with
  | Some x => returns ++ [x]
  | None => returns
  end.

(** The body of the first loop of [calculate_kol_performance_metrics]. *)
Definition metrics_step (kol_metrics : gmap string kol_data) (r : kol_accuracy.record)
    : gmap string kol_data :=
  match kol_accuracy.return_1d r with
  | None => kol_metrics                                   (* continue *)
  | Some ret_1d =>
      let data := default fresh_data (kol_metrics !! kol_accuracy.kol_name r) in
      <[kol_accuracy.kol_name r :=
          {| returns_1d := append_present (kol_accuracy.return_1d r) (returns_1d data);
             returns_3d := append_present (kol_accuracy.return_3d r) (returns_3d data);
             returns_10d := append_present (kol_accuracy.return_10d r) (returns_10d data);
             correct_predictions :=
               if kol_accuracy.truthy (is_direction_correct (kol_accuracy.sentiment r) ret_1d)
               then S (correct_predictions data) else correct_predictions data;
             d_total_predictions := S (d_total_predictions data) |}]> kol_metrics
  end.

(** The body of the second loop; an entry without predictions is skipped. *)
Definition summarize (name : string) (data : kol_data) : option KOLPerformanceMetrics :=
  if (d_total_predictions data =? 0)%nat then None
  else
    let metrics_1d := calculate_period_metrics (returns_1d data) in
    let metrics_3d := calculate_period_metrics (returns_3d data) in
    let metrics_10d := calculate_period_metrics (returns_10d data) in
    Some {| kol_name := name;
            direction_correctness_rate :=
              PrimFloat.div (float_of_nat (correct_predictions data))
                            (float_of_nat (d_total_predictions data));
            mean_return_1d := mean_return metrics_1d;
            mean_return_3d := mean_return metrics_3d;
            mean_return_10d := mean_return metrics_10d;
            volatility_1d := volatility metrics_1d;
            volatility_3d := volatility metrics_3d;
            volatility_10d := volatility metrics_10d;
            sharpe_ratio_1d := sharpe_ratio metrics_1d;
            sharpe_ratio_3d := sharpe_ratio metrics_3d;
            sharpe_ratio_10d := sharpe_ratio metrics_10d;
            information_ratio_1d := information_ratio metrics_1d;
            information_ratio_3d := information_ratio metrics_3d;
            information_ratio_10d := information_ratio metrics_10d;
            total_predictions := d_total_predictions data |}.

Definition calculate_kol_performance_metrics (records : list kol_accuracy.record)
    : gmap string KOLPerformanceMetrics :=
  map_imap summarize (fold_left metrics_step records ∅).

End kol_performance_metrics.

(** ** kol_grade_system.py *)

Module kol_grade_system.

(** Python's two-argument [min] and [max] keep the first argument unless the
    second is strictly smaller (larger). *)
Definition py_min (a b : Q) : Q := if Qlt_le_dec b a then b else a.
Definition py_max (a b : Q) : Q := if Qlt_le_dec a b then b else a.

(** Nearest integer, ties to the even one. *)
Definition round_half_even (q : Q) : Z :=
  let f := Qfloor q in
  match Qcompare (q - inject_Z f)%Q (1 # 2)%Q with
  | Lt => f
  | Gt => f + 1
  | Eq => if Z.even f then f else f + 1
  end.

(** [round(x, 2)]: the nearest multiple of 1/100, ties to even. *)
Definition round2 (x : Q) : Q :=
  (inject_Z (round_half_even (x * 100)%Q) / 100)%Q.

Definition calculate_kol_grade (accuracy sharpe : Q) (sample_num : Z)
    (w_acc w_sharpe w_sample : Q) (sample_norm : Z) : outcome Q :=
  if Z.eqb sample_norm 0 then Raised ZeroDivisionError
  else
    let sample_score := py_min (inject_Z sample_num / inject_Z sample_norm)%Q 1%Q in
    let sharpe_score := py_min (py_max (sharpe / 2)%Q 0%Q) 1%Q in
    let grade := (100 * (w_acc * accuracy + w_sharpe * sharpe_score + w_sample * sample_score))%Q in
    Returned (round2 grade).

(** The keyword defaults of the signature. *)
Definition default_w_acc : Q := (5 # 10)%Q.
Definition default_w_sharpe : Q := (3 # 10)%Q.
Definition default_w_sample : Q := (2 # 10)%Q.
Definition default_sample_norm : Z := 50.



End kol_grade_system.

(** ** The process state

    Everything the two stateful modules touch: the cache directory, the
    system clock, the upstream price feed, the console and the database. *)

(** One bar of a price table: index timestamp (epoch seconds) and [Close]. *)
Record bar := mk_bar { bar_time : Z; bar_close : float }.

(** A pandas table as [yf.download] returns it: flat columns for one symbol,
    or columns grouped by ticker over a shared index. *)
Inductive DataFrame : Type :=
| Flat (rows : list bar)
| ByTicker (index : list Z) (groups : list (string * list float)).

Definition is_nil {A} (l : list A) : bool :=
  match l with [] => true | _ => false end.

(** [df.empty]: some axis has length zero. *)
Definition df_empty (df : DataFrame) : bool :=
  match df with
  | Flat rows => is_nil rows
  | ByTicker index groups => (is_nil index || is_nil groups)%bool
  end.

(** [len(df)] *)
Definition df_len (df : DataFrame) : nat :=
  match df with
  | Flat rows => length rows
  | ByTicker index _ => length index
  end.

(** [df['Close']] as a list of values; a grouped table has ticker symbols,
    not field names, at the first column level. *)
Definition df_close (df : DataFrame) : outcome (list float) :=
  match df with
  | Flat rows => Returned (map bar_close rows)
  | ByTicker _ _ => Raised (KeyError "Close")
  end.

(** A file of the cache directory; [content = None] is a file that
    [pickle.load] rejects.  Writing a file is taken to succeed. *)
Record file := mk_file { mtime : Z; content : option DataFrame }.

(** A row of table [kol_sentiment]. *)
Record row := mk_row {
  row_id : Z;
  row_prediction_time : Z;
  row_kol_name : string;
  row_ticker : string;
  row_sector : string;
  row_sentiment : string;
  row_confidence : float;
  row_initial_price : option float;
  row_return_1d : option float;
  row_return_3d : option float;
  row_return_10d : option float;
  row_created_at : Z
}.

(** The keyword arguments the helper passes to [yf.download]. *)
Record kwargs := mk_kwargs {
  kw_start : string;
  kw_end : string;
  kw_progress : bool;
  kw_threads : bool;
  kw_group_by : option string;
  kw_show_errors : option bool;
  kw_session : bool
}.

Inductive symbols : Type :=
| One (ticker : string)
| Many (tickers : list string).

Record request := mk_request { rq_symbols : symbols; rq_kwargs : kwargs }.

(** [yf.download] returns a table or raises; the code reads [str(e)]. *)
Inductive response : Type :=
| Table (df : DataFrame)
| Fails (msg : string).

(** Console output.  Only the summary line of [clear_cache] is kept: it is
    the one place where the number of removed files leaves the function. *)
Inductive line : Type :=
| CacheCleared (removed_count : nat).

Record World := mk_world {
  files : gmap string file;      (* cache directory: file name -> file *)
  now : Z;                       (* last clock reading, seconds *)
  reads : nat;                   (* clock readings so far *)
  calls : list request;          (* upstream calls so far, oldest first *)
  stdout : list line;
  table : list row               (* kol_sentiment, committed rows *)
}.

(** What the model does not decide: how much time passes between two clock
    readings, and what the price feed answers to its n-th call. *)
Record Env := mk_env {
  elapse : nat -> N;
  yf_download : nat -> request -> response
}.

(** State and exceptions. *)
Definition M (A : Type) : Type := World -> outcome A * World.

Definition ret {A} (a : A) : M A := fun w => (Returned a, w).

Definition raise {A} (e : exn) : M A := fun w => (Raised e, w).

Definition bind {A B} (m : M A) (k : A -> M B) : M B :=
  fun w =>
    match m w with
    | (Returned a, w') => k a w'
    | (Raised e, w') => (Raised e, w')
    end.

(** [try: m  except Exception: h] *)
Definition try_except {A} (m : M A) (h : exn -> M A) : M A :=
  fun w =>
    match m w with
    | (Returned a, w') => (Returned a, w')
    | (Raised e, w') => h e w'
    end.

Definition lift {A} (o : outcome A) : M A := fun w => (o, w).

Notation "'do' x <- m ; k" := (bind m (fun x => k))
  (at level 10, x pattern, m at level 100, k at level 200).
Notation "'do_' m ; k" := (bind m (fun _ => k))
  (at level 10, m at level 100, k at level 200).

(** [time.time()], also the stamp the file system puts on a written file. *)
Definition time_time (env : Env) : M Z :=
  fun w =>
    let t := now w + Z.of_N (elapse env (reads w)) in
    (Returned t,
     mk_world (files w) t (S (reads w)) (calls w) (stdout w) (table w)).

Definition read_files : M (gmap string file) := fun w => (Returned (files w), w).

Definition write_files (fs : gmap string file) : M unit :=
  fun w => (Returned tt, mk_world fs (now w) (reads w) (calls w) (stdout w) (table w)).

Definition print (l : line) : M unit :=
  fun w => (Returned tt,
            mk_world (files w) (now w) (reads w) (calls w) (stdout w ++ [l]) (table w)).

(** One call of [yf.download]. *)
Definition download (env : Env) (rq : request) : M response :=
  fun w =>
    (Returned (yf_download env (length (calls w)) rq),
     mk_world (files w) (now w) (reads w) (calls w ++ [rq]) (stdout w) (table w)).

(** ** Calendar dates *)

(** [datetime] values are seconds since the epoch; [strftime('%Y-%m-%d')]
    is the proleptic Gregorian date of the day they fall in. *)
Definition seconds_per_day : Z := 24 * 3600.

Definition civil_from_days (z : Z) : Z * Z * Z :=
  let z := z + 719468 in
  let era := z / 146097 in
  let doe := z - era * 146097 in
  let yoe := (doe - doe / 1460 + doe / 36524 - doe / 146096) / 365 in
  let y := yoe + era * 400 in
  let doy := doe - (365 * yoe + yoe / 4 - yoe / 100) in
  let mp := (5 * doy + 2) / 153 in
  let d := doy - (153 * mp + 2) / 5 + 1 in
  let m := if mp <? 10 then mp + 3 else mp - 9 in
  (if m <=? 2 then y + 1 else y, m, d).

Definition digits (width : nat) (n : Z) : string :=
  let s := pretty (Z.to_N n) in
  (String.concat EmptyString (repeat "0" (width - String.length s)%nat) ++ s)%string.

Definition strftime_ymd (t : Z) : string :=
  let '(y, m, d) := civil_from_days (t / seconds_per_day) in
  (digits 4 y ++ "-" ++ digits 2 m ++ "-" ++ digits 2 d)%string.

(** [t + timedelta(days=n)] *)
Definition plus_days (t n : Z) : Z := t + n * seconds_per_day.

(** [(a - b).days]: whole days, rounded down. *)
Definition delta_days (a b : Z) : Z := (a - b) / seconds_per_day.

(** ** yfinance_helper.py *)

Module yfinance_helper.

(** What [_check_yfinance_compatibility] found, once, in the constructor. *)
Record YFinanceHelper := mk_helper {
  supports_show_errors : bool;
  supports_session : bool
}.

Definition _get_download_kwargs (self : YFinanceHelper) (base_kwargs : kwargs) : kwargs :=
  {| kw_start := kw_start base_kwargs;
     kw_end := kw_end base_kwargs;
     kw_progress := kw_progress base_kwargs;
     kw_threads := kw_threads base_kwargs;
     kw_group_by := kw_group_by base_kwargs;
     kw_show_errors :=
       if supports_show_errors self then Some false else kw_show_errors base_kwargs;
     kw_session :=
       if supports_session self then true else kw_session base_kwargs |}.

Definition _get_cache_path (ticker start_date end_date : string) : string :=
  (ticker ++ "_" ++ start_date ++ "_" ++ end_date ++ ".pkl")%string.

(** A cached table is used when its file exists, is younger than 24 hours
    and unpickles; every other case, errors included, is a miss. *)
Definition _load_from_cache (env : Env) (ticker start_date end_date : string)
    : M (option DataFrame) :=
  do fs <- read_files;
  match fs !! _get_cache_path ticker start_date end_date with
  | Some f =>
      let cache_time := mtime f in
      do t <- time_time env;
      if t - cache_time <? 24 * 3600 then ret (content f) else ret None
  | None => ret None
  end.

Definition _save_to_cache (env : Env) (ticker start_date end_date : string)
    (data : DataFrame) : M unit :=
  do t <- time_time env;
  do fs <- read_files;
  write_files (<[_get_cache_path ticker start_date end_date := mk_file t (Some data)]> fs).

(** [time.sleep] and [_random_delay] only let time pass, which the clock
    of the environment already accounts for. *)
Definition sleep : M unit := ret tt.

Definition is_rate_limit (error_msg : string) : bool :=
  (contains "Too Many Requests" error_msg
   || contains "Rate limited" error_msg
   || contains "429" error_msg)%bool.

(** The [for attempt in range(max_retries)] loop of [get_stock_data], with
    [todo] iterations left. *)
Fixpoint attempts (env : Env) (self : YFinanceHelper)
    (ticker start_date end_date : string) (max_retries : nat)
    (todo attempt : nat) : M (option DataFrame) :=
  match todo with
  | O => ret None
  | S todo' =>
      do_ (if (0 <? attempt)%nat then sleep else ret tt);
      let base_kwargs :=
        {| kw_start := start_date; kw_end := end_date; kw_progress := false;
           kw_threads := false; kw_group_by := None; kw_show_errors := None;
           kw_session := false |} in
      let download_kwargs := _get_download_kwargs self base_kwargs in
      do r <- download env (mk_request (One ticker) download_kwargs);
      match r with
      | Table data =>
          if negb (df_empty data) then
            do_ _save_to_cache env ticker start_date end_date data;
            ret (Some data)
          else
            attempts env self ticker start_date end_date max_retries todo' (S attempt)
      | Fails error_msg =>
          if is_rate_limit error_msg then
            do_ sleep;
            attempts env self ticker start_date end_date max_retries todo' (S attempt)
          else if (attempt <? max_retries - 1)%nat then
            do_ sleep;
            attempts env self ticker start_date end_date max_retries todo' (S attempt)
          else
            ret None                                          (* break *)
      end
  end.

Definition get_stock_data (env : Env) (self : YFinanceHelper)
    (ticker start_date end_date : string) (max_retries : nat) : M (option DataFrame) :=
  do cached_data <- _load_from_cache env ticker start_date end_date;
  match cached_data with
  | Some data => ret (Some data)
  | None => attempts env self ticker start_date end_date max_retries max_retries 0
  end.

Definition default_max_retries : nat := 3.

(** First row whose day is the target day. *)
Definition exact_match (target_date_str : string) (rows : list bar) : option float :=
  bar_close <$> List.find (fun b => String.eqb (strftime_ymd (bar_time b)) target_date_str) rows.

(** [idxmin] of the day distances: the first row at the least distance. *)
Fixpoint closest (target_date : Z) (rows : list bar) : option bar :=
  match rows with
  | [] => None
  | b :: rest =>
      match closest target_date rest with
      | Some c =>
          if Z.abs (delta_days (bar_time c) target_date)
             <? Z.abs (delta_days (bar_time b) target_date)
          then Some c else Some b
      | None => Some b
      end
  end.

Definition get_stock_price_on_date (env : Env) (self : YFinanceHelper)
    (ticker : string) (target_date : Z) (days_buffer : Z) : M (option float) :=
  let start_date := strftime_ymd (plus_days target_date (- days_buffer)) in
  let end_date := strftime_ymd (plus_days target_date days_buffer) in
  do data <- get_stock_data env self ticker start_date end_date default_max_retries;
  match data with
  | Some df =>
      if negb (df_empty df) then
        let target_date_str := strftime_ymd target_date in
        match df with
        | Flat rows =>
            match exact_match target_date_str rows with
            | Some price => ret (Some price)
            | None => ret (bar_close <$> closest target_date rows)
            end
        | ByTicker _ _ => raise (KeyError "Close")
        end
      else ret None
  | None => ret None
  end.

(** [tickers[i:i + batch_size] for i in range(0, len(tickers), batch_size)]
    for a positive [batch_size]. *)
Definition batches (tickers : list string) (batch_size : nat) : list (list string) :=
  map (fun k => firstn batch_size (skipn (k * batch_size) tickers))
      (seq 0 ((length tickers + batch_size - 1) / batch_size)%nat).

(** The cache pass at the head of a bulk batch. *)
Fixpoint split_cached (env : Env) (start_date end_date : string) (batch : list string)
    (results : gmap string DataFrame) (uncached_tickers : list string)
    : M (gmap string DataFrame * list string) :=
  match batch with
  | [] => ret (results, uncached_tickers)
  | ticker :: rest =>
      do cached_data <- _load_from_cache env ticker start_date end_date;
      match cached_data with
      | Some data =>
          split_cached env start_date end_date rest (<[ticker := data]> results)
                       uncached_tickers
      | None =>
          split_cached env start_date end_date rest results (uncached_tickers ++ [ticker])
      end
  end.

(** [bulk_data[ticker]] *)
Definition group_of (index : list Z) (groups : list (string * list float))
    (ticker : string) : option DataFrame :=
  (fun g => Flat (zip_with mk_bar index (snd g)))
    <$> List.find (fun g => String.eqb (fst g) ticker) groups.

(** Splitting a multi-ticker answer; a ticker whose lookup raises is
    reported and skipped. *)
Fixpoint demultiplex (env : Env) (start_date end_date : string) (bulk_data : DataFrame)
    (uncached_tickers : list string) (results : gmap string DataFrame)
    : M (gmap string DataFrame) :=
  match uncached_tickers with
  | [] => ret results
  | ticker :: rest =>
      match bulk_data with
      | ByTicker index groups =>
          match group_of index groups ticker with
          | Some ticker_data =>
              if negb (df_empty ticker_data) then
                do_ _save_to_cache env ticker start_date end_date ticker_data;
                demultiplex env start_date end_date bulk_data rest
                            (<[ticker := ticker_data]> results)
              else demultiplex env start_date end_date bulk_data rest results
          | None => demultiplex env start_date end_date bulk_data rest results
          end
      | Flat _ =>                              (* no [columns.levels]: caught *)
          demultiplex env start_date end_date bulk_data rest results
      end
  end.

(** The [except] branch of a bulk batch: one [get_stock_data] per ticker. *)
Fixpoint one_by_one (env : Env) (self : YFinanceHelper) (start_date end_date : string)
    (tickers : list string) (results : gmap string DataFrame)
    : M (gmap string DataFrame) :=
  match tickers with
  | [] => ret results
  | ticker :: rest =>
      do data <- get_stock_data env self ticker start_date end_date default_max_retries;
      let results := match data with
                     | Some d => <[ticker := d]> results
                     | None => results
                     end in
      do_ sleep;
      one_by_one env self start_date end_date rest results
  end.

(** The body of the batch loop of [_batch_download_bulk]. *)
Definition bulk_batch (env : Env) (self : YFinanceHelper) (start_date end_date : string)
    (batch : list string) (results : gmap string DataFrame) : M (gmap string DataFrame) :=
  do (results, uncached_tickers) <- split_cached env start_date end_date batch results [];
  if is_nil uncached_tickers then ret results
  else
    let base_kwargs :=
      {| kw_start := start_date; kw_end := end_date; kw_progress := false;
         kw_threads := true; kw_group_by := Some "ticker"; kw_show_errors := None;
         kw_session := false |} in
    let bulk_kwargs := _get_download_kwargs self base_kwargs in
    do r <- download env (mk_request (Many uncached_tickers) bulk_kwargs);
    match r with
    | Table bulk_data =>
        if negb (df_empty bulk_data) then
          match uncached_tickers with
          | [ticker] =>
              do_ _save_to_cache env ticker start_date end_date bulk_data;
              ret (<[ticker := bulk_data]> results)
          | _ => demultiplex env start_date end_date bulk_data uncached_tickers results
          end
        else ret results
    | Fails _ =>
        one_by_one env self start_date end_date uncached_tickers results
    end.

Fixpoint run_batches
    (body : list string -> gmap string DataFrame -> M (gmap string DataFrame))
    (bs : list (list string)) (results : gmap string DataFrame) : M (gmap string DataFrame) :=
  match bs with
  | [] => ret results
  | batch :: rest =>
      do results <- body batch results;
      do_ (if is_nil rest then ret tt else sleep);
      run_batches body rest results
  end.

(** [range(0, n, 0)] raises; a negative step gives no batch at all. *)
Definition _batch_download_bulk (env : Env) (self : YFinanceHelper)
    (tickers : list string) (start_date end_date : string) (batch_size : Z)
    : M (gmap string DataFrame) :=
  if batch_size =? 0 then raise (ValueError "range() arg 3 must not be zero")
  else if batch_size <? 0 then ret ∅
  else run_batches (bulk_batch env self start_date end_date)
                   (batches tickers (Z.to_nat batch_size)) ∅.

Definition _batch_download_individual (env : Env) (self : YFinanceHelper)
    (tickers : list string) (start_date end_date : string) (batch_size : Z)
    : M (gmap string DataFrame) :=
  if batch_size =? 0 then raise (ValueError "range() arg 3 must not be zero")
  else if batch_size <? 0 then ret ∅
  else run_batches (one_by_one env self start_date end_date)
                   (batches tickers (Z.to_nat batch_size)) ∅.

Definition batch_get_stock_data (env : Env) (self : YFinanceHelper)
    (tickers : list string) (start_date end_date : string) (batch_size : Z)
    (use_bulk_download : bool) : M (gmap string DataFrame) :=
  if use_bulk_download
  then _batch_download_bulk env self tickers start_date end_date batch_size
  else _batch_download_individual env self tickers start_date end_date batch_size.

(** What a Python call hands back when the claim is about the value. *)
Inductive pyvalue : Type :=
| PyNone
| PyInt (n : Z).

(** The loop of [clear_cache] over [os.listdir(cache_dir)]. *)
Definition clear_step (cutoff_time : Z) (acc : gmap string file * nat)
    (entry : string * file) : gmap string file * nat :=
  let '(fs, removed_count) := acc in
  let '(filename, f) := entry in
  if endswith filename ".pkl" then
    if mtime f <? cutoff_time then (delete filename fs, S removed_count)
    else (fs, removed_count)
  else (fs, removed_count).

(** The cache directory exists, the constructor creates it; the function has
    no [return] statement, so the caller receives [None]. *)
Definition clear_cache (env : Env) (older_than_days : Z) : M pyvalue :=
  do t <- time_time env;
  let cutoff_time := t - older_than_days * 24 * 3600 in
  do fs <- read_files;
  let '(fs', removed_count) := fold_left (clear_step cutoff_time) (map_to_list fs) (fs, O) in
  do_ write_files fs';
  do_ print (CacheCleared removed_count);
  ret PyNone.

End yfinance_helper.

(** ** KOLSentiment.py *)

Module KOLSentimentDB.
Import yfinance_helper.

(** The object holds its [yf_helper]; engine and session factory are the
    [table] of the process state. *)
Record KOLSentimentDB := mk_db { yf_helper : YFinanceHelper }.

Definition get_stock_price (env : Env) (self : KOLSentimentDB)
    (ticker : string) (date : Z) : M (option float) :=
  try_except
    (do price <- get_stock_price_on_date env (yf_helper self) ticker date 5;
     match price with
     | Some p => ret (Some p)
     | None => ret None
     end)
    (fun _ => ret None).

(** [hist['Close'].iloc[h]] *)
Definition close_at (hist : DataFrame) (h : nat) : outcome float :=
  match df_close hist with
  | Returned closes =>
      match nth_error closes h with
      | Some c => Returned c
      | None => Raised IndexError
      end
  | Raised e => Raised e
  end.

(** [if len(hist) > h: returns[key] = (hist['Close'].iloc[h] - p) / p].
    The close is a numpy [float64], so the arithmetic is numpy's: a zero
    divisor gives an infinity or NaN (with a warning), not an exception. *)
Definition horizon (hist : DataFrame) (h : nat) (initial_price : float)
    : outcome (option float) :=
  if (h <? df_len hist)%nat then
    match close_at hist h with
    | Returned price_h =>
        Returned (Some (PrimFloat.div (PrimFloat.sub price_h initial_price) initial_price))
    | Raised e => Raised e
    end
  else Returned None.

Definition returns_t : Type := option float * option float * option float.

(** The three guarded assignments and the final [returns.get] calls. *)
Definition returns_of (hist : DataFrame) (initial_price : float) : outcome returns_t :=
  match horizon hist 1 initial_price with
  | Returned r1 =>
      match horizon hist 3 initial_price with
      | Returned r3 =>
          match horizon hist 10 initial_price with
          | Returned r10 => Returned (r1, r3, r10)
          | Raised e => Raised e
          end
      | Raised e => Raised e
      end
  | Raised e => Raised e
  end.

Definition calculate_returns (env : Env) (self : KOLSentimentDB)
    (ticker : string) (initial_date : Z) (initial_price : float) : M returns_t :=
  try_except
    (let start_date := strftime_ymd initial_date in
     let end_date := strftime_ymd (plus_days initial_date 20) in
     do hist <- get_stock_data env (yf_helper self) ticker start_date end_date
                               default_max_retries;
     match hist with
     | None => ret (None, None, None)
     | Some hist =>
         if df_empty hist then ret (None, None, None)
         else lift (returns_of hist initial_price)
     end)
    (fun _ => ret (None, None, None)).

(** SQLite hands out the next row id. *)
Definition next_id (rows : list row) : Z :=
  1 + fold_right Z.max 0 (map row_id rows).

(** What SQLite keeps of a bound float: NaN is stored as NULL, a zero of
    either sign is read back as [0.0], every other value, the infinities
    included, comes back as it was. *)
Definition sql_zero (x : float) : float :=
  if PrimFloat.eqb x 0 then 0%float else x.

Definition sql_real (x : float) : option float :=
  if PrimFloat.is_nan x then None else Some (sql_zero x).

(** The row as the INSERT stores it.  [confidence] is declared
    [nullable=False], so a NaN there violates the constraint; the price and
    the returns are nullable. *)
Definition stored (r : row) : outcome row :=
  match sql_real (row_confidence r) with
  | None => Raised (IntegrityError "NOT NULL constraint failed: kol_sentiment.confidence")
  | Some confidence =>
      Returned
        {| row_id := row_id r; row_prediction_time := row_prediction_time r;
           row_kol_name := row_kol_name r; row_ticker := row_ticker r;
           row_sector := row_sector r; row_sentiment := row_sentiment r;
           row_confidence := confidence;
           row_initial_price := row_initial_price r ≫= sql_real;
           row_return_1d := row_return_1d r ≫= sql_real;
           row_return_3d := row_return_3d r ≫= sql_real;
           row_return_10d := row_return_10d r ≫= sql_real;
           row_created_at := row_created_at r |}
  end.

(** [session.add(record); session.commit()], then reading [record.id].  A
    failed commit raises out of the caller, which has no [except]. *)
Definition add_and_commit (env : Env) (record : Z -> Z -> row) : M Z :=
  do created_at <- time_time env;
  fun w =>
    let id := next_id (table w) in
    match stored (record id created_at) with
    | Returned r =>
        (Returned id,
         mk_world (files w) (now w) (reads w) (calls w) (stdout w) (table w ++ [r]))
    | Raised e => (Raised e, w)
    end.

Definition insert_record_with_returns (env : Env) (self : KOLSentimentDB)
    (kol_name ticker sector sentiment : string) (confidence : float)
    (prediction_time : option Z) : M (option Z) :=
  do prediction_time <-
    match prediction_time with
    | Some t => ret t
    | None => time_time env
    end;
  do initial_price <- get_stock_price env self ticker prediction_time;
  match initial_price with
  | Some p =>
      do (return_1d, return_3d, return_10d) <- calculate_returns env self ticker prediction_time p;
      do id <- add_and_commit env (fun id created_at =>
        {| row_id := id; row_prediction_time := prediction_time;
           row_kol_name := kol_name; row_ticker := ticker; row_sector := sector;
           row_sentiment := sentiment; row_confidence := confidence;
           row_initial_price := Some p;
           row_return_1d := return_1d; row_return_3d := return_3d;
           row_return_10d := return_10d; row_created_at := created_at |});
      ret (Some id)
  | None => ret None                    (* the record was never added: no id *)
  end.

(** [.order_by(KOLSentiment.prediction_time.desc())]: newest first.  SQL
    leaves the order of rows with equal times open; here they keep the
    order of the table. *)
Fixpoint insert_desc (r : row) (sorted : list row) : list row :=
  match sorted with
  | [] => [r]
  | x :: rest =>
      if row_prediction_time x <=? row_prediction_time r
      then r :: x :: rest
      else x :: insert_desc r rest
  end.

Definition order_desc (rows : list row) : list row :=
  fold_right insert_desc [] rows.

(** [session.query(KOLSentiment).filter(cond).order_by(...).all()] *)
Definition select_desc (cond : row -> bool) : M (list row) :=
  fun w => (Returned (order_desc (List.filter cond (table w))), w).

Definition is_not_none {A} (o : option A) : bool :=
  match o with Some _ => true | None => false end.

Definition get_records_with_returns : M (list row) :=
  select_desc (fun r => is_not_none (row_return_1d r)).

Definition get_records_by_kol (kol_name : string) : M (list row) :=
  select_desc (fun r => String.eqb (row_kol_name r) kol_name).

Definition get_records_by_ticker (ticker : string) : M (list row) :=
  select_desc (fun r => String.eqb (row_ticker r) ticker).

Definition get_records_by_sector (sector : string) : M (list row) :=
  select_desc (fun r => String.eqb (row_sector r) sector).

Definition get_records_by_date_range (start_date end_date : Z) : M (list row) :=
  select_desc (fun r => (start_date <=? row_prediction_time r)
                        && (row_prediction_time r <=? end_date))%bool.

(** [query.filter(KOLSentiment.id == record_id).first()], then
    [session.delete(record); session.commit()]. *)
Definition delete_record (record_id : Z) : M bool :=
  fun w =>
    match List.find (fun r => row_id r =? record_id) (table w) with
    | Some record =>
        (Returned true,
         mk_world (files w) (now w) (reads w) (calls w) (stdout w)
                  (List.filter (fun r => negb (row_id r =? row_id record)) (table w)))
    | None => (Returned false, w)
    end.

(** The three assignments to a loaded row, as the UPDATE of the commit
    stores them. *)
Definition set_returns (r : row) (returns : returns_t) : row :=
  let '(return_1d, return_3d, return_10d) := returns in
  {| row_id := row_id r; row_prediction_time := row_prediction_time r;
     row_kol_name := row_kol_name r; row_ticker := row_ticker r;
     row_sector := row_sector r; row_sentiment := row_sentiment r;
     row_confidence := row_confidence r; row_initial_price := row_initial_price r;
     row_return_1d := return_1d ≫= sql_real; row_return_3d := return_3d ≫= sql_real;
     row_return_10d := return_10d ≫= sql_real; row_created_at := row_created_at r |}.

(** The loop of [update_returns_for_existing_records] over the table: the
    query keeps the rows whose [return_1d] is not [None]. *)
Fixpoint refresh_rows (env : Env) (self : KOLSentimentDB) (rows : list row)
    : M (list row) :=
  match rows with
  | [] => ret []
  | record :: rest =>
      do record' <-
        (if is_not_none (row_return_1d record) then
           match row_initial_price record with
           | Some initial_price =>
               do returns <- calculate_returns env self (row_ticker record)
                               (row_prediction_time record) initial_price;
               ret (set_returns record returns)
           | None => ret record
           end
         else ret record);
      do rest' <- refresh_rows env self rest;
      ret (record' :: rest')
  end.

Definition update_returns_for_existing_records (env : Env) (self : KOLSentimentDB)
    : M unit :=
  do records <- (fun w => (Returned (table w), w));
  do records' <- refresh_rows env self records;
  fun w =>
    (Returned tt,
     mk_world (files w) (now w) (reads w) (calls w) (stdout w) records').

End KOLSentimentDB.

(** * Vocabulary of the statements and sample inputs *)

(** [a < b] on binary64 numbers, false as soon as one of them is NaN. *)
Definition flt (a b : float) : Prop := PrimFloat.ltb a b = true.

(** The zero-filled entry of an empty horizon. *)
Definition zero_metrics : kol_performance_metrics.period_metrics :=
  kol_performance_metrics.mk_period_metrics 0 0 0 0.

Section AccuracyTerms.
Import kol_accuracy.

(** [ret is not None] *)
Definition present (ret : option float) : bool :=
  match ret with Some _ => true | None => false end.

(** The scorer was run on this return and said "correct". *)
Definition hit (sentiment : string) (ret : option float) : bool :=
  match ret with
  | Some x => truthy (is_direction_correct sentiment x)
  | None => false
  end.

(** How many records satisfy [p]. *)
Definition count (p : record -> bool) (records : list record) : nat :=
  length (List.filter p records).

(** Records of one entity that pass the [return_1d is None: continue] guard. *)
Definition counted_for_kol (k : string) (r : record) : bool :=
  (String.eqb (kol_name r) k && present (return_1d r))%bool.

(** Records of one sentiment class that pass the same guard. *)
Definition counted_for_sentiment (k : string) (r : record) : bool :=
  (String.eqb (lower (sentiment r)) k && present (return_1d r))%bool.

(** [n / d] on two Python integers. *)
Definition ratio (n d : nat) : float :=
  PrimFloat.div (float_of_nat n) (float_of_nat d).

(** The table entry built from a population [sel] of records. *)
Definition tabulate (sel : record -> bool) (records : list record) : stats :=
  let total := count sel records in
  let c1 := count (fun r => sel r && hit (sentiment r) (return_1d r))%bool records in
  let c3 := count (fun r => sel r && hit (sentiment r) (return_3d r))%bool records in
  let c10 := count (fun r => sel r && hit (sentiment r) (return_10d r))%bool records in
  {| total_predictions := total;
     correct_1d := c1; correct_3d := c3; correct_10d := c10;
     accuracy_1d := if (0 <? total)%nat then ratio c1 total else 0%float;
     accuracy_3d := if (0 <? total)%nat then ratio c3 total else 0%float;
     accuracy_10d := if (0 <? total)%nat then ratio c10 total else 0%float |}.

(** Counters of an entry after more records of its population. *)
Definition advance (sel : record -> bool) (records : list record) (st : stats) : stats :=
  {| total_predictions := total_predictions st + count sel records;
     correct_1d :=
       correct_1d st + count (fun r => sel r && hit (sentiment r) (return_1d r))%bool records;
     correct_3d :=
       correct_3d st + count (fun r => sel r && hit (sentiment r) (return_3d r))%bool records;
     correct_10d :=
       correct_10d st + count (fun r => sel r && hit (sentiment r) (return_10d r))%bool records;
     accuracy_1d := accuracy_1d st;
     accuracy_3d := accuracy_3d st;
     accuracy_10d := accuracy_10d st |}.

End AccuracyTerms.

(** Two calls of one commentator: both have a 1-day return, only the second
    has a 3-day return. *)
Definition two_calls : list kol_accuracy.record :=
  [ kol_accuracy.mk_record "a" "positive" (Some 0.02%float) None None;
    kol_accuracy.mk_record "a" "positive" (Some 0.02%float) (Some 0.05%float) None ].

Section ReturnsTerms.
Import yfinance_helper KOLSentimentDB.

(** The return stored for horizon [h]. *)
Definition horizon_return (h : nat) (rs : returns_t) : option float :=
  let '(r1, r3, r10) := rs in
  match h with
  | 1%nat => r1
  | 3%nat => r3
  | 10%nat => r10
  | _ => None
  end.

(** [(series[h].close - entry_price) / entry_price], when bar [h] exists. *)
Definition return_at (series : list bar) (h : nat) (entry_price : float) : option float :=
  (fun b => PrimFloat.div (PrimFloat.sub (bar_close b) entry_price) entry_price)
    <$> nth_error series h.

End ReturnsTerms.

(** Midnight of 2024-01-15, in epoch seconds. *)
Definition monday : Z := 1705276800.

(** Three daily bars closing at 100, 101 and 99. *)
Definition three_bars : list bar :=
  [mk_bar monday 100; mk_bar (monday + 86400) 101; mk_bar (monday + 2 * 86400) 99].

(** A feed that answers every call with those three bars; one second passes
    between clock readings. *)
Definition steady_feed : Env :=
  mk_env (fun _ => 1%N) (fun _ _ => Table (Flat three_bars)).

(** A fresh process: empty cache directory, empty table, nothing sent. *)
Definition boot : World := mk_world ∅ 0 0 [] [] [].

(** A database object whose helper found no optional download parameter. *)
Definition plain_db : KOLSentimentDB.KOLSentimentDB :=
  KOLSentimentDB.mk_db (yfinance_helper.mk_helper false false).

(** The computation commits nothing to the database. *)
Definition keeps_table {A} (m : M A) : Prop :=
  forall w, table (snd (m w)) = table w.

(** A feed that never has data. *)
Definition silent_feed : Env :=
  mk_env (fun _ => 1%N) (fun _ _ => Table (Flat [])).

Section RetryTerms.
Import yfinance_helper.

(** The request [get_stock_data] sends for one ticker. *)
Definition single_request (self : YFinanceHelper) (ticker start_date end_date : string)
    : request :=
  mk_request (One ticker)
    (_get_download_kwargs self
       {| kw_start := start_date; kw_end := end_date; kw_progress := false;
          kw_threads := false; kw_group_by := None; kw_show_errors := None;
          kw_session := false |}).

(** The world after one more upstream call. *)
Definition called (w : World) (rq : request) : World :=
  mk_world (files w) (now w) (reads w) (calls w ++ [rq]) (stdout w) (table w).

(** The feed answers its [n]-th call with a table that has no rows. *)
Definition empty_answer (env : Env) (n : nat) (rq : request) : Prop :=
  exists data, yf_download env n rq = Table data /\ df_empty data = true.

(** The world after [n] more upstream calls with the same request. *)
Fixpoint called_n (w : World) (rq : request) (n : nat) : World :=
  match n with
  | O => w
  | S n' => called_n (called w rq) rq n'
  end.

End RetryTerms.

(** A feed whose first answer is empty and whose later answers have bars. *)
Definition late_feed : Env :=
  mk_env (fun _ => 1%N)
         (fun n _ => match n with O => Table (Flat []) | _ => Table (Flat three_bars) end).

(** A cache entry whose age at time [t] exceeds [older_than_days]. *)
Definition expired (t older_than_days : Z) (entry : string * file) : Prop :=
  endswith (fst entry) ".pkl" = true /\ older_than_days * 24 * 3600 < t - mtime (snd entry).

(** Expiry is decidable, so that it can filter a directory. *)
#[local] Instance expired_dec t d entry : Decision (expired t d entry).
Proof. unfold expired. apply _. Defined.

Section PurgeTerms.
Import yfinance_helper.

(** The test of the loop body. *)
Definition removes (cutoff_time : Z) (entry : string * file) : bool :=
  (endswith (fst entry) ".pkl" && (mtime (snd entry) <? cutoff_time))%bool.

End PurgeTerms.

(** A cache directory with one file last written at time 0, one at 700000
    and a stray text file; the clock stands at 700000, eight days on. *)
Definition dusty : World :=
  mk_world (<["old.pkl" := mk_file 0 None]>
              (<["new.pkl" := mk_file 700000 None]>
                 (<["notes.txt" := mk_file 0 None]> ∅)))
           700000 0 [] [] [].

Section DegradeTerms.
Import yfinance_helper.

(** The request [_batch_download_bulk] sends for the misses of a batch. *)
Definition bulk_request (self : YFinanceHelper) (start_date end_date : string)
    (uncached_tickers : list string) : request :=
  mk_request (Many uncached_tickers)
    (_get_download_kwargs self
       {| kw_start := start_date; kw_end := end_date; kw_progress := false;
          kw_threads := true; kw_group_by := Some "ticker"; kw_show_errors := None;
          kw_session := false |}).

(** The world after a table was written to the cache. *)
Definition saved (env : Env) (w : World) (path : string) (data : DataFrame) : World :=
  let t := now w + Z.of_N (elapse env (reads w)) in
  mk_world (<[path := mk_file t (Some data)]> (files w)) t (S (reads w))
           (calls w) (stdout w) (table w).

(** No usable cache entry for the ticker: no file, a file of 24 hours or
    more, or one that does not unpickle. *)
Definition dead (s e : string) (w : World) (ticker : string) : Prop :=
  match files w !! _get_cache_path ticker s e with
  | None => True
  | Some f => 24 * 3600 <= now w - mtime f \/ content f = None
  end.

(** Along the per-ticker fallback: every ticker of the miss list has been
    requested since the bulk call, or is still dead. *)
Definition pending (self : YFinanceHelper) (s e : string) (U : list string)
    (l : list request) (w : World) : Prop :=
  forall u, In u U -> In (single_request self u s e) l \/ dead s e w u.

(** The ticker has no usable cache entry, or its cache file holds [data]. *)
Definition backed_or_dead (s e : string) (w : World) (ticker : string)
    (data : DataFrame) : Prop :=
  dead s e w ticker \/
  exists f, files w !! _get_cache_path ticker s e = Some f /\ content f = Some data.

End DegradeTerms.

(** A feed whose first call fails outright and whose later calls have bars. *)
Definition flaky_feed : Env :=
  mk_env (fun _ => 1%N)
         (fun n _ => match n with O => Fails "boom" | _ => Table (Flat three_bars) end).

Section FetchTerms.
Import yfinance_helper.

(** The feed answers its [n]-th call with a table that has rows. *)
Definition data_answer (env : Env) (n : nat) (rq : request) (data : DataFrame) : Prop :=
  yf_download env n rq = Table data /\ df_empty data = false.

(** The feed answers its [n]-th call with an error or with an empty table. *)
Definition no_data_answer (env : Env) (n : nat) (rq : request) : Prop :=
  forall data, yf_download env n rq = Table data -> df_empty data = true.

(** Every table that can be read from the cache directory has rows. *)
Definition cache_sound (w : World) : Prop :=
  forall path f data,
    files w !! path = Some f -> content f = Some data -> df_empty data = false.

(** The clock after [k] more readings. *)
Fixpoint clock_after (env : Env) (t : Z) (reads : nat) (k : nat) : Z :=
  match k with
  | O => t
  | S k' => clock_after env (t + Z.of_N (elapse env reads)) (S reads) k'
  end.

End FetchTerms.

(** ** Further vocabulary: worlds, feeds and predicates on computations *)

(** The world after a first fetch from [steady_feed]: the answer is cached. *)
Definition warm : World :=
  snd (yfinance_helper.get_stock_data steady_feed (yfinance_helper.mk_helper false false)
         "AAPL" "2024-01-15" "2024-02-04" 3 boot).

(** A feed that fails twice, once with a rate-limit message, before it has
    bars. *)
Definition shaky_feed : Env :=
  mk_env (fun _ => 1%N)
         (fun n _ => match n with
                     | O => Fails "429 Too Many Requests"
                     | 1%nat => Fails "connection reset"
                     | _ => Table (Flat three_bars)
                     end).

(** A feed that only ever fails. *)
Definition dark_feed : Env :=
  mk_env (fun _ => 1%N) (fun _ _ => Fails "connection reset").

(** Whole-day distance of a bar from the target time. *)
Definition day_distance (target_date : Z) (b : bar) : Z :=
  Z.abs (delta_days (bar_time b) target_date).

(** From a world where [P] holds the computation returns, with [Q]. *)
Definition hoare {A} (P : World -> Prop) (m : M A) (Q : A -> World -> Prop) : Prop :=
  forall w, P w -> exists a w', m w = (Returned a, w') /\ Q a w'.

(** Every ticker of the result was asked for and its table has rows. *)
Definition results_sound (tickers : list string) (results : gmap string DataFrame) : Prop :=
  forall t data, results !! t = Some data -> In t tickers /\ df_empty data = false.

(** Every ticker of the batch has a cache file that unpickles and is still
    younger than 24 hours after as many clock readings as the batch has
    tickers. *)
Definition all_live (env : Env) (s e : string) (batch : list string) (w : World) : Prop :=
  forall t, In t batch ->
    exists f data,
      files w !! yfinance_helper._get_cache_path t s e = Some f /\
      content f = Some data /\
      clock_after env (now w) (reads w) (length batch) - mtime f < 24 * 3600.

(** What a grouped bulk answer resolves a ticker to. *)
Definition resolved (index : list Z) (groups : list (string * list float)) (ticker : string)
    : option DataFrame :=
  match yfinance_helper.group_of index groups ticker with
  | Some ticker_data => if df_empty ticker_data then None else Some ticker_data
  | None => None
  end.

(** The same world with another cache directory. *)
Definition with_files (fs : gmap string file) (w : World) : World :=
  mk_world fs (now w) (reads w) (calls w) (stdout w) (table w).

(** A feed whose answers are grouped by ticker and know "A" and "B" only. *)
Definition grouped_feed : Env :=
  mk_env (fun _ => 1%N)
         (fun _ _ => Table (ByTicker [monday; monday + 86400]
                                     [("A", [1%float; 2%float]); ("B", [3%float; 4%float])])).

(** The computation returns, with [Q], after at most [n] upstream calls. *)
Definition spends {A} (m : M A) (n : nat) (Q : A -> Prop) : Prop :=
  forall w, exists a w' extra,
    m w = (Returned a, w') /\ calls w' = (calls w ++ extra)%list /\
    (length extra <= n)%nat /\ Q a.

(** Newest first. *)
Definition newest_first (rows : list row) : Prop :=
  StronglySorted (fun a b => row_prediction_time b <= row_prediction_time a) rows.

(** The two rows agree on every column but the three returns. *)
Definition same_event (r r' : row) : Prop :=
  row_id r' = row_id r /\ row_prediction_time r' = row_prediction_time r /\
  row_kol_name r' = row_kol_name r /\ row_ticker r' = row_ticker r /\
  row_sector r' = row_sector r /\ row_sentiment r' = row_sentiment r /\
  row_confidence r' = row_confidence r /\ row_initial_price r' = row_initial_price r /\
  row_created_at r' = row_created_at r.

(** What [update_returns_for_existing_records] may do to one row. *)
Definition refreshed (env : Env) (self : KOLSentimentDB.KOLSentimentDB) (r r' : row) : Prop :=
  r' = r \/
  exists p rs w1 w2,
    is_Some (row_return_1d r) /\ row_initial_price r = Some p /\
    KOLSentimentDB.calculate_returns env self (row_ticker r) (row_prediction_time r) p w1
    = (Returned rs, w2) /\
    r' = KOLSentimentDB.set_returns r rs.

(** A later horizon has a return only if the earlier ones have. *)
Definition nested (rs : KOLSentimentDB.returns_t) : Prop :=
  let '(r1, r3, r10) := rs in
  (is_Some r10 -> is_Some r3) /\ (is_Some r3 -> is_Some r1).

(** A table with one row that has no 1-day return. *)
Definition lonely_row : row :=
  {| row_id := 1; row_prediction_time := monday; row_kol_name := "kol";
     row_ticker := "AAPL"; row_sector := "Tech"; row_sentiment := "positive";
     row_confidence := 0.8; row_initial_price := Some 100%float;
     row_return_1d := None; row_return_3d := None; row_return_10d := None;
     row_created_at := 3 |}.

Definition lonely : World := mk_world ∅ 0 0 [] [] [lonely_row].

(** A feed whose four daily bars close at 100, NaN, 102 and 103. *)
Definition gap_feed : Env :=
  mk_env (fun _ => 1%N)
         (fun _ _ => Table (Flat [mk_bar monday 100; mk_bar (monday + 86400) nan;
                                  mk_bar (monday + 2 * 86400) 102;
                                  mk_bar (monday + 3 * 86400) 103])).

Section MetricsTerms.
Import kol_accuracy.

(** The records of one commentator that pass the [return_1d is None] guard,
    in the order of the input. *)
Definition own_records (k : string) (records : list record) : list record :=
  List.filter (counted_for_kol k) records.

(** An entry of [kol_metrics] after more records of its commentator. *)
Definition collect (own : list record) (data : kol_performance_metrics.kol_data)
    : kol_performance_metrics.kol_data :=
  {| kol_performance_metrics.returns_1d :=
       kol_performance_metrics.returns_1d data ++ omap return_1d own;
     kol_performance_metrics.returns_3d :=
       kol_performance_metrics.returns_3d data ++ omap return_3d own;
     kol_performance_metrics.returns_10d :=
       kol_performance_metrics.returns_10d data ++ omap return_10d own;
     kol_performance_metrics.correct_predictions :=
       kol_performance_metrics.correct_predictions data
       + count (fun r => hit (sentiment r) (return_1d r)) own;
     kol_performance_metrics.d_total_predictions :=
       kol_performance_metrics.d_total_predictions data + length own |}.

(** The metrics of a commentator from their own records. *)
Definition summary (k : string) (own : list record)
    : kol_performance_metrics.KOLPerformanceMetrics :=
  let metrics_1d := kol_performance_metrics.calculate_period_metrics (omap return_1d own) in
  let metrics_3d := kol_performance_metrics.calculate_period_metrics (omap return_3d own) in
  let metrics_10d := kol_performance_metrics.calculate_period_metrics (omap return_10d own) in
  {| kol_performance_metrics.kol_name := k;
     kol_performance_metrics.direction_correctness_rate :=
       ratio (count (fun r => hit (sentiment r) (return_1d r)) own) (length own);
     kol_performance_metrics.mean_return_1d := kol_performance_metrics.mean_return metrics_1d;
     kol_performance_metrics.mean_return_3d := kol_performance_metrics.mean_return metrics_3d;
     kol_performance_metrics.mean_return_10d := kol_performance_metrics.mean_return metrics_10d;
     kol_performance_metrics.volatility_1d := kol_performance_metrics.volatility metrics_1d;
     kol_performance_metrics.volatility_3d := kol_performance_metrics.volatility metrics_3d;
     kol_performance_metrics.volatility_10d := kol_performance_metrics.volatility metrics_10d;
     kol_performance_metrics.sharpe_ratio_1d := kol_performance_metrics.sharpe_ratio metrics_1d;
     kol_performance_metrics.sharpe_ratio_3d := kol_performance_metrics.sharpe_ratio metrics_3d;
     kol_performance_metrics.sharpe_ratio_10d := kol_performance_metrics.sharpe_ratio metrics_10d;
     kol_performance_metrics.information_ratio_1d :=
       kol_performance_metrics.information_ratio metrics_1d;
     kol_performance_metrics.information_ratio_3d :=
       kol_performance_metrics.information_ratio metrics_3d;
     kol_performance_metrics.information_ratio_10d :=
       kol_performance_metrics.information_ratio metrics_10d;
     kol_performance_metrics.total_predictions := length own |}.

End MetricsTerms.

(** Three calls of two commentators; the second call of "a" has no return
    at all and the first has no 3-day return. *)
Definition mixed_calls : list kol_accuracy.record :=
  [ kol_accuracy.mk_record "a" "positive" (Some 0.02%float) None None;
    kol_accuracy.mk_record "a" "negative" None None None;
    kol_accuracy.mk_record "b" "Negative" (Some (-0.01)%float) (Some 0.03%float) None ].

(** The record has a 1-day return and one of the three known sentiments. *)
Definition recognised (r : kol_accuracy.record) : bool :=
  (counted_for_sentiment "positive" r || counted_for_sentiment "negative" r
   || counted_for_sentiment "neutral" r)%bool.

(** * Properties *)

(** ** The embedding on small inputs *)

Example strftime_samples :
  strftime_ymd monday = "2024-01-15" /\
  strftime_ymd (plus_days monday 20) = "2024-02-04" /\
  strftime_ymd (plus_days monday (-5)) = "2024-01-10" /\
  strftime_ymd 951782400 = "2000-02-29" /\
  strftime_ymd (monday + 86399) = "2024-01-15".
Proof. vm_compute. repeat split; reflexivity. Qed.

Example batches_sample :
  yfinance_helper.batches ["A"; "B"; "C"; "D"; "E"] 2 = [["A"; "B"]; ["C"; "D"]; ["E"]] /\
  yfinance_helper.batches ["A"; "B"] 2 = [["A"; "B"]] /\
  yfinance_helper.batches [] 2 = [].
Proof. vm_compute. repeat split; reflexivity. Qed.

(** The price at a date: the bar of that day, else the first bar at the
    least whole-day distance. *)
Example price_on_date_samples :
  fst (yfinance_helper.get_stock_price_on_date steady_feed
         (yfinance_helper.mk_helper false false) "AAPL" (monday + 86400 + 3600) 5 boot)
  = Returned (Some 101%float) /\
  fst (yfinance_helper.get_stock_price_on_date steady_feed
         (yfinance_helper.mk_helper false false) "AAPL" (monday + 4 * 86400) 5 boot)
  = Returned (Some 99%float) /\
  fst (yfinance_helper.get_stock_price_on_date silent_feed
         (yfinance_helper.mk_helper false false) "AAPL" monday 5 boot)
  = Returned None.
Proof. vm_compute. repeat split; reflexivity. Qed.

(** A second fetch of the same range within the day is served by the cache:
    one upstream call in all. *)
Example cache_hit_sample :
  let self := yfinance_helper.mk_helper false false in
  let r1 := yfinance_helper.get_stock_data steady_feed self "AAPL" "2024-01-15" "2024-02-04" 3 boot in
  let r2 := yfinance_helper.get_stock_data steady_feed self "AAPL" "2024-01-15" "2024-02-04" 3 (snd r1) in
  fst r2 = Returned (Some (Flat three_bars)) /\ length (calls (snd r2)) = 1%nat.
Proof. vm_compute. split; reflexivity. Qed.

(** ** Direction scoring *)

Lemma lower_ascii_idem (c : ascii) : lower_ascii (lower_ascii c) = lower_ascii c.
Proof. destruct c as [[] [] [] [] [] [] [] []]; reflexivity. Qed.

Lemma lower_idem (s : string) : lower (lower s) = lower s.
Proof.
  induction s as [|c s IH]; simpl; [reflexivity|].
  now rewrite lower_ascii_idem, IH.
Qed.

Lemma direction_positive (r : float) :
  kol_accuracy.is_direction_correct "positive" r = 1 <-> flt 0 r.
Proof.
  unfold kol_accuracy.is_direction_correct, flt; simpl.
  destruct (PrimFloat.ltb 0 r); split; intros H; try reflexivity; discriminate.
Qed.

Lemma direction_negative (r : float) :
  kol_accuracy.is_direction_correct "negative" r = 1 <-> flt r 0.
Proof.
  unfold kol_accuracy.is_direction_correct, flt; simpl.
  destruct (PrimFloat.ltb r 0); split; intros H; try reflexivity; discriminate.
Qed.

Lemma direction_neutral (r : float) :
  kol_accuracy.is_direction_correct "neutral" r = 1 <-> flt (PrimFloat.abs r) 0.01.
Proof.
  unfold kol_accuracy.is_direction_correct, flt; simpl.
  destruct (PrimFloat.ltb (PrimFloat.abs r) 0.01); split; intros H;
    try reflexivity; discriminate.
Qed.

Lemma direction_case_blind (s : string) (r : float) :
  kol_accuracy.is_direction_correct s r = kol_accuracy.is_direction_correct (lower s) r.
Proof. unfold kol_accuracy.is_direction_correct. now rewrite lower_idem. Qed.

Lemma direction_other (s : string) (r : float) :
  lower s <> "positive" -> lower s <> "negative" -> lower s <> "neutral" ->
  kol_accuracy.is_direction_correct s r = 0.
Proof.
  intros Hp Hn Hu. unfold kol_accuracy.is_direction_correct.
  apply String.eqb_neq in Hp, Hn, Hu. now rewrite Hp, Hn, Hu.
Qed.

Lemma direction_copies_agree (s : string) (r : float) :
  kol_performance_metrics.is_direction_correct s r = kol_accuracy.is_direction_correct s r.
Proof. reflexivity. Qed.

(** C3: the scorer of [kol_accuracy.py], and its copy in
    [kol_performance_metrics.py], decide correctness exactly by the sign rule:
    a positive call is correct iff the return is above zero, a negative call
    iff it is below zero, a neutral call iff its absolute value is below 0.01;
    the sentiment is read case-insensitively and the answer is the integer 1
    or 0.  The four sample pairs of the specification come out as stated. *)
Theorem direction_correct_rule :
  (forall r, kol_accuracy.is_direction_correct "positive" r = 1 <-> flt 0 r) /\
  (forall r, kol_accuracy.is_direction_correct "negative" r = 1 <-> flt r 0) /\
  (forall r, kol_accuracy.is_direction_correct "neutral" r = 1
             <-> flt (PrimFloat.abs r) 0.01) /\
  (forall s r, kol_accuracy.is_direction_correct s r
               = kol_accuracy.is_direction_correct (lower s) r) /\
  (forall s r, kol_accuracy.is_direction_correct s r = 1
               \/ kol_accuracy.is_direction_correct s r = 0) /\
  (forall s r, kol_performance_metrics.is_direction_correct s r
               = kol_accuracy.is_direction_correct s r) /\
  kol_accuracy.is_direction_correct "positive" 0.03 = 1 /\
  kol_accuracy.is_direction_correct "positive" (-0.01) = 0 /\
  kol_accuracy.is_direction_correct "neutral" 0.005 = 1 /\
  kol_accuracy.is_direction_correct "neutral" 0.02 = 0.
Proof.
  split; [exact direction_positive|].
  split; [exact direction_negative|].
  split; [exact direction_neutral|].
  split; [exact direction_case_blind|].
  split.
  { intros s r. unfold kol_accuracy.is_direction_correct.
    repeat match goal with |- context [if ?b then _ else _] => destruct b end; auto. }
  split; [exact direction_copies_agree|].
  repeat split; vm_compute; reflexivity.
Qed.

(** ** Period metrics *)

Lemma period_metrics_empty :
  kol_performance_metrics.calculate_period_metrics [] = zero_metrics.
Proof. reflexivity. Qed.

(** The fuel of [pairwise_sum] never runs out: any two bounds on the
    length give the same sum. *)
Lemma pairwise_sum_fuel (f g : nat) (a : list float) :
  (length a <= f)%nat -> (length a <= g)%nat ->
  kol_performance_metrics.pairwise_sum f a = kol_performance_metrics.pairwise_sum g a.
Proof.
  revert g a. induction f as [|f IH]; intros g a Hf Hg.
  - destruct a; [|simpl in Hf; lia]. destruct g; reflexivity.
  - destruct g as [|g].
    + destruct a; [reflexivity | simpl in Hg; lia].
    + cbn [kol_performance_metrics.pairwise_sum].
      destruct (length a <? 8)%nat; [reflexivity|].
      destruct (Nat.leb_spec (length a) 128) as [_|Hbig]; [reflexivity|].
      assert (Hhalf : (64 <= length a / 2 < length a)%nat).
      { split; [apply Nat.div_le_lower_bound; lia | apply Nat.div_lt; lia]. }
      assert (Hrem : ((length a / 2) mod 8 < 8)%nat) by (apply Nat.mod_upper_bound; lia).
      revert Hhalf Hrem.
      generalize ((length a / 2) mod 8)%nat. generalize (length a / 2)%nat.
      intros h r Hhalf Hrem.
      f_equal; apply IH; rewrite ?length_firstn, ?length_skipn; lia.
Qed.

(** Ten returns of 0.1: the lanes add up to exactly 1, the mean is 0.1 and
    the volatility 0, where a plain left-to-right sum would be one unit in the
    last place short. *)
Lemma pairwise_sum_sample :
  kol_performance_metrics.np_sum (repeat 0.1%float 10) = 1%float /\
  fold_left PrimFloat.add (repeat 0.1%float 10) 0%float = 0.99999999999999989%float /\
  kol_performance_metrics.volatility
    (kol_performance_metrics.calculate_period_metrics (repeat 0.1%float 10)) = 0%float /\
  kol_performance_metrics.sharpe_ratio
    (kol_performance_metrics.calculate_period_metrics (repeat 0.1%float 10)) = 0%float.
Proof. vm_compute. repeat split. Qed.

(** With observations, the volatility is the square root of the summed
    squared deviations over [N - 1]. *)
Lemma period_metrics_volatility (x : float) (xs : list float) :
  let returns := x :: xs in
  let m := kol_performance_metrics.np_mean returns in
  kol_performance_metrics.volatility
    (kol_performance_metrics.calculate_period_metrics returns)
  = PrimFloat.sqrt
      (PrimFloat.div
         (kol_performance_metrics.np_sum
            (map (fun v => PrimFloat.mul (PrimFloat.sub v m) (PrimFloat.sub v m)) returns))
         (float_of_nat (length returns - 1))).
Proof.
  cbv zeta. unfold kol_performance_metrics.calculate_period_metrics,
    kol_performance_metrics.volatility, kol_performance_metrics.np_std,
    kol_performance_metrics.np_var.
  now rewrite map_map.
Qed.

(** C2: an empty return list gives four zeros, but a list with a single
    observation leaves [np.std(..., ddof=1)] with the quotient 0/0: the
    volatility is NaN, not 0 (the two ratios are 0 because [nan > 0] is
    false). *)
Theorem period_metrics_single_observation :
  kol_performance_metrics.calculate_period_metrics [] = zero_metrics /\
  (let m := kol_performance_metrics.calculate_period_metrics [0.05%float] in
   PrimFloat.is_nan (kol_performance_metrics.volatility m) = true /\
   kol_performance_metrics.volatility m <> 0%float /\
   kol_performance_metrics.sharpe_ratio m = 0%float /\
   kol_performance_metrics.information_ratio m = 0%float) /\
  (let m := kol_performance_metrics.calculate_period_metrics [0.05%float; 0.01%float] in
   PrimFloat.is_nan (kol_performance_metrics.volatility m) = false).
Proof.
  repeat split; try (vm_compute; reflexivity).
  vm_compute. discriminate.
Qed.

(** ** Composite grade *)

Section Grade.
Import kol_grade_system.
Local Open Scope Q_scope.














End Grade.



(** ** Accuracy tables *)

Section Accuracy.
Import kol_accuracy.

Lemma bump_hit (s : string) (ret : option float) (n : nat) :
  bump s ret n = (n + if hit s ret then 1 else 0)%nat.
Proof.
  unfold bump, hit. destruct ret as [x|]; [|lia].
  destruct (truthy (is_direction_correct s x)); lia.
Qed.

Lemma advance_nil (sel : record -> bool) (st : stats) : advance sel [] st = st.
Proof.
  destruct st. unfold advance, count. simpl. f_equal; lia.
Qed.

Lemma advance_cons_in (sel : record -> bool) (r : record) (rs : list record) (st : stats) :
  sel r = true -> advance sel (r :: rs) st = advance sel rs (count_record r st).
Proof.
  intros H. unfold advance, count_record, count. simpl.
  rewrite H, !bump_hit. simpl.
  destruct (hit (sentiment r) (return_1d r)), (hit (sentiment r) (return_3d r)),
    (hit (sentiment r) (return_10d r)); simpl; f_equal; lia.
Qed.

Lemma advance_cons_out (sel : record -> bool) (r : record) (rs : list record) (st : stats) :
  sel r = false -> advance sel (r :: rs) st = advance sel rs st.
Proof.
  intros H. unfold advance, count. simpl. now rewrite H.
Qed.

Lemma count_cons (p : record -> bool) (r : record) (rs : list record) :
  count p (r :: rs) = ((if p r then 1 else 0) + count p rs)%nat.
Proof. unfold count. simpl. destruct (p r); reflexivity. Qed.

(** One key of [kol_stats] along the first loop. *)
Lemma kol_fold_lookup (k : string) (rs : list record) (m : gmap string stats) :
  fold_left kol_step rs m !! k
  = if (0 <? count (counted_for_kol k) rs)%nat
    then Some (advance (counted_for_kol k) rs (default fresh_stats (m !! k)))
    else m !! k.
Proof.
  revert m. induction rs as [|r rs IH]; intros m; [reflexivity|].
  simpl fold_left. rewrite IH, count_cons.
  destruct (counted_for_kol k r) eqn:Ec.
  - rewrite (advance_cons_in _ _ _ _ Ec).
    unfold counted_for_kol in Ec. apply andb_prop in Ec as [Ek E1].
    apply String.eqb_eq in Ek. unfold kol_step.
    destruct (return_1d r); [|discriminate].
    rewrite Ek, lookup_insert_eq. simpl.
    destruct (0 <? count (counted_for_kol k) rs)%nat eqn:Ez; [subst k; reflexivity|].
    apply Nat.ltb_ge in Ez.
    assert (E0 : count (counted_for_kol k) rs = O) by lia.
    f_equal. unfold advance. rewrite E0.
    assert (Hz : forall q, count (fun r0 => counted_for_kol k r0 && q r0)%bool rs = O).
    { intros q. unfold count in *. clear - E0.
      induction rs as [|a rs IH]; [reflexivity|]. simpl in *.
      destruct (counted_for_kol k a); simpl in *; [discriminate | auto]. }
    rewrite !Hz. subst k. destruct (count_record r _). simpl. f_equal; lia.
  - rewrite (advance_cons_out _ _ _ _ Ec). simpl.
    unfold counted_for_kol in Ec. unfold kol_step.
    destruct (return_1d r); [|reflexivity].
    simpl in Ec. rewrite andb_true_r in Ec. apply String.eqb_neq in Ec.
    now rewrite lookup_insert_ne.
Qed.
(** One key of [sentiment_stats] along the first loop: keys are never
    added, and an existing key collects the records of its class. *)
Lemma sentiment_fold_lookup (k : string) (rs : list record) (m : gmap string stats) :
  fold_left sentiment_step rs m !! k
  = advance (counted_for_sentiment k) rs <$> m !! k.
Proof.
  revert m. induction rs as [|r rs IH]; intros m.
  - simpl. destruct (m !! k) as [st|]; simpl; [|reflexivity].
    now rewrite advance_nil.
  - simpl fold_left. rewrite IH. unfold sentiment_step.
    destruct (counted_for_sentiment k r) eqn:Ec.
    + unfold counted_for_sentiment in Ec. apply andb_prop in Ec as [Ek E1].
      apply String.eqb_eq in Ek.
      destruct (return_1d r) eqn:E; [|discriminate].
      rewrite Ek. destruct (m !! k) as [st|] eqn:Em.
      * rewrite lookup_insert_eq. simpl. f_equal. symmetry.
        apply advance_cons_in. unfold counted_for_sentiment.
        now rewrite E, Ek, String.eqb_refl.
      * now rewrite Em.
    + assert (Hout : forall st, advance (counted_for_sentiment k) (r :: rs) st
                            = advance (counted_for_sentiment k) rs st)
        by (intros st; now apply advance_cons_out).
      unfold counted_for_sentiment in Ec.
      destruct (return_1d r) eqn:E.
      * simpl in Ec. rewrite andb_true_r in Ec. apply String.eqb_neq in Ec.
        destruct (m !! lower (sentiment r)) as [entry|].
        -- rewrite lookup_insert_ne by exact Ec.
           destruct (m !! k); simpl; [now rewrite Hout | reflexivity].
        -- destruct (m !! k); simpl; [now rewrite Hout | reflexivity].
      * destruct (m !! k); simpl; [now rewrite Hout | reflexivity].
Qed.

Lemma set_accuracy_advance (sel : record -> bool) (rs : list record) :
  set_accuracy (advance sel rs fresh_stats) = tabulate sel rs.
Proof.
  unfold set_accuracy, advance, tabulate, ratio. simpl.
  destruct (0 <? count sel rs)%nat; reflexivity.
Qed.

Lemma kol_stats_lookup (rs : list record) (k : string) :
  get_kol_performance_stats rs !! k
  = if (0 <? count (counted_for_kol k) rs)%nat
    then Some (tabulate (counted_for_kol k) rs)
    else None.
Proof.
  unfold get_kol_performance_stats.
  rewrite lookup_fmap, kol_fold_lookup, lookup_empty. simpl.
  destruct (0 <? count (counted_for_kol k) rs)%nat; [|reflexivity].
  simpl. now rewrite set_accuracy_advance.
Qed.

Lemma sentiment_stats_lookup (rs : list record) (k : string) :
  analyze_sentiment_accuracy rs !! k
  = if (String.eqb k "positive" || String.eqb k "negative" || String.eqb k "neutral")%bool
    then Some (tabulate (counted_for_sentiment k) rs)
    else None.
Proof.
  unfold analyze_sentiment_accuracy.
  rewrite lookup_fmap, sentiment_fold_lookup. unfold initial_sentiment_stats.
  destruct (String.eqb_spec k "positive") as [->|Hp].
  { rewrite lookup_insert_eq. simpl. now rewrite set_accuracy_advance. }
  rewrite lookup_insert_ne by congruence.
  destruct (String.eqb_spec k "negative") as [->|Hn].
  { rewrite lookup_insert_eq. simpl. now rewrite set_accuracy_advance. }
  rewrite lookup_insert_ne by congruence.
  destruct (String.eqb_spec k "neutral") as [->|Hu].
  { rewrite lookup_insert_eq. simpl. now rewrite set_accuracy_advance. }
  rewrite lookup_insert_ne by congruence. now rewrite lookup_empty.
Qed.

End Accuracy.

(** C7, as claimed, fails on [two_calls]: one event has a 3-day return and it
    is correct, yet the 3-day accuracy is 1/2, the correct count over the two
    events with a 1-day return, not 1/1. *)
Lemma accuracy_denominator_counterexample :
  exists st,
    kol_accuracy.get_kol_performance_stats two_calls !! "a" = Some st /\
    kol_accuracy.correct_3d st = 1%nat /\
    count (fun r => String.eqb (kol_accuracy.kol_name r) "a"
                    && present (kol_accuracy.return_3d r))%bool two_calls = 1%nat /\
    count (counted_for_kol "a") two_calls = 2%nat /\
    kol_accuracy.accuracy_3d st = 0.5%float /\
    kol_accuracy.accuracy_3d st <> ratio 1 1.
Proof.
  eexists. split; [vm_compute; reflexivity|].
  repeat split; try (vm_compute; reflexivity).
  vm_compute. discriminate.
Qed.

(** C7, amended: a record without a 1-day return is skipped altogether; among
    the others an absent horizon-h return is never scored, so it adds nothing
    to the correct count of h, but every per-horizon accuracy is that count
    divided by the number of records with a 1-day return (the entity's
    [total_predictions], the class's [total]).  This holds per commentator in
    [get_kol_performance_stats] and per sentiment class in
    [analyze_sentiment_accuracy]. *)
Theorem accuracy_tables :
  (forall (rs : list kol_accuracy.record) (k : string),
      kol_accuracy.get_kol_performance_stats rs !! k
      = if (0 <? count (counted_for_kol k) rs)%nat
        then Some (tabulate (counted_for_kol k) rs)
        else None) /\
  (forall (rs : list kol_accuracy.record) (k : string),
      kol_accuracy.analyze_sentiment_accuracy rs !! k
      = if (String.eqb k "positive" || String.eqb k "negative" || String.eqb k "neutral")%bool
        then Some (tabulate (counted_for_sentiment k) rs)
        else None) /\
  (forall (sel : kol_accuracy.record -> bool) (rs : list kol_accuracy.record),
      let st := tabulate sel rs in
      kol_accuracy.total_predictions st = count sel rs /\
      kol_accuracy.correct_3d st
      = count (fun r => sel r && hit (kol_accuracy.sentiment r) (kol_accuracy.return_3d r))%bool rs /\
      kol_accuracy.correct_10d st
      = count (fun r => sel r && hit (kol_accuracy.sentiment r) (kol_accuracy.return_10d r))%bool rs /\
      (count sel rs <> 0%nat ->
       kol_accuracy.accuracy_1d st = ratio (kol_accuracy.correct_1d st) (count sel rs) /\
       kol_accuracy.accuracy_3d st = ratio (kol_accuracy.correct_3d st) (count sel rs) /\
       kol_accuracy.accuracy_10d st = ratio (kol_accuracy.correct_10d st) (count sel rs))) /\
  (forall s, hit s None = false).
Proof.
  split; [exact kol_stats_lookup|].
  split; [exact sentiment_stats_lookup|].
  split; [|reflexivity].
  intros sel rs st.
  split; [reflexivity|]. split; [reflexivity|]. split; [reflexivity|].
  intros Hpos. unfold st, tabulate; simpl.
  destruct (Nat.ltb_spec 0 (count sel rs)); [auto | lia].
Qed.

Lemma accuracy_tables_witness :
  kol_accuracy.accuracy_3d (tabulate (counted_for_kol "a") two_calls)
  = ratio (kol_accuracy.correct_3d (tabulate (counted_for_kol "a") two_calls))
          (count (counted_for_kol "a") two_calls).
Proof.
  refine (proj1 (proj2 (proj2 (proj2 (proj2
            (proj1 (proj2 (proj2 accuracy_tables)) (counted_for_kol "a") two_calls))) _))).
  vm_compute. discriminate.
Defined.

(** ** Forward returns *)

Section Returns.
Import yfinance_helper KOLSentimentDB.

Lemma horizon_flat (series : list bar) (h : nat) (p : float) :
  horizon (Flat series) h p = Returned (return_at series h p).
Proof.
  unfold horizon, return_at, close_at. simpl.
  destruct (Nat.ltb_spec h (length series)) as [Hlt|Hge].
  - rewrite nth_error_map.
    destruct (nth_error series h) as [b|] eqn:E; [reflexivity|].
    apply nth_error_None in E. lia.
  - apply nth_error_None in Hge. now rewrite Hge.
Qed.

Lemma returns_of_flat (series : list bar) (p : float) :
  returns_of (Flat series) p
  = Returned (return_at series 1 p, return_at series 3 p, return_at series 10 p).
Proof. unfold returns_of. now rewrite !horizon_flat. Qed.

Lemma return_at_present (series : list bar) (h : nat) (p : float) :
  is_Some (return_at series h p) <-> (h < length series)%nat.
Proof.
  unfold return_at. rewrite fmap_is_Some. split.
  - intros [b Hb]. apply nth_error_Some. congruence.
  - intros H. apply nth_error_Some in H.
    destruct (nth_error series h); [eauto | contradiction].
Qed.

Lemma calculate_returns_flat (env : Env) (self : KOLSentimentDB.KOLSentimentDB)
    (ticker : string) (initial_date : Z) (p : float) (w w' : World) (series : list bar) :
  get_stock_data env (yf_helper self) ticker (strftime_ymd initial_date)
    (strftime_ymd (plus_days initial_date 20)) default_max_retries w
  = (Returned (Some (Flat series)), w') ->
  calculate_returns env self ticker initial_date p w
  = (Returned (return_at series 1 p, return_at series 3 p, return_at series 10 p), w').
Proof.
  intros H. unfold calculate_returns, try_except, bind. rewrite H.
  destruct series as [|b series]; [reflexivity|].
  simpl df_empty. cbv iota. unfold lift. now rewrite returns_of_flat.
Qed.

(** The [except Exception] clause leaves no way to raise. *)
Lemma calculate_returns_total (env : Env) (self : KOLSentimentDB.KOLSentimentDB)
    (ticker : string) (initial_date : Z) (p : float) (w : World) :
  exists rs w', calculate_returns env self ticker initial_date p w = (Returned rs, w').
Proof.
  unfold calculate_returns, try_except.
  match goal with |- context [match ?m w with _ => _ end] => destruct (m w) as [[rs|e] w'] end;
    unfold ret; eauto.
Qed.

End Returns.

(** C1: when the fetch yields a price series, [calculate_returns] returns,
    for each horizon h of 1, 3 and 10, a value exactly when the series has
    more than h bars, and that value is (close of bar h - entry price) /
    entry price, bar h counted from 0 in the order of the series. *)
Theorem returns_by_horizon (env : Env) (self : KOLSentimentDB.KOLSentimentDB)
    (ticker : string) (initial_date : Z) (entry_price : float) (w w' : World)
    (series : list bar) :
  yfinance_helper.get_stock_data env (KOLSentimentDB.yf_helper self) ticker
    (strftime_ymd initial_date) (strftime_ymd (plus_days initial_date 20))
    yfinance_helper.default_max_retries w
  = (Returned (Some (Flat series)), w') ->
  exists rs,
    KOLSentimentDB.calculate_returns env self ticker initial_date entry_price w
    = (Returned rs, w') /\
    forall h, In h [1; 3; 10]%nat ->
      (is_Some (horizon_return h rs) <-> (h < length series)%nat) /\
      horizon_return h rs
      = (fun b => PrimFloat.div (PrimFloat.sub (bar_close b) entry_price) entry_price)
          <$> nth_error series h.
Proof.
  intros H. eexists. split; [exact (calculate_returns_flat _ _ _ _ _ _ _ _ H)|].
  intros h Hh. simpl in Hh.
  destruct Hh as [<-|[<-|[<-|[]]]]; (split; [apply return_at_present | reflexivity]).
Qed.

Lemma returns_by_horizon_witness :
  exists rs,
    KOLSentimentDB.calculate_returns steady_feed plain_db "AAPL" monday 100 boot
    = (Returned rs,
       snd (yfinance_helper.get_stock_data steady_feed (KOLSentimentDB.yf_helper plain_db)
              "AAPL" (strftime_ymd monday) (strftime_ymd (plus_days monday 20))
              yfinance_helper.default_max_retries boot)) /\
    forall h, In h [1; 3; 10]%nat ->
      (is_Some (horizon_return h rs) <-> (h < length three_bars)%nat) /\
      horizon_return h rs
      = (fun b => PrimFloat.div (PrimFloat.sub (bar_close b) 100) 100)
          <$> nth_error three_bars h.
Proof.
  apply (returns_by_horizon steady_feed plain_db "AAPL" monday 100 boot).
  vm_compute. reflexivity.
Defined.

(** A 3-bar series yields a 1-day return and neither of the others. *)
Lemma three_bars_one_return :
  fst (KOLSentimentDB.calculate_returns steady_feed plain_db "AAPL" monday 100 boot)
  = Returned (Some 0.01%float, None, None).
Proof. vm_compute. reflexivity. Qed.

(** C5, as claimed, fails: with an entry price of zero and a feed that has
    bars, the call returns normally and its 1-day return is the binary64
    quotient (101 - 0) / 0, which is +infinity; no error of any kind is
    raised. *)
Lemma zero_entry_price_counterexample :
  fst (KOLSentimentDB.calculate_returns steady_feed plain_db "AAPL" monday 0 boot)
  = Returned (Some infinity, None, None) /\
  forall msg,
    fst (KOLSentimentDB.calculate_returns steady_feed plain_db "AAPL" monday 0 boot)
    <> Raised (InvalidInput msg).
Proof.
  split; [vm_compute; reflexivity|].
  intros msg. vm_compute. discriminate.
Qed.

(** C5, amended: [calculate_returns] never raises, whatever the entry price;
    anything raised inside is caught and becomes three absent returns.  With
    an entry price of zero and a fetched series, each horizon h within the
    series gets the binary64 quotient (close of bar h - 0) / 0, the others
    stay absent. *)
Theorem zero_entry_price_returns :
  (forall env self ticker initial_date entry_price w,
      exists rs w',
        KOLSentimentDB.calculate_returns env self ticker initial_date entry_price w
        = (Returned rs, w')) /\
  (forall env self ticker initial_date w w' series,
      yfinance_helper.get_stock_data env (KOLSentimentDB.yf_helper self) ticker
        (strftime_ymd initial_date) (strftime_ymd (plus_days initial_date 20))
        yfinance_helper.default_max_retries w
      = (Returned (Some (Flat series)), w') ->
      KOLSentimentDB.calculate_returns env self ticker initial_date 0 w
      = (Returned (return_at series 1 0, return_at series 3 0, return_at series 10 0), w')).
Proof.
  split.
  - exact calculate_returns_total.
  - intros env self ticker initial_date w w' series H.
    exact (calculate_returns_flat _ _ _ _ _ _ _ _ H).
Qed.

Lemma zero_entry_price_witness :
  KOLSentimentDB.calculate_returns steady_feed plain_db "AAPL" monday 0 boot
  = (Returned (return_at three_bars 1 0, return_at three_bars 3 0, return_at three_bars 10 0),
     snd (yfinance_helper.get_stock_data steady_feed (KOLSentimentDB.yf_helper plain_db)
            "AAPL" (strftime_ymd monday) (strftime_ymd (plus_days monday 20))
            yfinance_helper.default_max_retries boot)).
Proof.
  apply (proj2 zero_entry_price_returns steady_feed plain_db "AAPL" monday boot).
  vm_compute. reflexivity.
Defined.

(** ** What a computation leaves alone *)

Create HintDb frames.

Section Frames.
Import yfinance_helper KOLSentimentDB.

Lemma keeps_ret {A} (a : A) : keeps_table (ret a).
Proof. intros w. reflexivity. Qed.

Lemma keeps_raise {A} (e : exn) : keeps_table (@raise A e).
Proof. intros w. reflexivity. Qed.

Lemma keeps_bind {A B} (m : M A) (k : A -> M B) :
  keeps_table m -> (forall a, keeps_table (k a)) -> keeps_table (bind m k).
Proof.
  intros Hm Hk w. unfold bind. specialize (Hm w).
  destruct (m w) as [[a|e] w1]; simpl in *; [|exact Hm].
  now rewrite (Hk a w1).
Qed.

Lemma keeps_try {A} (m : M A) (h : exn -> M A) :
  keeps_table m -> (forall e, keeps_table (h e)) -> keeps_table (try_except m h).
Proof.
  intros Hm Hh w. unfold try_except. specialize (Hm w).
  destruct (m w) as [[a|e] w1]; simpl in *; [exact Hm|].
  now rewrite (Hh e w1).
Qed.

Lemma keeps_time (env : Env) : keeps_table (time_time env).
Proof. intros w. reflexivity. Qed.

Lemma keeps_read : keeps_table read_files.
Proof. intros w. reflexivity. Qed.

Lemma keeps_write (fs : gmap string file) : keeps_table (write_files fs).
Proof. intros w. reflexivity. Qed.

Lemma keeps_download (env : Env) (rq : request) : keeps_table (download env rq).
Proof. intros w. reflexivity. Qed.

Lemma keeps_lift {A} (o : outcome A) : keeps_table (lift o).
Proof. intros w. reflexivity. Qed.

Hint Resolve keeps_ret keeps_raise keeps_time keeps_read keeps_write
  keeps_download keeps_lift : frames.

Ltac frame :=
  repeat first
    [ progress auto with frames
    | apply keeps_bind; [|intros ?]
    | apply keeps_try; [|intros ?]
    | match goal with
      | |- keeps_table (match ?x with _ => _ end) => destruct x
      | |- keeps_table (if ?b then _ else _) => destruct b
      end ].

Lemma keeps_load env ticker s e : keeps_table (_load_from_cache env ticker s e).
Proof. unfold _load_from_cache. frame. Qed.

Lemma keeps_save env ticker s e data : keeps_table (_save_to_cache env ticker s e data).
Proof. unfold _save_to_cache. frame. Qed.

Hint Resolve keeps_load keeps_save : frames.

Lemma keeps_attempts env self ticker s e mr todo attempt :
  keeps_table (attempts env self ticker s e mr todo attempt).
Proof.
  revert attempt. induction todo as [|todo IH]; intros attempt; simpl.
  - frame.
  - unfold sleep. frame.
Qed.

Hint Resolve keeps_attempts : frames.

Lemma keeps_get_stock_data env self ticker s e mr :
  keeps_table (get_stock_data env self ticker s e mr).
Proof. unfold get_stock_data. frame. Qed.

Hint Resolve keeps_get_stock_data : frames.

Lemma keeps_price_on_date env self ticker d buf :
  keeps_table (get_stock_price_on_date env self ticker d buf).
Proof. unfold get_stock_price_on_date. frame. Qed.

Hint Resolve keeps_price_on_date : frames.

Lemma keeps_get_stock_price env self ticker d :
  keeps_table (get_stock_price env self ticker d).
Proof. unfold get_stock_price. frame. Qed.

Lemma keeps_calculate_returns env self ticker d p :
  keeps_table (calculate_returns env self ticker d p).
Proof. unfold calculate_returns. frame. Qed.

(** [get_stock_price] swallows every exception. *)
Lemma get_stock_price_total env self ticker d w :
  exists price w', get_stock_price env self ticker d w = (Returned price, w').
Proof.
  unfold get_stock_price, try_except.
  match goal with |- context [match ?m w with _ => _ end] => destruct (m w) as [[rs|e] w'] end;
    unfold ret; eauto.
Qed.

End Frames.

(** ** Record insertion *)

(** C10: when the price lookup for the prediction time comes back absent,
    [insert_record_with_returns] returns [None] as the record id without
    raising, and the table holds exactly the rows it held before. *)
Theorem insert_without_price (env : Env) (self : KOLSentimentDB.KOLSentimentDB)
    (kol_name ticker sector sentiment : string) (confidence : float)
    (prediction_time : option Z) (w w1 w2 : World) (t : Z) :
  match prediction_time with
  | Some t' => ret t'
  | None => time_time env
  end w = (Returned t, w1) ->
  KOLSentimentDB.get_stock_price env self ticker t w1 = (Returned None, w2) ->
  KOLSentimentDB.insert_record_with_returns env self kol_name ticker sector sentiment
    confidence prediction_time w
  = (Returned None, w2) /\
  table w2 = table w.
Proof.
  intros Ht Hp. split.
  - unfold KOLSentimentDB.insert_record_with_returns, bind. now rewrite Ht, Hp.
  - pose proof (keeps_get_stock_price env self ticker t w1) as H1.
    rewrite Hp in H1. simpl in H1. rewrite H1.
    destruct prediction_time as [t'|].
    + unfold ret in Ht. now inversion Ht.
    + pose proof (keeps_time env w) as H2. rewrite Ht in H2. exact H2.
Qed.

Lemma insert_without_price_witness :
  KOLSentimentDB.insert_record_with_returns silent_feed plain_db
    "kol" "NOPE" "Tech" "positive" 0.8 (Some monday) boot
  = (Returned None,
     snd (KOLSentimentDB.get_stock_price silent_feed plain_db "NOPE" monday boot)) /\
  table (snd (KOLSentimentDB.get_stock_price silent_feed plain_db "NOPE" monday boot))
  = table boot.
Proof.
  apply (insert_without_price silent_feed plain_db "kol" "NOPE" "Tech" "positive" 0.8
           (Some monday) boot boot _ monday).
  - reflexivity.
  - vm_compute. reflexivity.
Defined.

(** With a price, one row is appended and its id returned. *)
Lemma insert_with_price_sample :
  let r := KOLSentimentDB.insert_record_with_returns steady_feed plain_db
             "kol" "AAPL" "Tech" "positive" 0.8 (Some monday) boot in
  fst r = Returned (Some 1) /\
  map row_id (table (snd r)) = [1] /\
  map row_initial_price (table (snd r)) = [Some 100%float] /\
  map row_return_1d (table (snd r)) = [Some 0.01%float] /\
  map row_return_3d (table (snd r)) = [None].
Proof. vm_compute. repeat split; reflexivity. Qed.

(** ** The retry loop *)

Section Retry.
Import yfinance_helper.

(** An empty answer uses up the attempt and the loop goes on. *)
Lemma attempts_after_empty env self ticker s e mr todo attempt w :
  empty_answer env (length (calls w)) (single_request self ticker s e) ->
  attempts env self ticker s e mr (S todo) attempt w
  = attempts env self ticker s e mr todo (S attempt)
      (called w (single_request self ticker s e)).
Proof.
  intros (data & Hd & He). simpl attempts. unfold bind at 1.
  assert (Hpre : (if (0 <? attempt)%nat then sleep else ret tt) w = (Returned tt, w))
    by (destruct (0 <? attempt)%nat; reflexivity).
  rewrite Hpre. unfold bind at 1, download.
  fold (single_request self ticker s e). rewrite Hd, He. reflexivity.
Qed.

Lemma called_n_calls w rq n : calls (called_n w rq n) = (calls w ++ repeat rq n)%list.
Proof.
  revert w. induction n as [|n IH]; intros w; simpl.
  - now rewrite app_nil_r.
  - rewrite IH. simpl. now rewrite <- app_assoc.
Qed.

Lemma called_n_files w rq n : files (called_n w rq n) = files w.
Proof. revert w. induction n as [|n IH]; intros w; simpl; [|rewrite IH]; reflexivity. Qed.

(** Nothing but empty answers: every attempt is spent, then [None]. *)
Lemma attempts_all_empty env self ticker s e mr todo attempt w :
  (forall i, (i < todo)%nat ->
     empty_answer env (length (calls w) + i) (single_request self ticker s e)) ->
  attempts env self ticker s e mr todo attempt w
  = (Returned None, called_n w (single_request self ticker s e) todo).
Proof.
  revert attempt w. induction todo as [|todo IH]; intros attempt w H; [reflexivity|].
  rewrite attempts_after_empty.
  - rewrite IH; [reflexivity|]. intros i Hi. simpl. rewrite length_app. simpl.
    replace (length (calls w) + 1 + i)%nat with (length (calls w) + S i)%nat by lia.
    apply H. lia.
  - replace (length (calls w)) with (length (calls w) + 0)%nat by lia. apply H. lia.
Qed.

Lemma load_missing env ticker s e w :
  files w !! _get_cache_path ticker s e = None ->
  _load_from_cache env ticker s e w = (Returned None, w).
Proof.
  intros H. unfold _load_from_cache, bind, read_files. now rewrite H.
Qed.

End Retry.

(** C6, as claimed, fails on [late_feed]: the first upstream answer is a
    successful empty table, yet the same call goes on to a second upstream
    request and returns its bars instead of absent. *)
Lemma empty_answer_counterexample :
  let rq := single_request (yfinance_helper.mk_helper false false) "AAPL"
              "2024-01-15" "2024-02-04" in
  let r := yfinance_helper.get_stock_data late_feed (yfinance_helper.mk_helper false false)
             "AAPL" "2024-01-15" "2024-02-04" 3 boot in
  yf_download late_feed 0 rq = Table (Flat []) /\
  fst r = Returned (Some (Flat three_bars)) /\
  calls (snd r) = [rq; rq].
Proof. vm_compute. repeat split; reflexivity. Qed.

(** C6, amended: a successful but empty answer is neither returned nor
    cached; it uses up one attempt and the loop moves on to the next one.  The
    call returns absent on account of empty answers only when all
    [max_retries] attempts got one, after exactly [max_retries] upstream
    calls. *)
Theorem empty_answer_retried :
  (forall env self ticker s e mr todo attempt w,
      empty_answer env (length (calls w)) (single_request self ticker s e) ->
      yfinance_helper.attempts env self ticker s e mr (S todo) attempt w
      = yfinance_helper.attempts env self ticker s e mr todo (S attempt)
          (called w (single_request self ticker s e))) /\
  (forall env self ticker s e max_retries w,
      files w !! yfinance_helper._get_cache_path ticker s e = None ->
      (forall i, (i < max_retries)%nat ->
         empty_answer env (length (calls w) + i) (single_request self ticker s e)) ->
      exists w',
        yfinance_helper.get_stock_data env self ticker s e max_retries w
        = (Returned None, w') /\
        calls w' = (calls w ++ repeat (single_request self ticker s e) max_retries)%list /\
        files w' = files w).
Proof.
  split; [exact attempts_after_empty|].
  intros env self ticker s e max_retries w Hmiss Hall.
  eexists. split; [|split].
  - unfold yfinance_helper.get_stock_data, bind.
    rewrite (load_missing _ _ _ _ _ Hmiss).
    apply attempts_all_empty. exact Hall.
  - apply called_n_calls.
  - apply called_n_files.
Qed.

Lemma empty_answer_retried_witness :
  exists w',
    yfinance_helper.get_stock_data silent_feed (yfinance_helper.mk_helper false false)
      "NOPE" "2024-01-15" "2024-02-04" 3 boot
    = (Returned None, w') /\
    calls w' = (calls boot
                ++ repeat (single_request (yfinance_helper.mk_helper false false)
                             "NOPE" "2024-01-15" "2024-02-04") 3)%list /\
    files w' = files boot.
Proof.
  apply (proj2 empty_answer_retried silent_feed).
  - reflexivity.
  - intros i _. exists (Flat []). split; reflexivity.
Defined.

(** ** Purging the cache *)

Section Purge.
Import yfinance_helper.

Lemma clear_step_removes cutoff fs c entry :
  clear_step cutoff (fs, c) entry
  = if removes cutoff entry then (delete (fst entry) fs, S c) else (fs, c).
Proof.
  destruct entry as [k f]. unfold clear_step, removes. simpl.
  destruct (endswith k ".pkl"), (mtime f <? cutoff); reflexivity.
Qed.

Lemma removes_expired t d entry :
  removes (t - d * 24 * 3600) entry = true <-> expired t d entry.
Proof.
  unfold removes, expired. rewrite andb_true_iff, Z.ltb_lt. intuition lia.
Qed.

Lemma clear_fold_lookup cutoff (l : list (string * file)) fs c k :
  fst (fold_left (clear_step cutoff) l (fs, c)) !! k
  = if existsb (fun e => String.eqb (fst e) k && removes cutoff e)%bool l
    then None else fs !! k.
Proof.
  revert fs c. induction l as [|e l IH]; intros fs c; [reflexivity|].
  cbn [fold_left]. rewrite clear_step_removes. simpl existsb.
  destruct (removes cutoff e) eqn:Er.
  - rewrite IH, andb_true_r.
    destruct (String.eqb_spec (fst e) k) as [->|Hne]; simpl.
    + rewrite lookup_delete_eq. now destruct (existsb _ l).
    + now rewrite lookup_delete_ne.
  - rewrite IH, andb_false_r. reflexivity.
Qed.

Lemma clear_fold_count cutoff (l : list (string * file)) fs c :
  snd (fold_left (clear_step cutoff) l (fs, c))
  = (c + length (List.filter (removes cutoff) l))%nat.
Proof.
  revert fs c. induction l as [|e l IH]; intros fs c; cbn [fold_left]; [simpl; lia|].
  rewrite clear_step_removes. cbn [List.filter].
  destruct (removes cutoff e); rewrite IH; simpl; lia.
Qed.

Lemma clear_fold_size cutoff (l : list (string * file)) fs c :
  NoDup (l.*1) ->
  (forall k f, (k, f) ∈ l -> fs !! k = Some f) ->
  (snd (fold_left (clear_step cutoff) l (fs, c))
   + size (fst (fold_left (clear_step cutoff) l (fs, c))) = c + size fs)%nat.
Proof.
  revert fs c. induction l as [|[k0 f0] l IH]; intros fs c Hnd Hin; [reflexivity|].
  cbn [fold_left]. rewrite clear_step_removes. cbn [fst].
  rewrite fmap_cons in Hnd. apply NoDup_cons in Hnd as [Hk0 Hnd].
  assert (H0 : fs !! k0 = Some f0) by (apply Hin; left).
  destruct (removes cutoff (k0, f0)).
  - rewrite IH; [| exact Hnd |].
    + rewrite map_size_delete_Some by eauto.
      assert (size fs <> 0)%nat by (apply map_size_ne_0_lookup_2 with k0; eauto). lia.
    + intros k f Hkf. rewrite lookup_delete_ne; [apply Hin; now right|].
      intros ->. apply Hk0. apply list_elem_of_fmap. now exists (k, f).
  - apply IH; [exact Hnd|]. intros k f Hkf. apply Hin. now right.
Qed.

Lemma listed_removes cutoff (fs : gmap string file) k :
  existsb (fun e => String.eqb (fst e) k && removes cutoff e)%bool (map_to_list fs)
  = match fs !! k with
    | Some f => removes cutoff (k, f)
    | None => false
    end.
Proof.
  apply eq_true_iff_eq. rewrite existsb_exists. split.
  - intros ([k' f] & Hin & Hb). apply andb_prop in Hb as [Hk Hr].
    simpl in Hk. apply String.eqb_eq in Hk. subst k'.
    apply list_elem_of_In, elem_of_map_to_list in Hin. now rewrite Hin.
  - destruct (fs !! k) as [f|] eqn:E; [|discriminate].
    intros Hr. exists (k, f). split.
    + now apply list_elem_of_In, elem_of_map_to_list.
    + simpl. now rewrite String.eqb_refl.
Qed.

Lemma clear_cache_spec env older_than_days w :
  exists w',
    clear_cache env older_than_days w = (Returned PyNone, w') /\
    files w' = filter (fun entry => ~ expired (now w') older_than_days entry) (files w) /\
    exists removed_count,
      stdout w' = (stdout w ++ [CacheCleared removed_count])%list /\
      removed_count
      = length (List.filter (removes (now w' - older_than_days * 24 * 3600))
                  (map_to_list (files w))) /\
      (removed_count + size (files w') = size (files w))%nat.
Proof.
  unfold clear_cache, bind, time_time, read_files. simpl.
  set (t := now w + Z.of_N (elapse env (reads w))).
  set (cutoff := t - older_than_days * 24 * 3600).
  destruct (fold_left (clear_step cutoff) (map_to_list (files w)) (files w, O))
    as [fs' n] eqn:Ef.
  simpl. eexists. split; [reflexivity|]. simpl.
  assert (Hfs : fs' = fst (fold_left (clear_step cutoff) (map_to_list (files w)) (files w, O)))
    by now rewrite Ef.
  assert (Hn : n = snd (fold_left (clear_step cutoff) (map_to_list (files w)) (files w, O)))
    by now rewrite Ef.
  split; [|exists n; split; [reflexivity|split]].
  - apply map_eq. intros k. rewrite Hfs, clear_fold_lookup, listed_removes.
    rewrite map_lookup_filter. destruct (files w !! k) as [f|]; [|reflexivity]. simpl.
    destruct (removes cutoff (k, f)) eqn:Er.
    + rewrite option_guard_False; [reflexivity|].
      intros Hne. apply Hne. now apply removes_expired.
    + rewrite option_guard_True; [reflexivity|].
      intros Hex. apply removes_expired in Hex. fold cutoff in Hex. congruence.
  - rewrite Hn. now rewrite clear_fold_count.
  - pose proof (clear_fold_size cutoff (map_to_list (files w)) (files w) O
                  (NoDup_fst_map_to_list _)) as Hs.
    rewrite <- Hfs, <- Hn in Hs. rewrite Hs; [lia|].
    intros k f Hkf. now apply elem_of_map_to_list.
Qed.

End Purge.

(** C8, as claimed, fails on [dusty]: the purge removes one entry, and what
    the call returns is [None], not the count 1; the count is only printed. *)
Lemma purge_counterexample :
  let r := yfinance_helper.clear_cache steady_feed 7 dusty in
  fst r = Returned yfinance_helper.PyNone /\
  fst r <> Returned (yfinance_helper.PyInt 1) /\
  size (files dusty) = 3%nat /\
  size (files (snd r)) = 2%nat /\
  files (snd r) !! "old.pkl" = None /\
  stdout (snd r) = [CacheCleared 1].
Proof.
  vm_compute. repeat split; try reflexivity. discriminate.
Qed.

(** C8, amended: the purge removes exactly the [.pkl] files of the cache
    directory whose age, at the time of the call, exceeds the threshold given
    in days, and keeps every other file; it prints the number of files it
    removed and returns [None]. *)
Theorem purge_removes_expired (env : Env) (older_than_days : Z) (w : World) :
  exists w',
    yfinance_helper.clear_cache env older_than_days w
    = (Returned yfinance_helper.PyNone, w') /\
    files w' = filter (fun entry => ~ expired (now w') older_than_days entry) (files w) /\
    exists removed_count,
      stdout w' = (stdout w ++ [CacheCleared removed_count])%list /\
      (removed_count + size (files w') = size (files w))%nat.
Proof.
  destruct (clear_cache_spec env older_than_days w) as (w' & H1 & H2 & n & H3 & _ & H4).
  exists w'. split; [exact H1|]. split; [exact H2|]. exists n. split; assumption.
Qed.

(** ** Degrading a bulk batch *)

Section Degrade.
Import yfinance_helper.

Lemma string_length_app (a b : string) :
  String.length (a ++ b) = (String.length a + String.length b)%nat.
Proof. induction a as [|c a IH]; simpl; [reflexivity | now rewrite IH]. Qed.

Lemma string_app_inv_tail (a b tail : string) :
  (a ++ tail = b ++ tail)%string -> a = b.
Proof.
  revert b. induction a as [|c a IH]; intros [|d b] H.
  - reflexivity.
  - apply (f_equal String.length) in H. rewrite !string_length_app in H.
    simpl in H. lia.
  - apply (f_equal String.length) in H. rewrite !string_length_app in H.
    simpl in H. lia.
  - simpl in H. inversion H. f_equal. now apply IH.
Qed.

Lemma cache_path_inj (t u s e : string) :
  _get_cache_path t s e = _get_cache_path u s e -> t = u.
Proof. unfold _get_cache_path. apply string_app_inv_tail. Qed.

Lemma dead_later s e w w' ticker :
  dead s e w ticker ->
  files w' !! _get_cache_path ticker s e = files w !! _get_cache_path ticker s e ->
  now w <= now w' ->
  dead s e w' ticker.
Proof.
  unfold dead. intros Hd Hf Hn. rewrite Hf.
  destruct (files w !! _get_cache_path ticker s e) as [f|]; [|exact I].
  destruct Hd as [Hd|Hd]; [left; lia | now right].
Qed.

(** The cache lookup: it only reads the clock, and it misses exactly on
    dead entries. *)
Lemma load_spec env ticker s e w :
  exists r w',
    _load_from_cache env ticker s e w = (Returned r, w') /\
    files w' = files w /\ calls w' = calls w /\ now w <= now w' /\
    (r = None -> dead s e w' ticker) /\
    (dead s e w ticker -> r = None).
Proof.
  unfold _load_from_cache, bind, read_files, dead.
  destruct (files w !! _get_cache_path ticker s e) as [f|] eqn:Ef.
  - unfold time_time. simpl.
    set (t := now w + Z.of_N (elapse env (reads w))).
    assert (Ht : now w <= t) by (unfold t; lia).
    destruct (Z.ltb_spec (t - mtime f) (24 * 3600)) as [Hfresh|Hstale].
    + eexists _, _. split; [reflexivity|]. simpl. rewrite Ef.
      repeat split; try reflexivity; try exact Ht.
      * intros Hc. now right.
      * intros [Hd|Hd]; [lia | exact Hd].
    + eexists _, _. split; [reflexivity|]. simpl. rewrite Ef.
      repeat split; try reflexivity; try exact Ht.
      intros _. left. exact Hstale.
  - eexists _, _. split; [reflexivity|]. rewrite Ef.
    repeat split; try reflexivity; lia.
Qed.

(** One turn of the retry loop. *)
Lemma attempts_step env self ticker s e mr todo attempt w :
  attempts env self ticker s e mr (S todo) attempt w
  = let rq := single_request self ticker s e in
    let w1 := called w rq in
    match yf_download env (length (calls w)) rq with
    | Table data =>
        if negb (df_empty data)
        then (Returned (Some data), saved env w1 (_get_cache_path ticker s e) data)
        else attempts env self ticker s e mr todo (S attempt) w1
    | Fails error_msg =>
        if is_rate_limit error_msg
        then attempts env self ticker s e mr todo (S attempt) w1
        else if (attempt <? mr - 1)%nat
             then attempts env self ticker s e mr todo (S attempt) w1
             else (Returned None, w1)
    end.
Proof.
  simpl attempts. unfold bind at 1.
  assert (Hpre : (if (0 <? attempt)%nat then sleep else ret tt) w = (Returned tt, w))
    by (destruct (0 <? attempt)%nat; reflexivity).
  rewrite Hpre. unfold bind at 1, download.
  fold (single_request self ticker s e). cbv zeta.
  destruct (yf_download env (length (calls w)) (single_request self ticker s e))
    as [data|msg].
  - destruct (negb (df_empty data)); reflexivity.
  - destruct (is_rate_limit msg); [reflexivity|].
    destruct (attempt <? mr - 1)%nat; reflexivity.
Qed.

(** The loop never raises; it logs its requests, writes no file but the
    ticker's own, and with at least one turn it does call upstream. *)
Lemma attempts_spec env self ticker s e mr todo attempt w :
  exists r w' l,
    attempts env self ticker s e mr todo attempt w = (Returned r, w') /\
    calls w' = (calls w ++ l)%list /\
    (todo <> O -> In (single_request self ticker s e) l) /\
    now w <= now w' /\
    (forall p, p <> _get_cache_path ticker s e -> files w' !! p = files w !! p).
Proof.
  revert attempt w. induction todo as [|todo IH]; intros attempt w.
  { exists None, w, []. simpl. rewrite app_nil_r.
    split; [reflexivity|]. split; [reflexivity|]. split; [congruence|].
    split; [lia | reflexivity]. }
  rewrite attempts_step. cbv zeta.
  set (rq := single_request self ticker s e).
  assert (Hrec : forall a,
    exists r w' l,
      attempts env self ticker s e mr todo a (called w rq) = (Returned r, w') /\
      calls w' = (calls w ++ l)%list /\
      (S todo <> O -> In rq l) /\
      now w <= now w' /\
      (forall p, p <> _get_cache_path ticker s e -> files w' !! p = files w !! p)).
  { intros a. destruct (IH a (called w rq)) as (r & w' & l & E & Hc & _ & Hn & Hf).
    exists r, w', (rq :: l). split; [exact E|]. simpl in *.
    split; [rewrite Hc, <- app_assoc; reflexivity|].
    split; [intros _; now left|]. split; [exact Hn | exact Hf]. }
  assert (Hstop : exists r w' l,
    (Returned (@None DataFrame), called w rq) = (Returned r, w') /\
    calls w' = (calls w ++ l)%list /\
    (S todo <> O -> In rq l) /\
    now w <= now w' /\
    (forall p, p <> _get_cache_path ticker s e -> files w' !! p = files w !! p)).
  { exists None, (called w rq), [rq]. simpl.
    split; [reflexivity|]. split; [reflexivity|]. split; [intros _; now left|].
    split; [lia | reflexivity]. }
  destruct (yf_download env (length (calls w)) rq) as [data|msg].
  - destruct (negb (df_empty data)); [|apply Hrec].
    eexists _, _, [rq]. split; [reflexivity|]. simpl.
    split; [reflexivity|]. split; [intros _; now left|]. split; [lia|].
    intros p Hp. now rewrite lookup_insert_ne.
  - destruct (is_rate_limit msg); [apply Hrec|].
    destruct (attempt <? mr - 1)%nat; [apply Hrec | apply Hstop].
Qed.
Lemma get_stock_data_spec env self ticker s e mr w :
  exists r w' l,
    get_stock_data env self ticker s e mr w = (Returned r, w') /\
    calls w' = (calls w ++ l)%list /\
    now w <= now w' /\
    (forall p, p <> _get_cache_path ticker s e -> files w' !! p = files w !! p) /\
    (mr <> O -> dead s e w ticker -> In (single_request self ticker s e) l).
Proof.
  unfold get_stock_data, bind.
  destruct (load_spec env ticker s e w) as (r0 & w0 & E0 & Hf0 & Hc0 & Hn0 & _ & Hmiss).
  rewrite E0. destruct r0 as [data|].
  - exists (Some data), w0, []. split; [reflexivity|].
    rewrite app_nil_r. split; [exact Hc0|]. split; [exact Hn0|].
    split; [intros p _; now rewrite Hf0|].
    intros _ Hd. specialize (Hmiss Hd). discriminate.
  - destruct (attempts_spec env self ticker s e mr mr O w0)
      as (r & w' & l & E & Hc & Hreq & Hn & Hf).
    exists r, w', l. split; [exact E|]. split; [now rewrite Hc, Hc0|].
    split; [lia|]. split; [intros p Hp; now rewrite Hf, Hf0|].
    intros Hmr _. now apply Hreq.
Qed.

(** The cache pass reads the clock and nothing else; what it puts on the
    miss list is dead, and every ticker of the batch ends up on the miss
    list or in the results. *)
Lemma split_cached_spec env s e batch results unc w :
  exists results' unc' w',
    split_cached env s e batch results unc w = (Returned (results', unc'), w') /\
    files w' = files w /\ calls w' = calls w /\ now w <= now w' /\
    (forall t, In t unc' -> In t unc \/ (In t batch /\ dead s e w' t)) /\
    (forall t, In t batch -> In t unc' \/ is_Some (results' !! t)) /\
    (forall t, In t unc -> In t unc') /\
    (forall t, is_Some (results !! t) -> is_Some (results' !! t)).
Proof.
  revert results unc w. induction batch as [|ticker rest IH]; intros results unc w.
  { exists results, unc, w. simpl.
    split; [reflexivity|]. split; [reflexivity|]. split; [reflexivity|].
    split; [lia|]. split; [auto|]. split; [intros t []|]. split; auto. }
  simpl split_cached. unfold bind at 1.
  destruct (load_spec env ticker s e w) as (r0 & w0 & E0 & Hf0 & Hc0 & Hn0 & Hdead & _).
  rewrite E0. destruct r0 as [data|].
  - destruct (IH (<[ticker := data]> results) unc w0)
      as (results' & unc' & w' & E & Hf & Hc & Hn & Hu & Hb & Hk & Hr).
    exists results', unc', w'. split; [exact E|].
    split; [congruence|]. split; [congruence|]. split; [lia|].
    split; [|split; [|split]].
    + intros t Ht. destruct (Hu t Ht) as [?|[? ?]]; [now left | right; split; [now right | assumption]].
    + intros t [<-|Ht]; [|now apply Hb].
      right. apply Hr. rewrite lookup_insert_eq. eauto.
    + exact Hk.
    + intros t Ht. apply Hr.
      destruct (String.eqb_spec ticker t) as [->|Hne];
        [rewrite lookup_insert_eq; eauto | now rewrite lookup_insert_ne].
  - destruct (IH results (unc ++ [ticker])%list w0)
      as (results' & unc' & w' & E & Hf & Hc & Hn & Hu & Hb & Hk & Hr).
    exists results', unc', w'. split; [exact E|].
    split; [congruence|]. split; [congruence|]. split; [lia|].
    split; [|split; [|split]].
    + intros t Ht. destruct (Hu t Ht) as [Hin|[? ?]].
      * apply in_app_or in Hin as [?|[<-|[]]]; [now left|].
        right. split; [now left|].
        apply (dead_later s e w0 w'); [now apply Hdead | now rewrite Hf | exact Hn].
      * right. split; [now right | assumption].
    + intros t [<-|Ht]; [|now apply Hb].
      left. apply Hk. apply in_or_app. right. now left.
    + intros t Ht. apply Hk. apply in_or_app. now left.
    + exact Hr.
Qed.

Lemma one_by_one_spec env self s e U base ts results w l :
  calls w = (base ++ l)%list ->
  pending self s e U l w ->
  (forall t, In t ts -> In t U) ->
  exists results' w' l',
    one_by_one env self s e ts results w = (Returned results', w') /\
    calls w' = (base ++ l')%list /\
    pending self s e U l' w' /\
    (forall t, In t ts -> In (single_request self t s e) l') /\
    (forall x, In x l -> In x l').
Proof.
  revert results w l. induction ts as [|t rest IH]; intros results w l Hc Hp Hsub.
  { exists results, w, l. simpl. split; [reflexivity|]. split; [exact Hc|].
    split; [exact Hp|]. split; [intros t []|auto]. }
  simpl one_by_one. unfold bind at 1.
  destruct (get_stock_data_spec env self t s e default_max_retries w)
    as (r & w1 & l1 & E & Hc1 & Hn1 & Hf1 & Hreq).
  rewrite E. unfold bind at 1, sleep, ret.
  assert (Ht : In (single_request self t s e) (l ++ l1)).
  { apply in_or_app. destruct (Hp t (Hsub t (or_introl eq_refl))) as [?|Hd]; [now left|].
    right. apply Hreq; [discriminate | exact Hd]. }
  assert (Hp1 : pending self s e U (l ++ l1) w1).
  { intros u Hu. destruct (Hp u Hu) as [?|Hd]; [left; apply in_or_app; now left|].
    destruct (String.eqb_spec u t) as [->|Hne]; [now left|].
    right. apply (dead_later s e w w1); [exact Hd | | exact Hn1].
    apply Hf1. intros Heq. apply Hne. now apply cache_path_inj in Heq. }
  assert (Hc1' : calls w1 = (base ++ (l ++ l1))%list) by (rewrite Hc1, Hc; now rewrite app_assoc).
  destruct (IH (match r with Some d => <[t := d]> results | None => results end)
               w1 (l ++ l1)%list Hc1' Hp1)
    as (results' & w' & l' & E' & Hc' & Hp' & Hall & Hmono).
  { intros t' Ht'. apply Hsub. now right. }
  exists results', w', l'. split; [exact E'|]. split; [exact Hc'|].
  split; [exact Hp'|]. split.
  - intros t' [<-|Ht']; [apply Hmono; exact Ht | now apply Hall].
  - intros x Hx. apply Hmono. apply in_or_app. now left.
Qed.

Lemma bulk_batch_fails env self s e batch results w results1 uncached w1 msg :
  split_cached env s e batch results [] w = (Returned (results1, uncached), w1) ->
  uncached <> [] ->
  yf_download env (length (calls w1)) (bulk_request self s e uncached) = Fails msg ->
  bulk_batch env self s e batch results w
  = one_by_one env self s e uncached results1 (called w1 (bulk_request self s e uncached)).
Proof.
  intros Hs Hne Hf. unfold bulk_batch. unfold bind at 1. rewrite Hs.
  destruct uncached as [|u us]; [contradiction|]. cbn [is_nil].
  unfold bind at 1, download. fold (bulk_request self s e (u :: us)).
  rewrite Hf. reflexivity.
Qed.

End Degrade.

(** ** Batching *)

Section Batching.
Import yfinance_helper.

Lemma chunks_concat {A} (n m : nat) (l : list A) :
  (length l <= m * n)%nat ->
  concat (map (fun k => firstn n (skipn (k * n) l)) (seq 0 m)) = l.
Proof.
  revert l. induction m as [|m IH]; intros l Hlen.
  - simpl in *. destruct l; [reflexivity | simpl in Hlen; lia].
  - cbn [seq map concat]. rewrite <- seq_shift, map_map.
    transitivity (firstn n l ++ skipn n l)%list; [|apply firstn_skipn].
    f_equal. rewrite <- (IH (skipn n l)) by (rewrite length_skipn; lia).
    f_equal. apply map_ext. intros k.
    rewrite skipn_skipn. f_equal. f_equal. lia.
Qed.

Lemma batch_count_covers (len n : nat) :
  (0 < n)%nat -> (len <= (len + n - 1) / n * n)%nat.
Proof.
  intros Hn. pose proof (Nat.div_mod_eq (len + n - 1) n) as Hd.
  pose proof (Nat.mod_upper_bound (len + n - 1) n) as Hm. nia.
Qed.

Lemma batch_count_tight (len n k : nat) :
  (0 < n)%nat -> (k < (len + n - 1) / n)%nat -> (k * n < len)%nat.
Proof.
  intros Hn Hk. pose proof (Nat.div_mod_eq (len + n - 1) n) as Hd.
  pose proof (Nat.mod_upper_bound (len + n - 1) n) as Hm. nia.
Qed.

Lemma batches_concat (tickers : list string) (n : nat) :
  (0 < n)%nat -> concat (batches tickers n) = tickers.
Proof.
  intros Hn. unfold batches. apply chunks_concat. now apply batch_count_covers.
Qed.

Lemma batches_sizes (tickers : list string) (n : nat) (b : list string) :
  (0 < n)%nat -> In b (batches tickers n) -> (0 < length b <= n)%nat.
Proof.
  intros Hn Hb. unfold batches in Hb. apply in_map_iff in Hb as (k & <- & Hk).
  apply in_seq in Hk. rewrite length_firstn, length_skipn.
  assert (k * n < length tickers)%nat by (apply batch_count_tight; lia). lia.
Qed.

Lemma in_firstn_in {A} (n : nat) (l : list A) (x : A) : In x (firstn n l) -> In x l.
Proof.
  revert l. induction n as [|n IH]; intros [|a l] H; simpl in *; try contradiction.
  destruct H as [->|H]; [now left | right; now apply IH].
Qed.

Lemma in_skipn_in {A} (n : nat) (l : list A) (x : A) : In x (skipn n l) -> In x l.
Proof.
  revert l. induction n as [|n IH]; intros [|a l] H; simpl in *; try assumption.
  right. now apply IH.
Qed.

Lemma batches_members (tickers : list string) (n : nat) (b : list string) (t : string) :
  In b (batches tickers n) -> In t b -> In t tickers.
Proof.
  intros Hb Ht. unfold batches in Hb. apply in_map_iff in Hb as (k & <- & _).
  apply (in_skipn_in (k * n)%nat). now apply (in_firstn_in n).
Qed.

End Batching.

(** X1: for a positive batch size the batches of [_batch_download_bulk] and
    [_batch_download_individual] are the ticker list cut into consecutive
    pieces: put back together they give the list in its order, and every
    batch has at least one and at most [batch_size] tickers. *)
Theorem batches_partition (tickers : list string) (batch_size : nat) :
  (0 < batch_size)%nat ->
  concat (yfinance_helper.batches tickers batch_size) = tickers /\
  forall b, In b (yfinance_helper.batches tickers batch_size) ->
            (0 < length b <= batch_size)%nat.
Proof.
  intros Hn. split; [now apply batches_concat|].
  intros b Hb. now apply batches_sizes with tickers.
Qed.

Lemma batches_partition_witness :
  concat (yfinance_helper.batches ["A"; "B"; "C"; "D"; "E"] 2) = ["A"; "B"; "C"; "D"; "E"] /\
  forall b, In b (yfinance_helper.batches ["A"; "B"; "C"; "D"; "E"] 2) ->
            (0 < length b <= 2)%nat.
Proof. apply (batches_partition ["A"; "B"; "C"; "D"; "E"] 2). lia. Defined.

(** ** Fetching one ticker *)

Section Fetch.
Import yfinance_helper.

Lemma save_load_roundtrip env ticker s e data w :
  fst (bind (_save_to_cache env ticker s e data)
            (fun _ => _load_from_cache env ticker s e) w)
  = Returned (if (elapse env (S (reads w)) <? 24 * 3600)%N then Some data else None) /\
  calls (snd (bind (_save_to_cache env ticker s e data)
                   (fun _ => _load_from_cache env ticker s e) w)) = calls w.
Proof.
  unfold bind, _save_to_cache, _load_from_cache, bind, time_time, read_files, write_files.
  simpl. rewrite lookup_insert_eq. simpl.
  set (t := now w + Z.of_N (elapse env (reads w))).
  destruct (N.ltb_spec (elapse env (S (reads w))) (24 * 3600)) as [Hlt|Hge].
  - destruct (Z.ltb_spec (t + Z.of_N (elapse env (S (reads w))) - t) (24 * 3600));
      [split; reflexivity | lia].
  - destruct (Z.ltb_spec (t + Z.of_N (elapse env (S (reads w))) - t) (24 * 3600));
      [lia | split; reflexivity].
Qed.

Lemma cache_hit env self ticker s e mr w f data :
  files w !! _get_cache_path ticker s e = Some f ->
  content f = Some data ->
  now w + Z.of_N (elapse env (reads w)) - mtime f < 24 * 3600 ->
  exists w',
    get_stock_data env self ticker s e mr w = (Returned (Some data), w') /\
    calls w' = calls w /\ files w' = files w.
Proof.
  intros Hf Hc Hfresh. unfold get_stock_data, bind, _load_from_cache, bind, read_files.
  rewrite Hf. unfold time_time. simpl.
  destruct (Z.ltb_spec (now w + Z.of_N (elapse env (reads w)) - mtime f) (24 * 3600));
    [|lia].
  rewrite Hc. eexists. split; [reflexivity|]. split; reflexivity.
Qed.

(** The loop up to the first answer with rows. *)
Lemma attempts_first_data env self ticker s e mr k :
  forall todo attempt w data,
    (attempt + todo = mr)%nat -> (k < todo)%nat ->
    (forall i, (i < k)%nat ->
       no_data_answer env (length (calls w) + i) (single_request self ticker s e)) ->
    data_answer env (length (calls w) + k) (single_request self ticker s e) data ->
    attempts env self ticker s e mr todo attempt w
    = (Returned (Some data),
       saved env (called_n w (single_request self ticker s e) (S k))
             (_get_cache_path ticker s e) data).
Proof.
  induction k as [|k IH]; intros todo attempt w data Hsum Hk Hno [Hd He].
  - destruct todo as [|todo]; [lia|]. rewrite attempts_step. cbv zeta.
    rewrite Nat.add_0_r in Hd. rewrite Hd, He. reflexivity.
  - destruct todo as [|todo]; [lia|]. rewrite attempts_step. cbv zeta.
    set (rq := single_request self ticker s e) in *.
    assert (Hnext : attempts env self ticker s e mr todo (S attempt) (called w rq)
                    = (Returned (Some data),
                       saved env (called_n (called w rq) rq (S k))
                             (_get_cache_path ticker s e) data)).
    { apply IH; [lia | lia | |].
      - intros i Hi. simpl. rewrite length_app. simpl.
        replace (length (calls w) + 1 + i)%nat with (length (calls w) + S i)%nat by lia.
        apply Hno. lia.
      - simpl. rewrite length_app. simpl.
        replace (length (calls w) + 1 + k)%nat with (length (calls w) + S k)%nat by lia.
        split; assumption. }
    pose proof (Hno O ltac:(lia)) as H0. rewrite Nat.add_0_r in H0.
    destruct (yf_download env (length (calls w)) rq) as [d0|msg] eqn:Er.
    + rewrite (H0 d0 Er). exact Hnext.
    + destruct (is_rate_limit msg); [exact Hnext|].
      destruct (Nat.ltb_spec attempt (mr - 1)); [exact Hnext | lia].
Qed.

(** The loop when no answer has rows. *)
Lemma attempts_no_data env self ticker s e mr :
  forall todo attempt w,
    (attempt + todo = mr)%nat ->
    (forall i, (i < todo)%nat ->
       no_data_answer env (length (calls w) + i) (single_request self ticker s e)) ->
    attempts env self ticker s e mr todo attempt w
    = (Returned None, called_n w (single_request self ticker s e) todo).
Proof.
  induction todo as [|todo IH]; intros attempt w Hsum Hno; [reflexivity|].
  rewrite attempts_step. cbv zeta.
  set (rq := single_request self ticker s e) in *.
  assert (Hnext : attempts env self ticker s e mr todo (S attempt) (called w rq)
                  = (Returned None, called_n (called w rq) rq todo)).
  { apply IH; [lia|]. intros i Hi. simpl. rewrite length_app. simpl.
    replace (length (calls w) + 1 + i)%nat with (length (calls w) + S i)%nat by lia.
    apply Hno. lia. }
  pose proof (Hno O ltac:(lia)) as H0. rewrite Nat.add_0_r in H0.
  destruct (yf_download env (length (calls w)) rq) as [d0|msg] eqn:Er.
  - rewrite (H0 d0 Er). exact Hnext.
  - destruct (is_rate_limit msg); [exact Hnext|].
    destruct (Nat.ltb_spec attempt (mr - 1)); [exact Hnext|].
    destruct todo as [|todo']; [reflexivity | lia].
Qed.

Lemma load_dead env ticker s e w :
  dead s e w ticker ->
  exists w0,
    _load_from_cache env ticker s e w = (Returned None, w0) /\
    files w0 = files w /\ calls w0 = calls w.
Proof.
  intros Hd. destruct (load_spec env ticker s e w) as (r & w0 & E & Hf & Hc & _ & _ & Hm).
  rewrite (Hm Hd) in E. eauto.
Qed.

Lemma saved_files env w path data :
  files (saved env w path data)
  = <[path := mk_file (now (saved env w path data)) (Some data)]> (files w).
Proof. reflexivity. Qed.
End Fetch.

Section FetchMore.
Import yfinance_helper.

Lemma attempts_budget env self ticker s e mr todo attempt w :
  exists r w' k,
    attempts env self ticker s e mr todo attempt w = (Returned r, w') /\
    (k <= todo)%nat /\
    calls w' = (calls w ++ repeat (single_request self ticker s e) k)%list /\
    (forall data, r = Some data ->
       exists f, files w' !! _get_cache_path ticker s e = Some f /\ content f = Some data).
Proof.
  revert attempt w. induction todo as [|todo IH]; intros attempt w.
  { exists None, w, O. simpl. rewrite app_nil_r.
    split; [reflexivity|]. split; [lia|]. split; [reflexivity | discriminate]. }
  rewrite attempts_step. cbv zeta.
  set (rq := single_request self ticker s e).
  assert (Hrec : forall a,
    exists r w' k,
      attempts env self ticker s e mr todo a (called w rq) = (Returned r, w') /\
      (k <= S todo)%nat /\
      calls w' = (calls w ++ repeat rq k)%list /\
      (forall data, r = Some data ->
         exists f, files w' !! _get_cache_path ticker s e = Some f /\ content f = Some data)).
  { intros a. destruct (IH a (called w rq)) as (r & w' & k & E & Hk & Hc & Hf).
    exists r, w', (S k). split; [exact E|]. split; [lia|].
    split; [|exact Hf]. rewrite Hc. simpl. now rewrite <- app_assoc. }
  assert (Hstop : exists r w' k,
      (Returned (@None DataFrame), called w rq) = (Returned r, w') /\
      (k <= S todo)%nat /\
      calls w' = (calls w ++ repeat rq k)%list /\
      (forall data, r = Some data ->
         exists f, files w' !! _get_cache_path ticker s e = Some f /\ content f = Some data)).
  { exists None, (called w rq), 1%nat. split; [reflexivity|]. split; [lia|].
    split; [reflexivity | discriminate]. }
  destruct (yf_download env (length (calls w)) rq) as [data|msg].
  - destruct (negb (df_empty data)); [|apply Hrec].
    eexists _, _, 1%nat. split; [reflexivity|]. split; [lia|].
    split; [reflexivity|]. intros d [= <-]. eexists. split.
    { simpl. apply lookup_insert_eq. }
    reflexivity.
  - destruct (is_rate_limit msg); [apply Hrec|].
    destruct (attempt <? mr - 1)%nat; [apply Hrec | apply Hstop].
Qed.

Lemma load_backed env ticker s e w :
  exists r w',
    _load_from_cache env ticker s e w = (Returned r, w') /\
    files w' = files w /\ calls w' = calls w /\
    (forall data, r = Some data ->
       exists f, files w' !! _get_cache_path ticker s e = Some f /\ content f = Some data).
Proof.
  unfold _load_from_cache, bind, read_files.
  destruct (files w !! _get_cache_path ticker s e) as [f|] eqn:Ef.
  - unfold time_time. simpl.
    destruct (now w + Z.of_N (elapse env (reads w)) - mtime f <? 24 * 3600).
    + eexists _, _. split; [reflexivity|]. simpl. split; [reflexivity|].
      split; [reflexivity|]. intros d Hd. exists f. split; assumption.
    + eexists _, _. split; [reflexivity|]. simpl. split; [reflexivity|].
      split; [reflexivity | discriminate].
  - eexists _, _. split; [reflexivity|]. split; [reflexivity|].
    split; [reflexivity | discriminate].
Qed.

Lemma get_stock_data_budget env self ticker s e mr w :
  exists r w' k,
    get_stock_data env self ticker s e mr w = (Returned r, w') /\
    (k <= mr)%nat /\
    calls w' = (calls w ++ repeat (single_request self ticker s e) k)%list /\
    (forall data, r = Some data ->
       exists f, files w' !! _get_cache_path ticker s e = Some f /\ content f = Some data).
Proof.
  unfold get_stock_data, bind.
  destruct (load_backed env ticker s e w) as (r0 & w0 & E0 & Hf0 & Hc0 & Hb0).
  rewrite E0. destruct r0 as [data|].
  - exists (Some data), w0, O. split; [reflexivity|]. split; [lia|].
    split; [simpl; now rewrite app_nil_r|]. exact Hb0.
  - destruct (attempts_budget env self ticker s e mr mr O w0) as (r & w' & k & E & Hk & Hc & Hb).
    exists r, w', k. split; [exact E|]. split; [exact Hk|].
    split; [now rewrite Hc, Hc0 | exact Hb].
Qed.
End FetchMore.

(** ** What the per-ticker fallback puts into the results *)

Section Fallback.
Import yfinance_helper.

Lemma called_n_now w rq n : now (called_n w rq n) = now w.
Proof. revert w. induction n as [|n IH]; intros w; simpl; [|rewrite IH]; reflexivity. Qed.

(** A ticker whose own request is always answered with [data] is fetched
    with that table, from upstream or from the file an earlier fetch wrote. *)
Lemma get_stock_data_served env self t s e mr w base data :
  (forall n, (base <= n)%nat -> data_answer env n (single_request self t s e) data) ->
  (base <= length (calls w))%nat ->
  mr <> O ->
  backed_or_dead s e w t data ->
  exists w',
    get_stock_data env self t s e mr w = (Returned (Some data), w') /\
    backed_or_dead s e w' t data.
Proof.
  intros Hserve Hbase Hmr Hinv. unfold get_stock_data, bind.
  destruct (load_spec env t s e w) as (r & w0 & E & Hf & Hc & Hn & _ & Hmiss).
  destruct (load_backed env t s e w) as (r' & w0' & E' & _ & _ & Hb).
  rewrite E in E'. inversion E'; subst r' w0'. clear E'. rewrite E.
  destruct r as [x|].
  - destruct (Hb x eq_refl) as (f & Hlook & Hcont).
    destruct Hinv as [Hd|(f' & Hlook' & Hcont')].
    + specialize (Hmiss Hd). discriminate.
    + rewrite Hf, Hlook' in Hlook. inversion Hlook; subst f'.
      rewrite Hcont' in Hcont. inversion Hcont; subst x.
      exists w0. split; [reflexivity|]. right. exists f. rewrite Hf. split; assumption.
  - assert (Hd : data_answer env (length (calls w0) + 0) (single_request self t s e) data).
    { rewrite Nat.add_0_r, Hc. apply Hserve. exact Hbase. }
    rewrite (attempts_first_data env self t s e mr O mr O w0 data);
      [|lia | lia | intros i Hi; lia | exact Hd].
    eexists. split; [reflexivity|]. right.
    eexists. split; [simpl; apply lookup_insert_eq | reflexivity].
Qed.

(** A dead ticker whose own request never brings data stays unresolved
    and dead. *)
Lemma get_stock_data_starved env self t s e mr w base :
  (forall n, (base <= n)%nat -> no_data_answer env n (single_request self t s e)) ->
  (base <= length (calls w))%nat ->
  dead s e w t ->
  exists w',
    get_stock_data env self t s e mr w = (Returned None, w') /\
    dead s e w' t.
Proof.
  intros Hstarve Hbase Hd. unfold get_stock_data, bind.
  destruct (load_spec env t s e w) as (r & w0 & E & Hf & Hc & Hn & _ & Hmiss).
  rewrite E, (Hmiss Hd).
  rewrite (attempts_no_data env self t s e mr mr O w0); [|lia|].
  - eexists. split; [reflexivity|].
    apply (dead_later s e w); [exact Hd | | ].
    + now rewrite called_n_files, Hf.
    + now rewrite called_n_now.
  - intros i _. apply Hstarve. rewrite Hc. lia.
Qed.

(** What a fetch of one ticker leaves alone of another. *)
Lemma get_stock_data_other env self t u s e mr w data :
  u <> t ->
  exists r w',
    get_stock_data env self t s e mr w = (Returned r, w') /\
    (length (calls w) <= length (calls w'))%nat /\
    (dead s e w u -> dead s e w' u) /\
    (backed_or_dead s e w u data -> backed_or_dead s e w' u data).
Proof.
  intros Hne.
  destruct (get_stock_data_spec env self t s e mr w) as (r & w' & l & E & Hc & Hn & Hf & _).
  exists r, w'. split; [exact E|].
  assert (Hpath : files w' !! _get_cache_path u s e = files w !! _get_cache_path u s e).
  { apply Hf. intros Heq. apply Hne. now apply cache_path_inj in Heq. }
  split; [rewrite Hc, length_app; lia|].
  assert (Hdead : dead s e w u -> dead s e w' u).
  { intros Hd. now apply (dead_later s e w w'). }
  split; [exact Hdead|].
  intros [Hd|(f & Hlook & Hcont)]; [left; now apply Hdead|].
  right. exists f. now rewrite Hpath.
Qed.

Lemma get_stock_data_calls env self t s e mr w :
  exists r w',
    get_stock_data env self t s e mr w = (Returned r, w') /\
    (length (calls w) <= length (calls w'))%nat.
Proof.
  destruct (get_stock_data_spec env self t s e mr w) as (r & w' & l & E & Hc & _).
  exists r, w'. split; [exact E|]. rewrite Hc, length_app. lia.
Qed.

(** The results of the per-ticker loop, ticker by ticker. *)
Lemma one_by_one_results env self s e base ts :
  forall results w,
    (base <= length (calls w))%nat ->
    exists results' w',
      one_by_one env self s e ts results w = (Returned results', w') /\
      (forall t, ~ In t ts -> results' !! t = results !! t) /\
      (forall t data,
          In t ts ->
          (forall n, (base <= n)%nat -> data_answer env n (single_request self t s e) data) ->
          backed_or_dead s e w t data ->
          results' !! t = Some data) /\
      (forall t,
          In t ts ->
          (forall n, (base <= n)%nat -> no_data_answer env n (single_request self t s e)) ->
          dead s e w t ->
          results' !! t = results !! t).
Proof.
  induction ts as [|t0 rest IH]; intros results w Hbase.
  { exists results, w. split; [reflexivity|]. split; [reflexivity|].
    split; [intros t d []|intros t []]. }
  cbn [one_by_one]. unfold bind at 1.
  destruct (get_stock_data_calls env self t0 s e default_max_retries w)
    as (r & w1 & E & Hlen).
  rewrite E. unfold bind at 1, sleep, ret.
  set (results1 := match r with Some d => <[t0 := d]> results | None => results end).
  destruct (IH results1 w1 ltac:(lia)) as (results' & w' & E' & Hout & Hserved & Hstarved).
  exists results', w'. split; [exact E'|].
  assert (Hne : forall t, t <> t0 -> results1 !! t = results !! t).
  { intros t Ht. unfold results1. destruct r; [now rewrite lookup_insert_ne | reflexivity]. }
  split; [|split].
  - intros t Hnot. rewrite Hout by (intros H; apply Hnot; now right).
    apply Hne. intros ->. apply Hnot. now left.
  - intros t data Hin Hserve Hinv.
    assert (Hinv1 : backed_or_dead s e w1 t data /\ (t = t0 -> results1 !! t = Some data)).
    { destruct (String.eqb_spec t t0) as [->|Hdiff].
      - destruct (get_stock_data_served env self t0 s e default_max_retries w base data
                    Hserve Hbase ltac:(discriminate) Hinv) as (w1' & E1 & Hinv1).
        rewrite E in E1. inversion E1; subst r w1'.
        split; [exact Hinv1|]. intros _. unfold results1. apply lookup_insert_eq.
      - destruct (get_stock_data_other env self t0 t s e default_max_retries w data Hdiff)
          as (r' & w1' & E1 & _ & _ & Hkeep).
        rewrite E in E1. inversion E1; subst r' w1'.
        split; [now apply Hkeep | intros; contradiction]. }
    destruct Hinv1 as [Hinv1 Hhead].
    destruct (in_dec string_dec t rest) as [Hrest|Hrest].
    + apply (Hserved t data Hrest Hserve Hinv1).
    + rewrite Hout by exact Hrest. apply Hhead.
      destruct Hin as [<-|Hin]; [reflexivity | contradiction].
  - intros t Hin Hstarve Hd.
    assert (Hd1 : dead s e w1 t /\ results1 !! t = results !! t).
    { destruct (String.eqb_spec t t0) as [->|Hdiff].
      - destruct (get_stock_data_starved env self t0 s e default_max_retries w base
                    Hstarve Hbase Hd) as (w1' & E1 & Hd1).
        rewrite E in E1. inversion E1; subst r w1'. split; [exact Hd1 | reflexivity].
      - destruct (get_stock_data_other env self t0 t s e default_max_retries w
                    (Flat []) Hdiff) as (r' & w1' & E1 & _ & Hkeep & _).
        rewrite E in E1. inversion E1; subst r' w1'.
        split; [now apply Hkeep | now apply Hne]. }
    destruct Hd1 as [Hd1 Hsame].
    destruct (in_dec string_dec t rest) as [Hrest|Hrest].
    + rewrite (Hstarved t Hrest Hstarve Hd1). exact Hsame.
    + rewrite Hout by exact Hrest. exact Hsame.
Qed.

End Fallback.

(** C9: when the bulk call of a batch raises, the batch is handed to the
    per-ticker path instead of being given up.  The batch ends normally; after
    the failed bulk request the call log holds a per-ticker request for every
    cache-miss ticker of the batch; and the failure alone costs no ticker its
    result: a cache-miss ticker whose own request is answered with a table
    that has rows ends up in the results with that table, one whose own
    request never brings data keeps the entry it had, and so does every other
    ticker.  Every ticker of the batch is a cache hit or on the miss list, and
    the batch loop goes on with the batches that follow. *)
Theorem bulk_failure_degrades (env : Env) (self : yfinance_helper.YFinanceHelper)
    (s e : string) (batch : list string) (results results1 : gmap string DataFrame)
    (w w1 : World) (uncached : list string) (msg : string) :
  yfinance_helper.split_cached env s e batch results [] w
  = (Returned (results1, uncached), w1) ->
  uncached <> [] ->
  yf_download env (length (calls w1)) (bulk_request self s e uncached) = Fails msg ->
  exists results' w' extra,
    yfinance_helper.bulk_batch env self s e batch results w = (Returned results', w') /\
    calls w' = (calls w1 ++ bulk_request self s e uncached :: extra)%list /\
    (forall t, In t uncached -> In (single_request self t s e) extra) /\
    (forall t data,
        In t uncached ->
        (forall n, (length (calls w1) < n)%nat ->
                   data_answer env n (single_request self t s e) data) ->
        results' !! t = Some data) /\
    (forall t,
        In t uncached ->
        (forall n, (length (calls w1) < n)%nat ->
                   no_data_answer env n (single_request self t s e)) ->
        results' !! t = results1 !! t) /\
    (forall t, ~ In t uncached -> results' !! t = results1 !! t) /\
    (forall t, In t batch -> In t uncached \/ is_Some (results1 !! t)) /\
    (forall rest,
        yfinance_helper.run_batches (yfinance_helper.bulk_batch env self s e)
          (batch :: rest) results w
        = yfinance_helper.run_batches (yfinance_helper.bulk_batch env self s e)
            rest results' w').
Proof.
  intros Hs Hne Hf.
  pose proof (bulk_batch_fails _ _ _ _ _ _ _ _ _ _ _ Hs Hne Hf) as Heq.
  destruct (split_cached_spec env s e batch results [] w)
    as (r1 & u1 & w1' & Es & _ & _ & _ & Hu & Hb & _ & _).
  rewrite Hs in Es. inversion Es; subst r1 u1 w1'. clear Es.
  set (wb := called w1 (bulk_request self s e uncached)) in *.
  assert (Hdead : forall u, In u uncached -> dead s e wb u).
  { intros u Hin. destruct (Hu u Hin) as [[]|[_ Hd]]. exact Hd. }
  assert (Hp : pending self s e uncached [] wb).
  { intros u Hin. right. now apply Hdead. }
  destruct (one_by_one_spec env self s e uncached (calls wb) uncached results1 wb []
              (eq_sym (app_nil_r _)) Hp (fun _ H => H))
    as (results' & w' & extra & E & Hc & _ & Hall & _).
  destruct (one_by_one_results env self s e (length (calls wb)) uncached results1 wb
              (Nat.le_refl _))
    as (results2 & w2 & E2 & Hout & Hserved & Hstarved).
  rewrite E in E2. inversion E2; subst results2 w2. clear E2.
  assert (Hlen : length (calls wb) = S (length (calls w1))).
  { unfold wb. simpl. rewrite length_app. simpl. lia. }
  exists results', w', extra. rewrite Heq.
  split; [exact E|].
  split; [rewrite Hc; unfold wb; simpl; now rewrite <- app_assoc|].
  split; [exact Hall|].
  split; [|split; [|split; [exact Hout | split; [exact Hb|]]]].
  - intros t data Hin Hserve. apply (Hserved t data Hin).
    + intros n Hn. apply Hserve. lia.
    + left. now apply Hdead.
  - intros t Hin Hstarve. apply (Hstarved t Hin).
    + intros n Hn. apply Hstarve. lia.
    + now apply Hdead.
  - intros rest. cbn [yfinance_helper.run_batches]. unfold bind at 1.
    rewrite Heq, E. destruct rest; reflexivity.
Qed.

(** On [flaky_feed] the bulk call of the batch A, B fails and every later
    call brings three bars: both tickers are in the results. *)
Lemma bulk_failure_degrades_witness :
  let self := yfinance_helper.mk_helper false false in
  exists results' w',
    yfinance_helper.bulk_batch flaky_feed self "2024-01-15" "2024-02-04" ["A"; "B"] ∅ boot
    = (Returned results', w') /\
    results' !! "A" = Some (Flat three_bars) /\
    results' !! "B" = Some (Flat three_bars) /\
    (forall t, t <> "A" -> t <> "B" -> results' !! t = None).
Proof.
  intros self.
  destruct (bulk_failure_degrades flaky_feed self "2024-01-15" "2024-02-04" ["A"; "B"]
              ∅ ∅ boot boot ["A"; "B"] "boom" eq_refl ltac:(discriminate) eq_refl)
    as (results' & w' & extra & E & _ & _ & Hserved & _ & Hout & _).
  assert (Hfeed : forall t n, (length (calls boot) < n)%nat ->
            data_answer flaky_feed n (single_request self t "2024-01-15" "2024-02-04")
                        (Flat three_bars)).
  { intros t [|n] Hn; [simpl in Hn; lia|]. split; reflexivity. }
  exists results', w'. split; [exact E|].
  split; [apply Hserved; [now left | apply Hfeed]|].
  split; [apply Hserved; [right; now left | apply Hfeed]|].
  intros t Ha Hb. rewrite Hout; [reflexivity|].
  intros [H|[H|[]]]; congruence.
Defined.

(** An empty bulk table is an answer, not a failure: the batch then ends
    with its tickers unresolved and no per-ticker request is sent. *)
Lemma bulk_empty_answer_sample :
  let self := yfinance_helper.mk_helper false false in
  let r := yfinance_helper.bulk_batch silent_feed self "2024-01-15" "2024-02-04"
             ["A"; "B"] ∅ boot in
  fst r = Returned ∅ /\
  calls (snd r) = [bulk_request self "2024-01-15" "2024-02-04" ["A"; "B"]].
Proof. vm_compute. split; reflexivity. Qed.

(** X2: a table written by [_save_to_cache] is what the next
    [_load_from_cache] of the same ticker and range returns, provided less
    than 24 hours pass before that lookup reads the clock; after 24 hours or
    more the lookup is a miss.  Neither step calls upstream. *)
Theorem cache_round_trip env ticker s e data w :
  let r := bind (yfinance_helper._save_to_cache env ticker s e data)
                (fun _ => yfinance_helper._load_from_cache env ticker s e) w in
  fst r = Returned (if (elapse env (S (reads w)) <? 24 * 3600)%N then Some data else None) /\
  calls (snd r) = calls w.
Proof. apply save_load_roundtrip. Qed.

(** X3: with a cache file for the ticker and range that unpickles and is
    younger than 24 hours when the clock is read, [get_stock_data] returns the
    cached table, sends nothing upstream and leaves the cache directory as it
    is, whatever [max_retries]. *)
Theorem cached_fetch_is_local env self ticker s e max_retries w f data :
  files w !! yfinance_helper._get_cache_path ticker s e = Some f ->
  content f = Some data ->
  now w + Z.of_N (elapse env (reads w)) - mtime f < 24 * 3600 ->
  exists w',
    yfinance_helper.get_stock_data env self ticker s e max_retries w
    = (Returned (Some data), w') /\
    calls w' = calls w /\ files w' = files w.
Proof. apply cache_hit. Qed.

Lemma cached_fetch_is_local_witness :
  exists w',
    yfinance_helper.get_stock_data dark_feed (yfinance_helper.mk_helper false false)
      "AAPL" "2024-01-15" "2024-02-04" 3 warm
    = (Returned (Some (Flat three_bars)), w') /\
    calls w' = calls warm /\ files w' = files warm.
Proof.
  apply (cached_fetch_is_local dark_feed (yfinance_helper.mk_helper false false)
           "AAPL" "2024-01-15" "2024-02-04" 3 warm (mk_file 1 (Some (Flat three_bars)))).
  - vm_compute. reflexivity.
  - reflexivity.
  - vm_compute. reflexivity.
Defined.

(** X4: on a cache miss, failures of either kind and empty answers are
    retried: if attempt k (counted from 0, k < max_retries) is the first to
    get a table with rows, [get_stock_data] returns that table after exactly
    k + 1 upstream calls, all of them the same single-ticker request, and the
    cache file of the ticker and range then holds the table, stamped with the
    current time. *)
Theorem fetch_first_data env self ticker s e max_retries w k data :
  dead s e w ticker ->
  (k < max_retries)%nat ->
  (forall i, (i < k)%nat ->
     no_data_answer env (length (calls w) + i) (single_request self ticker s e)) ->
  data_answer env (length (calls w) + k) (single_request self ticker s e) data ->
  exists w',
    yfinance_helper.get_stock_data env self ticker s e max_retries w
    = (Returned (Some data), w') /\
    calls w' = (calls w ++ repeat (single_request self ticker s e) (S k))%list /\
    files w' = <[yfinance_helper._get_cache_path ticker s e
                 := mk_file (now w') (Some data)]> (files w).
Proof.
  intros Hd Hk Hno Hdata.
  destruct (load_dead env ticker s e w Hd) as (w0 & E0 & Hf0 & Hc0).
  unfold yfinance_helper.get_stock_data, bind. rewrite E0.
  erewrite attempts_first_data; [| lia | exact Hk | rewrite Hc0; exact Hno
                                 | rewrite Hc0; exact Hdata].
  eexists. split; [reflexivity|]. split.
  - cbn [saved calls]. now rewrite called_n_calls, Hc0.
  - rewrite saved_files. cbn [saved files]. now rewrite called_n_files, Hf0.
Qed.

Lemma fetch_first_data_witness :
  exists w',
    yfinance_helper.get_stock_data shaky_feed (yfinance_helper.mk_helper false false)
      "AAPL" "2024-01-15" "2024-02-04" 3 boot
    = (Returned (Some (Flat three_bars)), w') /\
    calls w' = (calls boot
                ++ repeat (single_request (yfinance_helper.mk_helper false false)
                             "AAPL" "2024-01-15" "2024-02-04") 3)%list /\
    files w' = <[yfinance_helper._get_cache_path "AAPL" "2024-01-15" "2024-02-04"
                 := mk_file (now w') (Some (Flat three_bars))]> (files boot).
Proof.
  apply (fetch_first_data shaky_feed (yfinance_helper.mk_helper false false)
           "AAPL" "2024-01-15" "2024-02-04" 3 boot 2 (Flat three_bars)).
  - exact I.
  - lia.
  - intros i Hi data. destruct i as [|[|i]]; [discriminate | discriminate | lia].
  - split; reflexivity.
Defined.

(** X5: on a cache miss, when none of the [max_retries] attempts gets a
    table with rows (errors of either kind, or empty tables), [get_stock_data]
    returns [None] after exactly [max_retries] upstream calls and writes
    nothing to the cache. *)
Theorem fetch_gives_up env self ticker s e max_retries w :
  dead s e w ticker ->
  (forall i, (i < max_retries)%nat ->
     no_data_answer env (length (calls w) + i) (single_request self ticker s e)) ->
  exists w',
    yfinance_helper.get_stock_data env self ticker s e max_retries w = (Returned None, w') /\
    calls w' = (calls w ++ repeat (single_request self ticker s e) max_retries)%list /\
    files w' = files w.
Proof.
  intros Hd Hno.
  destruct (load_dead env ticker s e w Hd) as (w0 & E0 & Hf0 & Hc0).
  unfold yfinance_helper.get_stock_data, bind. rewrite E0.
  rewrite attempts_no_data; [| lia | rewrite Hc0; exact Hno].
  eexists. split; [reflexivity|]. split.
  - now rewrite called_n_calls, Hc0.
  - now rewrite called_n_files, Hf0.
Qed.

Lemma fetch_gives_up_witness :
  exists w',
    yfinance_helper.get_stock_data dark_feed (yfinance_helper.mk_helper false false)
      "AAPL" "2024-01-15" "2024-02-04" 3 boot = (Returned None, w') /\
    calls w' = (calls boot
                ++ repeat (single_request (yfinance_helper.mk_helper false false)
                             "AAPL" "2024-01-15" "2024-02-04") 3)%list /\
    files w' = files boot.
Proof.
  apply (fetch_gives_up dark_feed).
  - exact I.
  - intros i _ data. discriminate.
Defined.

(** X6: [get_stock_data] never raises and never sends more than
    [max_retries] upstream requests, each of them the single-ticker request
    for its own ticker and range; and a table it returns is, afterwards, the
    content of the cache file of that ticker and range. *)
Theorem fetch_budget env self ticker s e max_retries w :
  exists r w' k,
    yfinance_helper.get_stock_data env self ticker s e max_retries w = (Returned r, w') /\
    (k <= max_retries)%nat /\
    calls w' = (calls w ++ repeat (single_request self ticker s e) k)%list /\
    (forall data, r = Some data ->
       exists f, files w' !! yfinance_helper._get_cache_path ticker s e = Some f /\
                 content f = Some data).
Proof. apply get_stock_data_budget. Qed.

(** ** Price at a date *)

Section PriceOnDate.
Import yfinance_helper.

Lemma find_first {A} (f : A -> bool) (l : list A) (b : A) :
  List.find f l = Some b ->
  exists pre post, l = (pre ++ b :: post)%list /\ f b = true /\
                   forall x, In x pre -> f x = false.
Proof.
  induction l as [|a l IH]; intros H; [discriminate|]. simpl in H.
  destruct (f a) eqn:Ea.
  - inversion H; subst b. exists [], l. repeat split; [exact Ea | intros x []].
  - destruct (IH H) as (pre & post & -> & Hb & Hpre).
    exists (a :: pre), post. repeat split; [exact Hb|].
    intros x [<-|Hx]; [exact Ea | now apply Hpre].
Qed.

Lemma closest_first_least (target : Z) (rows : list bar) :
  rows <> [] ->
  exists pre b post,
    rows = (pre ++ b :: post)%list /\ closest target rows = Some b /\
    (forall x, In x pre -> day_distance target b < day_distance target x) /\
    (forall x, In x post -> day_distance target b <= day_distance target x).
Proof.
  induction rows as [|b0 rest IH]; intros Hne; [contradiction|].
  destruct rest as [|b1 rest'].
  { exists [], b0, []. repeat split; intros x []. }
  destruct IH as (pre & c & post & Erest & Ec & Hpre & Hpost); [discriminate|].
  cbn [closest]. cbn [closest] in Ec. rewrite Ec. fold (day_distance target c).
  fold (day_distance target b0).
  destruct (Z.ltb_spec (day_distance target c) (day_distance target b0)) as [Hlt|Hge].
  - exists (b0 :: pre), c, post. rewrite Erest. repeat split; [|exact Hpost].
    intros x [<-|Hx]; [exact Hlt | now apply Hpre].
  - exists [], b0, (b1 :: rest'). repeat split; [intros x []|].
    intros x Hx. rewrite Erest in Hx. apply in_app_or in Hx as [Hx|[<-|Hx]].
    + specialize (Hpre x Hx). lia.
    + exact Hge.
    + specialize (Hpost x Hx). lia.
Qed.

Lemma price_on_date_flat env self ticker target buf w w' rows :
  get_stock_data env self ticker (strftime_ymd (plus_days target (- buf)))
    (strftime_ymd (plus_days target buf)) default_max_retries w
  = (Returned (Some (Flat rows)), w') ->
  get_stock_price_on_date env self ticker target buf w
  = (Returned (match exact_match (strftime_ymd target) rows with
               | Some price => Some price
               | None => bar_close <$> closest target rows
               end), w').
Proof.
  intros H. unfold get_stock_price_on_date, bind. rewrite H.
  destruct rows as [|b rows]; [reflexivity|]. cbn [df_empty is_nil negb].
  destruct (exact_match (strftime_ymd target) (b :: rows)); reflexivity.
Qed.
End PriceOnDate.

(** X7: when the fetch around the target date yields a table with rows,
    [get_stock_price_on_date] returns the close of one of its bars: the first
    bar that falls on the target day if there is one, and otherwise the first
    bar whose distance from the target time, in whole days, is least. *)
Theorem price_on_date_choice env self ticker target_date days_buffer w w' rows :
  yfinance_helper.get_stock_data env self ticker
    (strftime_ymd (plus_days target_date (- days_buffer)))
    (strftime_ymd (plus_days target_date days_buffer))
    yfinance_helper.default_max_retries w
  = (Returned (Some (Flat rows)), w') ->
  rows <> [] ->
  exists pre b post,
    rows = (pre ++ b :: post)%list /\
    yfinance_helper.get_stock_price_on_date env self ticker target_date days_buffer w
    = (Returned (Some (bar_close b)), w') /\
    ((strftime_ymd (bar_time b) = strftime_ymd target_date /\
      forall x, In x pre -> strftime_ymd (bar_time x) <> strftime_ymd target_date)
     \/
     ((forall x, In x rows -> strftime_ymd (bar_time x) <> strftime_ymd target_date) /\
      (forall x, In x pre -> day_distance target_date b < day_distance target_date x) /\
      (forall x, In x post -> day_distance target_date b <= day_distance target_date x))).
Proof.
  intros H Hne. rewrite (price_on_date_flat _ _ _ _ _ _ _ _ H).
  unfold yfinance_helper.exact_match.
  destruct (List.find _ rows) as [b|] eqn:Ef.
  - destruct (find_first _ _ _ Ef) as (pre & post & -> & Hb & Hpre).
    exists pre, b, post. split; [reflexivity|]. split; [reflexivity|]. left.
    split; [now apply String.eqb_eq|].
    intros x Hx. apply String.eqb_neq. now apply Hpre.
  - destruct (closest_first_least target_date rows Hne)
      as (pre & b & post & -> & Ec & Hpre & Hpost).
    exists pre, b, post. split; [reflexivity|]. simpl. rewrite Ec.
    split; [reflexivity|]. right. split; [|split; assumption].
    intros x Hx. apply String.eqb_neq.
    apply (find_none _ _ Ef x Hx).
Qed.

Lemma price_on_date_choice_witness :
  exists pre b post,
    three_bars = (pre ++ b :: post)%list /\
    yfinance_helper.get_stock_price_on_date steady_feed
      (yfinance_helper.mk_helper false false) "AAPL" (monday + 4 * 86400) 5 boot
    = (Returned (Some (bar_close b)),
       snd (yfinance_helper.get_stock_data steady_feed
              (yfinance_helper.mk_helper false false) "AAPL"
              (strftime_ymd (plus_days (monday + 4 * 86400) (- 5)))
              (strftime_ymd (plus_days (monday + 4 * 86400) 5))
              yfinance_helper.default_max_retries boot)) /\
    ((strftime_ymd (bar_time b) = strftime_ymd (monday + 4 * 86400) /\
      forall x, In x pre -> strftime_ymd (bar_time x) <> strftime_ymd (monday + 4 * 86400))
     \/
     ((forall x, In x three_bars ->
         strftime_ymd (bar_time x) <> strftime_ymd (monday + 4 * 86400)) /\
      (forall x, In x pre ->
         day_distance (monday + 4 * 86400) b < day_distance (monday + 4 * 86400) x) /\
      (forall x, In x post ->
         day_distance (monday + 4 * 86400) b <= day_distance (monday + 4 * 86400) x))).
Proof.
  apply (price_on_date_choice steady_feed (yfinance_helper.mk_helper false false)
           "AAPL" (monday + 4 * 86400) 5 boot).
  - vm_compute. reflexivity.
  - discriminate.
Defined.

(** ** What the helper hands out *)

Section Sound.
Import yfinance_helper.

Lemma hoare_ret {A} (P : World -> Prop) (a : A) (Q : A -> World -> Prop) :
  (forall w, P w -> Q a w) -> hoare P (ret a) Q.
Proof. intros H w Hw. exists a, w. split; [reflexivity | now apply H]. Qed.

Lemma hoare_bind {A B} (P : World -> Prop) (m : M A) (R : A -> World -> Prop)
    (k : A -> M B) (Q : B -> World -> Prop) :
  hoare P m R -> (forall a, hoare (R a) (k a) Q) -> hoare P (bind m k) Q.
Proof.
  intros Hm Hk w Hw. destruct (Hm w Hw) as (a & w1 & E & Ha).
  destruct (Hk a w1 Ha) as (b & w2 & E2 & Hb).
  exists b, w2. unfold bind. rewrite E. split; assumption.
Qed.

Lemma hoare_weaken {A} (P P' : World -> Prop) (m : M A) (Q Q' : A -> World -> Prop) :
  hoare P m Q -> (forall w, P' w -> P w) -> (forall a w, Q a w -> Q' a w) ->
  hoare P' m Q'.
Proof.
  intros H HP HQ w Hw. destruct (H w (HP w Hw)) as (a & w' & E & Ha).
  exists a, w'. split; [exact E | now apply HQ].
Qed.

Lemma cache_sound_files w w' : files w' = files w -> cache_sound w -> cache_sound w'.
Proof. intros E H p f d. rewrite E. apply H. Qed.

Lemma cache_sound_insert w w' path t data :
  files w' = <[path := mk_file t (Some data)]> (files w) ->
  df_empty data = false -> cache_sound w -> cache_sound w'.
Proof.
  intros E Hd H p f d. rewrite E.
  destruct (String.eqb_spec path p) as [->|Hne].
  - rewrite lookup_insert_eq. intros [= <-] [= <-]. exact Hd.
  - rewrite lookup_insert_ne by exact Hne. apply H.
Qed.

Lemma load_sound env ticker s e :
  hoare cache_sound (_load_from_cache env ticker s e)
        (fun r w' => cache_sound w' /\ forall data, r = Some data -> df_empty data = false).
Proof.
  intros w Hw. destruct (load_backed env ticker s e w) as (r & w' & E & Hf & _ & Hb).
  exists r, w'. split; [exact E|]. split; [now apply (cache_sound_files w)|].
  intros data Hr. destruct (Hb data Hr) as (f & Hl & Hc).
  apply (cache_sound_files w w' Hf Hw _ f data Hl Hc).
Qed.

Lemma save_sound env ticker s e data :
  df_empty data = false ->
  hoare cache_sound (_save_to_cache env ticker s e data) (fun _ w' => cache_sound w').
Proof.
  intros Hd w Hw. eexists tt, _. split; [reflexivity|].
  eapply cache_sound_insert; [reflexivity | exact Hd | exact Hw].
Qed.

Lemma attempts_sound env self ticker s e mr todo attempt :
  hoare cache_sound (attempts env self ticker s e mr todo attempt)
        (fun r w' => cache_sound w' /\ forall data, r = Some data -> df_empty data = false).
Proof.
  revert attempt. induction todo as [|todo IH]; intros attempt w Hw.
  { exists None, w. split; [reflexivity|]. split; [exact Hw | discriminate]. }
  rewrite attempts_step. cbv zeta.
  set (rq := single_request self ticker s e).
  assert (Hw1 : cache_sound (called w rq)) by (apply (cache_sound_files w); [reflexivity | exact Hw]).
  destruct (yf_download env (length (calls w)) rq) as [data|msg].
  - destruct (df_empty data) eqn:Hd; cbn [negb]; [now apply IH|].
    eexists _, _. split; [reflexivity|]. split.
    + eapply cache_sound_insert; [reflexivity | exact Hd | exact Hw1].
    + intros d [= <-]. exact Hd.
  - destruct (is_rate_limit msg); [now apply IH|].
    destruct (attempt <? mr - 1)%nat; [now apply IH|].
    eexists _, _. split; [reflexivity|]. split; [exact Hw1 | discriminate].
Qed.

Lemma get_stock_data_sound env self ticker s e mr :
  hoare cache_sound (get_stock_data env self ticker s e mr)
        (fun r w' => cache_sound w' /\ forall data, r = Some data -> df_empty data = false).
Proof.
  unfold get_stock_data. eapply hoare_bind; [apply load_sound|].
  intros [data|].
  - apply hoare_ret. intros w [Hw Hd]. split; [exact Hw|].
    intros d [= <-]. now apply Hd.
  - eapply hoare_weaken; [apply attempts_sound | intros w [Hw _]; exact Hw | auto].
Qed.

Lemma results_sound_insert T results t data :
  results_sound T results -> In t T -> df_empty data = false ->
  results_sound T (<[t := data]> results).
Proof.
  intros H Ht Hd u d. destruct (String.eqb_spec t u) as [->|Hne].
  - rewrite lookup_insert_eq. intros [= <-]. split; assumption.
  - rewrite lookup_insert_ne by exact Hne. apply H.
Qed.

Lemma split_cached_sound env s e T batch :
  forall results unc,
    results_sound T results -> (forall t, In t batch -> In t T) ->
    (forall t, In t unc -> In t T) ->
    hoare cache_sound (split_cached env s e batch results unc)
          (fun r w' => cache_sound w' /\ results_sound T (fst r) /\
                       forall t, In t (snd r) -> In t T).
Proof.
  induction batch as [|ticker rest IH]; intros results unc Hr Hb Hu.
  { apply hoare_ret. intros w Hw. simpl. auto. }
  cbn [split_cached]. eapply hoare_bind; [apply load_sound|].
  intros [data|].
  - intros w [Hw Hd]. apply IH; try assumption.
    + apply results_sound_insert; [exact Hr | apply Hb; now left | now apply Hd].
    + intros t Ht. apply Hb. now right.
  - intros w [Hw _]. apply IH; try assumption.
    + intros t Ht. apply Hb. now right.
    + intros t Ht. apply in_app_or in Ht as [Ht|[<-|[]]]; [now apply Hu | apply Hb; now left].
Qed.

Lemma demultiplex_sound env s e T bulk_data unc :
  forall results,
    results_sound T results -> (forall t, In t unc -> In t T) ->
    hoare cache_sound (demultiplex env s e bulk_data unc results)
          (fun r w' => cache_sound w' /\ results_sound T r).
Proof.
  induction unc as [|ticker rest IH]; intros results Hr Hu.
  { apply hoare_ret. auto. }
  assert (Hrest : forall t, In t rest -> In t T) by (intros t Ht; apply Hu; now right).
  cbn [demultiplex]. destruct bulk_data as [rows|index groups]; [now apply IH|].
  destruct (group_of index groups ticker) as [ticker_data|]; [|now apply IH].
  destruct (df_empty ticker_data) eqn:Hd; cbn [negb]; [now apply IH|].
  eapply hoare_bind; [now apply save_sound|].
  intros u. apply IH; [|exact Hrest].
  apply results_sound_insert; [exact Hr | apply Hu; now left | exact Hd].
Qed.

Lemma one_by_one_sound env self s e T tickers :
  forall results,
    results_sound T results -> (forall t, In t tickers -> In t T) ->
    hoare cache_sound (one_by_one env self s e tickers results)
          (fun r w' => cache_sound w' /\ results_sound T r).
Proof.
  induction tickers as [|ticker rest IH]; intros results Hr Hu.
  { apply hoare_ret. auto. }
  cbn [one_by_one]. eapply hoare_bind; [apply get_stock_data_sound|].
  intros data w [Hw Hd]. unfold bind at 1, sleep, ret.
  apply IH; [| intros t Ht; apply Hu; now right | exact Hw].
  destruct data as [d|]; [|exact Hr].
  apply results_sound_insert; [exact Hr | apply Hu; now left | now apply Hd].
Qed.

Lemma bulk_batch_sound env self s e T batch results :
  results_sound T results -> (forall t, In t batch -> In t T) ->
  hoare cache_sound (bulk_batch env self s e batch results)
        (fun r w' => cache_sound w' /\ results_sound T r).
Proof.
  intros Hr Hb. unfold bulk_batch.
  eapply hoare_bind; [apply (split_cached_sound env s e T); [exact Hr | exact Hb | intros t []]|].
  intros [results1 unc] w (Hw & Hr1 & Hu). simpl in Hr1, Hu.
  destruct unc as [|u us]; cbn [is_nil].
  { exists results1, w. split; [reflexivity | split; assumption]. }
  unfold bind at 1, download.
  assert (Hw1 : forall rq, cache_sound (called w rq))
    by (intros rq; apply (cache_sound_files w); [reflexivity | exact Hw]).
  match goal with |- context [yf_download env ?n ?rq] =>
    destruct (yf_download env n rq) as [bulk_data|msg]; fold (called w rq) end.
  - destruct (df_empty bulk_data) eqn:Hd; cbn [negb].
    { eexists _, _. split; [reflexivity|]. split; [apply Hw1 | exact Hr1]. }
    destruct us as [|u2 us].
    + eapply hoare_bind; [now apply save_sound | | apply Hw1].
      intros u0. apply hoare_ret. intros w2 Hw2. split; [exact Hw2|].
      apply results_sound_insert; [exact Hr1 | apply Hu; now left | exact Hd].
    + apply demultiplex_sound; [exact Hr1 | exact Hu | apply Hw1].
  - apply one_by_one_sound; [exact Hr1 | exact Hu | apply Hw1].
Qed.

Lemma run_batches_sound T
    (body : list string -> gmap string DataFrame -> M (gmap string DataFrame)) bs :
  (forall batch results,
      In batch bs -> results_sound T results ->
      hoare cache_sound (body batch results)
            (fun r w' => cache_sound w' /\ results_sound T r)) ->
  forall results,
    results_sound T results ->
    hoare cache_sound (run_batches body bs results)
          (fun r w' => cache_sound w' /\ results_sound T r).
Proof.
  induction bs as [|batch rest IH]; intros Hbody results Hr.
  { apply hoare_ret. auto. }
  cbn [run_batches]. eapply hoare_bind; [apply Hbody; [now left | exact Hr]|].
  intros r1 w [Hw Hr1]. unfold bind at 1.
  assert (E : (if is_nil rest then ret tt else sleep) w = (Returned tt, w))
    by (destruct rest; reflexivity).
  rewrite E. apply IH; [| exact Hr1 | exact Hw].
  intros b r Hb. apply Hbody. now right.
Qed.

Lemma batch_get_stock_data_sound env self tickers s e batch_size use_bulk :
  batch_size <> 0 ->
  hoare cache_sound (batch_get_stock_data env self tickers s e batch_size use_bulk)
        (fun r w' => cache_sound w' /\ results_sound tickers r).
Proof.
  intros Hbs.
  assert (Hempty : results_sound tickers ∅)
    by (intros t d; rewrite lookup_empty; discriminate).
  unfold batch_get_stock_data, _batch_download_bulk, _batch_download_individual.
  destruct (Z.eqb_spec batch_size 0) as [|_]; [contradiction|].
  destruct use_bulk; (destruct (batch_size <? 0); [apply hoare_ret; auto|]).
  - apply run_batches_sound; [|exact Hempty].
    intros batch results Hb Hr. apply bulk_batch_sound; [exact Hr|].
    intros t Ht. now apply (batches_members tickers (Z.to_nat batch_size) batch).
  - apply run_batches_sound; [|exact Hempty].
    intros batch results Hb Hr. apply one_by_one_sound; [exact Hr|].
    intros t Ht. now apply (batches_members tickers (Z.to_nat batch_size) batch).
Qed.
End Sound.

(** X8: if every table readable from the cache directory has rows, then
    [get_stock_data] returns normally, never hands out a table without rows,
    and leaves a cache directory with the same property. *)
Theorem fetch_never_empty env self ticker s e max_retries w :
  cache_sound w ->
  exists r w',
    yfinance_helper.get_stock_data env self ticker s e max_retries w = (Returned r, w') /\
    cache_sound w' /\
    forall data, r = Some data -> df_empty data = false.
Proof. intros Hw. exact (get_stock_data_sound env self ticker s e max_retries w Hw). Qed.

Lemma fetch_never_empty_witness :
  exists r w',
    yfinance_helper.get_stock_data late_feed (yfinance_helper.mk_helper false false)
      "AAPL" "2024-01-15" "2024-02-04" 3 boot = (Returned r, w') /\
    cache_sound w' /\
    forall data, r = Some data -> df_empty data = false.
Proof.
  apply (fetch_never_empty late_feed).
  intros path f data H. vm_compute in H. discriminate.
Defined.

(** X9: for a non-zero batch size and a cache whose readable tables all
    have rows, [batch_get_stock_data], on the bulk path as on the per-ticker
    path, returns normally a dict in which every key is one of the requested
    tickers and every table has rows; the cache keeps its property. *)
Theorem batch_results_sound env self tickers s e batch_size use_bulk_download w :
  batch_size <> 0 ->
  cache_sound w ->
  exists results w',
    yfinance_helper.batch_get_stock_data env self tickers s e batch_size
      use_bulk_download w = (Returned results, w') /\
    cache_sound w' /\
    forall t data, results !! t = Some data -> In t tickers /\ df_empty data = false.
Proof.
  intros Hbs Hw.
  exact (batch_get_stock_data_sound env self tickers s e batch_size use_bulk_download Hbs w Hw).
Qed.

Lemma batch_results_sound_witness :
  exists results w',
    yfinance_helper.batch_get_stock_data flaky_feed (yfinance_helper.mk_helper false false)
      ["A"; "B"; "C"] "2024-01-15" "2024-02-04" 2 true boot = (Returned results, w') /\
    cache_sound w' /\
    forall t data, results !! t = Some data -> In t ["A"; "B"; "C"] /\ df_empty data = false.
Proof.
  apply (batch_results_sound flaky_feed).
  - discriminate.
  - intros path f data H. vm_compute in H. discriminate.
Defined.

(** ** A batch against the cache and against a bulk answer *)

Section BatchCache.
Import yfinance_helper.

Lemma clock_after_le env t r k : t <= clock_after env t r k.
Proof.
  revert t r. induction k as [|k IH]; intros t r; simpl; [lia|].
  specialize (IH (t + Z.of_N (elapse env r)) (S r)). lia.
Qed.

Lemma split_all_live env s e batch :
  forall results unc w,
    all_live env s e batch w ->
    exists results' w',
      split_cached env s e batch results unc w = (Returned (results', unc), w') /\
      files w' = files w /\ calls w' = calls w /\
      (forall t, In t batch ->
         exists f, files w !! _get_cache_path t s e = Some f /\ results' !! t = content f) /\
      (forall t, ~ In t batch -> results' !! t = results !! t).
Proof.
  induction batch as [|ticker rest IH]; intros results unc w Hlive.
  { exists results, w. split; [reflexivity|]. split; [reflexivity|].
    split; [reflexivity|]. split; [intros t [] | reflexivity]. }
  destruct (Hlive ticker (or_introl eq_refl)) as (f & data & Hf & Hc & Hfresh).
  cbn [split_cached]. unfold bind at 1, _load_from_cache, bind, read_files.
  rewrite Hf. unfold time_time. cbn [length clock_after] in Hfresh.
  set (t1 := now w + Z.of_N (elapse env (reads w))) in *.
  pose proof (clock_after_le env t1 (S (reads w)) (length rest)) as Hle.
  destruct (Z.ltb_spec (t1 - mtime f) (24 * 3600)) as [_|Hbad]; [|lia].
  rewrite Hc. cbn [ret].
  set (w1 := mk_world (files w) t1 (S (reads w)) (calls w) (stdout w) (table w)).
  destruct (IH (<[ticker := data]> results) unc w1) as (results' & w' & E & Hfs & Hcs & Hin & Hout).
  { intros t Ht. destruct (Hlive t (or_intror Ht)) as (ft & dt & Hft & Hct & Hfr).
    exists ft, dt. split; [exact Hft|]. split; [exact Hct|]. exact Hfr. }
  exists results', w'. split; [exact E|]. split; [exact Hfs|]. split; [exact Hcs|]. split.
  - intros t [<-|Ht]; [|now apply Hin].
    destruct (in_dec string_dec ticker rest) as [Hr|Hr]; [now apply Hin|].
    exists f. split; [exact Hf|]. rewrite (Hout ticker Hr), lookup_insert_eq. now rewrite Hc.
  - intros t Ht. rewrite Hout by (intros H; apply Ht; now right).
    apply lookup_insert_ne. intros ->. apply Ht. now left.
Qed.

Lemma demultiplex_lookup env s e index groups unc :
  forall results w,
    exists results' w',
      demultiplex env s e (ByTicker index groups) unc results w = (Returned results', w') /\
      calls w' = calls w /\
      (forall t,
          results' !! t
          = if existsb (String.eqb t) unc
            then match resolved index groups t with
                 | Some ticker_data => Some ticker_data
                 | None => results !! t
                 end
            else results !! t) /\
      (forall t ticker_data,
          In t unc -> resolved index groups t = Some ticker_data ->
          exists f, files w' !! _get_cache_path t s e = Some f /\
                    content f = Some ticker_data) /\
      (forall p, (forall t, In t unc -> p <> _get_cache_path t s e) ->
                 files w' !! p = files w !! p).
Proof.
  induction unc as [|ticker rest IH]; intros results w.
  { exists results, w. split; [reflexivity|]. split; [reflexivity|].
    split; [reflexivity|]. split; [intros t d [] | reflexivity]. }
  cbn [demultiplex].
  assert (Hskip : resolved index groups ticker = None ->
    exists results' w',
      demultiplex env s e (ByTicker index groups) rest results w = (Returned results', w') /\
      calls w' = calls w /\
      (forall t,
          results' !! t
          = if existsb (String.eqb t) (ticker :: rest)
            then match resolved index groups t with
                 | Some ticker_data => Some ticker_data
                 | None => results !! t
                 end
            else results !! t) /\
      (forall t ticker_data,
          In t (ticker :: rest) -> resolved index groups t = Some ticker_data ->
          exists f, files w' !! _get_cache_path t s e = Some f /\
                    content f = Some ticker_data) /\
      (forall p, (forall t, In t (ticker :: rest) -> p <> _get_cache_path t s e) ->
                 files w' !! p = files w !! p)).
  { intros Hnone. destruct (IH results w) as (results' & w' & E & Hc & Hl & Hf & Ho).
    exists results', w'. split; [exact E|]. split; [exact Hc|]. split; [|split].
    - intros t. rewrite Hl. cbn [existsb].
      destruct (String.eqb_spec t ticker) as [->|Hne]; [|reflexivity].
      rewrite Hnone. now destruct (existsb _ rest).
    - intros t d [<-|Ht] Hr; [congruence | now apply (Hf t d)].
    - intros p Hp. apply Ho. intros t Ht. apply Hp. now right. }
  unfold resolved in Hskip.
  destruct (group_of index groups ticker) as [ticker_data|] eqn:Eg; [|now apply Hskip].
  destruct (df_empty ticker_data) eqn:Hd; cbn [negb]; [now apply Hskip|]. clear Hskip.
  unfold bind at 1.
  change (_save_to_cache env ticker s e ticker_data w)
    with (Returned tt, saved env w (_get_cache_path ticker s e) ticker_data).
  destruct (IH (<[ticker := ticker_data]> results)
               (saved env w (_get_cache_path ticker s e) ticker_data))
    as (results' & w' & E & Hc & Hl & Hf & Ho).
  assert (Hres : resolved index groups ticker = Some ticker_data)
    by (unfold resolved; now rewrite Eg, Hd).
  exists results', w'. split; [exact E|]. split; [exact Hc|]. split; [|split].
  - intros t. rewrite Hl. cbn [existsb].
    destruct (String.eqb_spec t ticker) as [->|Hne]; cbn [orb].
    + rewrite Hres, lookup_insert_eq. now destruct (existsb _ rest).
    + now rewrite lookup_insert_ne by congruence.
  - intros t d [<-|Ht] Hr; [|now apply (Hf t d)].
    rewrite Hres in Hr. inversion Hr; subst d.
    destruct (in_dec string_dec ticker rest) as [Hin|Hnin]; [now apply (Hf ticker)|].
    rewrite Ho.
    + cbn [saved files]. rewrite lookup_insert_eq. eexists. split; reflexivity.
    + intros t Ht Heq. apply cache_path_inj in Heq. congruence.
  - intros p Hp. rewrite Ho by (intros t Ht; apply Hp; now right).
    cbn [saved files]. apply lookup_insert_ne. intros Heq.
    apply (Hp ticker (or_introl eq_refl)). now symmetry.
Qed.
End BatchCache.

(** X10: a bulk batch whose tickers all have a cache file that unpickles
    and stays younger than 24 hours while the batch is checked is served from
    the cache alone: no upstream call is made, the cache directory is left as
    it is, and every ticker of the batch gets its cached table. *)
Theorem cached_batch_is_local env self s e batch results w :
  all_live env s e batch w ->
  exists results' w',
    yfinance_helper.bulk_batch env self s e batch results w = (Returned results', w') /\
    calls w' = calls w /\ files w' = files w /\
    (forall t, In t batch ->
       exists f, files w !! yfinance_helper._get_cache_path t s e = Some f /\
                 results' !! t = content f) /\
    (forall t, ~ In t batch -> results' !! t = results !! t).
Proof.
  intros Hlive.
  destruct (split_all_live env s e batch results [] w Hlive)
    as (results' & w' & E & Hf & Hc & Hin & Hout).
  exists results', w'. unfold yfinance_helper.bulk_batch, bind. rewrite E.
  split; [reflexivity|]. repeat split; assumption.
Qed.

Lemma cached_batch_is_local_witness :
  exists results' w',
    yfinance_helper.bulk_batch dark_feed (yfinance_helper.mk_helper false false)
      "2024-01-15" "2024-02-04" ["AAPL"] ∅ warm = (Returned results', w') /\
    calls w' = calls warm /\ files w' = files warm /\
    (forall t, In t ["AAPL"] ->
       exists f, files warm !! yfinance_helper._get_cache_path t "2024-01-15" "2024-02-04"
                 = Some f /\
                 results' !! t = content f) /\
    (forall t, ~ In t ["AAPL"] -> results' !! t = (∅ : gmap string DataFrame) !! t).
Proof.
  apply (cached_batch_is_local dark_feed).
  intros t [<-|[]]. exists (mk_file 1 (Some (Flat three_bars))), (Flat three_bars).
  split; [vm_compute; reflexivity|]. split; [reflexivity|]. vm_compute. reflexivity.
Defined.

(** X11: when a batch has two or more cache misses and the bulk call
    answers with a grouped table that has rows, the batch costs exactly that
    one upstream call: each miss found in the answer with rows of its own gets
    that sub-table as its result and in its cache file, and a miss that the
    answer lacks is left as it was, with no per-ticker attempt. *)
Theorem bulk_answer_demultiplexed env self s e batch results results1 w w1
    u1 u2 us index groups :
  yfinance_helper.split_cached env s e batch results [] w
  = (Returned (results1, u1 :: u2 :: us), w1) ->
  yf_download env (length (calls w1)) (bulk_request self s e (u1 :: u2 :: us))
  = Table (ByTicker index groups) ->
  index <> [] -> groups <> [] ->
  exists results' w',
    yfinance_helper.bulk_batch env self s e batch results w = (Returned results', w') /\
    calls w' = (calls w1 ++ [bulk_request self s e (u1 :: u2 :: us)])%list /\
    (forall t, In t (u1 :: u2 :: us) ->
       results' !! t = match resolved index groups t with
                       | Some ticker_data => Some ticker_data
                       | None => results1 !! t
                       end) /\
    (forall t, ~ In t (u1 :: u2 :: us) -> results' !! t = results1 !! t) /\
    (forall t ticker_data,
       In t (u1 :: u2 :: us) -> resolved index groups t = Some ticker_data ->
       exists f, files w' !! yfinance_helper._get_cache_path t s e = Some f /\
                 content f = Some ticker_data).
Proof.
  intros Hs Ha Hi Hg.
  set (unc := u1 :: u2 :: us) in *.
  set (rq := bulk_request self s e unc) in *.
  destruct (demultiplex_lookup env s e index groups unc results1 (called w1 rq))
    as (results' & w' & E & Hc & Hl & Hf & _).
  exists results', w'. split.
  - unfold yfinance_helper.bulk_batch. unfold bind at 1. rewrite Hs.
    subst unc. cbn [is_nil]. unfold bind at 1, download.
    fold (bulk_request self s e (u1 :: u2 :: us)). fold rq. rewrite Ha.
    destruct index; [contradiction|]. destruct groups; [contradiction|].
    cbn [df_empty is_nil orb negb]. exact E.
  - split; [rewrite Hc; reflexivity|]. split; [|split; [|exact Hf]].
    + intros t Ht. rewrite Hl.
      assert (Hex : existsb (String.eqb t) unc = true).
      { apply existsb_exists. exists t. split; [exact Ht | apply String.eqb_refl]. }
      now rewrite Hex.
    + intros t Ht. rewrite Hl.
      assert (Hex : existsb (String.eqb t) unc = false).
      { apply not_true_is_false. intros H. apply existsb_exists in H as (x & Hx & Hxe).
        apply String.eqb_eq in Hxe. subst x. contradiction. }
      now rewrite Hex.
Qed.

Lemma bulk_answer_demultiplexed_witness :
  let self := yfinance_helper.mk_helper false false in
  let index := [monday; monday + 86400] in
  let groups := [("A", [1%float; 2%float]); ("B", [3%float; 4%float])] in
  exists results' w',
    yfinance_helper.bulk_batch grouped_feed self "2024-01-15" "2024-02-04"
      ["A"; "B"; "C"] ∅ boot = (Returned results', w') /\
    calls w' = (calls boot
                ++ [bulk_request self "2024-01-15" "2024-02-04" ["A"; "B"; "C"]])%list /\
    (forall t, In t ["A"; "B"; "C"] ->
       results' !! t = match resolved index groups t with
                       | Some ticker_data => Some ticker_data
                       | None => (∅ : gmap string DataFrame) !! t
                       end) /\
    (forall t, ~ In t ["A"; "B"; "C"] -> results' !! t = (∅ : gmap string DataFrame) !! t) /\
    (forall t ticker_data,
       In t ["A"; "B"; "C"] -> resolved index groups t = Some ticker_data ->
       exists f, files w' !! yfinance_helper._get_cache_path t "2024-01-15" "2024-02-04"
                 = Some f /\
                 content f = Some ticker_data).
Proof.
  apply (bulk_answer_demultiplexed grouped_feed (yfinance_helper.mk_helper false false)
           "2024-01-15" "2024-02-04" ["A"; "B"; "C"] ∅ ∅ boot boot "A" "B" ["C"]).
  - reflexivity.
  - reflexivity.
  - discriminate.
  - discriminate.
Defined.

(** The ticker the sample answer lacks stays unresolved. *)
Lemma bulk_answer_sample :
  let r := yfinance_helper.bulk_batch grouped_feed (yfinance_helper.mk_helper false false)
             "2024-01-15" "2024-02-04" ["A"; "B"; "C"] ∅ boot in
  exists results, fst r = Returned results /\
    results !! "A" = Some (Flat [mk_bar monday 1; mk_bar (monday + 86400) 2]) /\
    results !! "C" = None /\ length (calls (snd r)) = 1%nat.
Proof. eexists. vm_compute. repeat split; reflexivity. Qed.

Section PurgeLookups.
Import yfinance_helper.

Lemma purge_removed_stale (d : Z) (w w' : World) (p : string) (f : file) :
  1 <= d ->
  files w' = filter (fun entry => ~ expired (now w') d entry) (files w) ->
  files w !! p = Some f -> files w' !! p = None ->
  24 * 3600 < now w' - mtime f.
Proof.
  intros Hd Hfs Hf Hnone. rewrite Hfs in Hnone.
  apply map_lookup_filter_None in Hnone as [Hnone|Hnone]; [congruence|].
  destruct (decide (expired (now w') d (p, f))) as [[_ Hex]|Hn].
  - simpl in Hex. lia.
  - exfalso. exact (Hnone f Hf Hn).
Qed.

Lemma purge_keeps_lookup env d w w' ticker s e :
  1 <= d ->
  files w' = filter (fun entry => ~ expired (now w') d entry) (files w) ->
  fst (_load_from_cache env ticker s e w')
  = fst (_load_from_cache env ticker s e (with_files (files w) w')).
Proof.
  intros Hd Hfs. unfold _load_from_cache, bind, read_files. cbn [with_files files].
  destruct (files w !! _get_cache_path ticker s e) as [f|] eqn:Ef.
  - destruct (files w' !! _get_cache_path ticker s e) as [f'|] eqn:Ef'.
    + rewrite Hfs in Ef'. apply map_lookup_filter_Some in Ef' as [Ef' _].
      rewrite Ef in Ef'. inversion Ef'; subst f'. unfold time_time. cbn.
      destruct (_ <? _); reflexivity.
    + pose proof (purge_removed_stale d w w' _ f Hd Hfs Ef Ef') as Hst.
      unfold time_time. cbn.
      destruct (Z.ltb_spec (now w' + Z.of_N (elapse env (reads w')) - mtime f) (24 * 3600));
        [lia | reflexivity].
  - assert (Ef' : files w' !! _get_cache_path ticker s e = None).
    { rewrite Hfs. apply map_lookup_filter_None. left. exact Ef. }
    rewrite Ef'. reflexivity.
Qed.
End PurgeLookups.

(** X12: a purge with a threshold of one day or more only removes files
    that the cache would no longer serve: each removed file is older than 24
    hours at the time of the purge, and every later lookup returns what it
    would have returned had the directory been left alone. *)
Theorem purge_is_invisible env older_than_days w :
  1 <= older_than_days ->
  let w' := snd (yfinance_helper.clear_cache env older_than_days w) in
  (forall path f, files w !! path = Some f -> files w' !! path = None ->
                  24 * 3600 < now w' - mtime f) /\
  (forall ticker s e,
      fst (yfinance_helper._load_from_cache env ticker s e w')
      = fst (yfinance_helper._load_from_cache env ticker s e (with_files (files w) w'))).
Proof.
  intros Hd.
  destruct (clear_cache_spec env older_than_days w) as (w1 & E & Hfs & _).
  rewrite E. cbn [snd]. split.
  - intros path f. now apply purge_removed_stale with older_than_days.
  - intros ticker s e. now apply purge_keeps_lookup with older_than_days.
Qed.

Lemma purge_is_invisible_witness :
  let w' := snd (yfinance_helper.clear_cache steady_feed 7 dusty) in
  (forall path f, files dusty !! path = Some f -> files w' !! path = None ->
                  24 * 3600 < now w' - mtime f) /\
  (forall ticker s e,
      fst (yfinance_helper._load_from_cache steady_feed ticker s e w')
      = fst (yfinance_helper._load_from_cache steady_feed ticker s e
               (with_files (files dusty) w'))).
Proof. apply (purge_is_invisible steady_feed 7 dusty). lia. Defined.

(** ** The upstream budget of a batch download *)

Section Budget.
Import yfinance_helper.

Lemma spends_ret {A} (a : A) (Q : A -> Prop) : Q a -> spends (ret a) 0 Q.
Proof.
  intros H w. exists a, w, []. split; [reflexivity|].
  split; [now rewrite app_nil_r|]. split; [simpl; lia | exact H].
Qed.

Lemma spends_bind {A B} (m : M A) (k : A -> M B) n1 n2 (R : A -> Prop) (Q : B -> Prop) :
  spends m n1 R -> (forall a, R a -> spends (k a) n2 Q) -> spends (bind m k) (n1 + n2) Q.
Proof.
  intros Hm Hk w. destruct (Hm w) as (a & w1 & x1 & E1 & C1 & L1 & Ha).
  destruct (Hk a Ha w1) as (b & w2 & x2 & E2 & C2 & L2 & Hb).
  exists b, w2, (x1 ++ x2)%list. unfold bind. rewrite E1.
  split; [exact E2|]. split; [now rewrite C2, C1, app_assoc|].
  split; [rewrite length_app; lia | exact Hb].
Qed.

Lemma spends_weaken {A} (m : M A) n n' (Q Q' : A -> Prop) :
  spends m n Q -> (n <= n')%nat -> (forall a, Q a -> Q' a) -> spends m n' Q'.
Proof.
  intros H Hn HQ w. destruct (H w) as (a & w' & x & E & C & L & Ha).
  exists a, w', x. split; [exact E|]. split; [exact C|]. split; [lia | now apply HQ].
Qed.

Lemma spends_load env ticker s e :
  spends (_load_from_cache env ticker s e) 0 (fun _ => True).
Proof.
  intros w. destruct (load_backed env ticker s e w) as (r & w' & E & _ & Hc & _).
  exists r, w', []. split; [exact E|]. split; [now rewrite app_nil_r|].
  split; [simpl; lia | exact I].
Qed.

Lemma spends_save env ticker s e data :
  spends (_save_to_cache env ticker s e data) 0 (fun _ => True).
Proof.
  intros w. eexists tt, _, []. split; [reflexivity|].
  split; [simpl; now rewrite app_nil_r|]. split; [simpl; lia | exact I].
Qed.

Lemma spends_get_stock_data env self ticker s e mr :
  spends (get_stock_data env self ticker s e mr) mr (fun _ => True).
Proof.
  intros w. destruct (get_stock_data_budget env self ticker s e mr w)
    as (r & w' & k & E & Hk & Hc & _).
  exists r, w', (repeat (single_request self ticker s e) k).
  split; [exact E|]. split; [exact Hc|]. split; [now rewrite repeat_length | exact I].
Qed.

Lemma spends_one_by_one env self s e tickers :
  forall results,
    spends (one_by_one env self s e tickers results)
           (default_max_retries * length tickers) (fun _ => True).
Proof.
  induction tickers as [|t rest IH]; intros results.
  { apply spends_ret. exact I. }
  cbn [one_by_one length].
  replace (default_max_retries * S (length rest))%nat
    with (default_max_retries + (0 + default_max_retries * length rest))%nat by lia.
  eapply spends_bind; [apply spends_get_stock_data|].
  intros data _. eapply spends_bind; [apply (spends_ret tt (fun _ => True) I)|].
  intros _ _. apply IH.
Qed.

Lemma spends_split_cached env s e batch :
  forall results unc,
    spends (split_cached env s e batch results unc) 0
           (fun r => (length (snd r) <= length unc + length batch)%nat).
Proof.
  induction batch as [|t rest IH]; intros results unc.
  { apply spends_ret. simpl. lia. }
  cbn [split_cached length]. change O with (0 + 0)%nat.
  eapply spends_bind; [apply spends_load|].
  intros [data|] _.
  - eapply spends_weaken; [apply IH | lia |]. intros r Hr. simpl in *. lia.
  - eapply spends_weaken; [apply IH | lia |]. intros r Hr.
    rewrite length_app in Hr. simpl in *. lia.
Qed.

Lemma spends_demultiplex env s e bulk_data unc :
  forall results,
    spends (demultiplex env s e bulk_data unc results) 0 (fun _ => True).
Proof.
  induction unc as [|t rest IH]; intros results.
  { apply spends_ret. exact I. }
  cbn [demultiplex]. destruct bulk_data as [rows|index groups]; [apply IH|].
  destruct (group_of index groups t) as [ticker_data|]; [|apply IH].
  destruct (negb (df_empty ticker_data)); [|apply IH].
  change O with (0 + 0)%nat. eapply spends_bind; [apply spends_save|].
  intros _ _. apply IH.
Qed.

Lemma spends_download env rq : spends (download env rq) 1 (fun _ => True).
Proof.
  intros w. eexists _, _, [rq]. split; [reflexivity|].
  split; [reflexivity|]. split; [simpl; lia | exact I].
Qed.

Lemma spends_bulk_batch env self s e batch results :
  spends (bulk_batch env self s e batch results)
         (1 + default_max_retries * length batch) (fun _ => True).
Proof.
  unfold bulk_batch.
  replace (1 + default_max_retries * length batch)%nat
    with (0 + (1 + default_max_retries * length batch))%nat by lia.
  eapply spends_bind; [apply spends_split_cached|].
  intros [results1 unc] Hlen. simpl in Hlen.
  destruct unc as [|u us]; cbn [is_nil].
  { eapply spends_weaken; [apply (spends_ret results1 (fun _ => True) I) | lia | auto]. }
  eapply spends_bind; [apply spends_download|].
  intros [bulk_data|msg] _.
  - destruct (negb (df_empty bulk_data)).
    + destruct us as [|u2 us].
      * eapply spends_weaken;
          [eapply spends_bind;
             [apply spends_save | intros u0 _; apply (spends_ret _ (fun _ => True) I)]
          | simpl; lia | auto].
      * eapply spends_weaken; [apply spends_demultiplex | lia | auto].
    + eapply spends_weaken; [apply (spends_ret results1 (fun _ => True) I) | lia | auto].
  - eapply spends_weaken; [apply spends_one_by_one | | auto].
    unfold default_max_retries in *. simpl in *. lia.
Qed.

Lemma spends_run_batches
    (body : list string -> gmap string DataFrame -> M (gmap string DataFrame))
    (cost : list string -> nat) bs :
  (forall batch results, spends (body batch results) (cost batch) (fun _ => True)) ->
  forall results,
    spends (run_batches body bs results) (list_sum (map cost bs)) (fun _ => True).
Proof.
  intros Hbody. induction bs as [|batch rest IH]; intros results.
  { apply spends_ret. exact I. }
  replace (list_sum (map cost (batch :: rest)))
    with (cost batch + (0 + list_sum (map cost rest)))%nat by reflexivity.
  cbn [run_batches].
  eapply spends_bind; [apply Hbody|].
  intros r1 _.
  eapply spends_bind; [|intros u0 _; apply IH].
  destruct rest; apply (spends_ret tt (fun _ => True) I).
Qed.

Lemma list_sum_scaled (c k : nat) (bs : list (list string)) :
  list_sum (map (fun b => c + k * length b)%nat bs)
  = (c * length bs + k * length (concat bs))%nat.
Proof.
  induction bs as [|b bs IH]; simpl; [lia|].
  rewrite IH, length_app. lia.
Qed.
End Budget.

(** X13: for a positive batch size a batch download never raises and
    stays within a fixed upstream budget: the per-ticker path sends at most 3
    requests per ticker, and the bulk path at most one bulk request per batch
    on top of that. *)
Theorem batch_download_budget env self tickers s e batch_size use_bulk_download w :
  0 < batch_size ->
  exists results w' extra,
    yfinance_helper.batch_get_stock_data env self tickers s e batch_size
      use_bulk_download w = (Returned results, w') /\
    calls w' = (calls w ++ extra)%list /\
    (length extra
     <= (if use_bulk_download
         then length (yfinance_helper.batches tickers (Z.to_nat batch_size)) else 0)
        + 3 * length tickers)%nat.
Proof.
  intros Hbs.
  assert (Hn : (0 < Z.to_nat batch_size)%nat) by lia.
  unfold yfinance_helper.batch_get_stock_data, yfinance_helper._batch_download_bulk,
    yfinance_helper._batch_download_individual.
  destruct (Z.eqb_spec batch_size 0) as [|_]; [lia|].
  destruct (Z.ltb_spec batch_size 0) as [|_]; [lia|].
  destruct use_bulk_download.
  - destruct (spends_run_batches (yfinance_helper.bulk_batch env self s e)
                (fun b => 1 + yfinance_helper.default_max_retries * length b)%nat
                (yfinance_helper.batches tickers (Z.to_nat batch_size))
                (spends_bulk_batch env self s e) ∅ w)
      as (r & w' & extra & E & Hc & Hl & _).
    exists r, w', extra. split; [exact E|]. split; [exact Hc|].
    rewrite list_sum_scaled, batches_concat in Hl by exact Hn.
    unfold yfinance_helper.default_max_retries in Hl. lia.
  - destruct (spends_run_batches (yfinance_helper.one_by_one env self s e)
                (fun b => 0 + yfinance_helper.default_max_retries * length b)%nat
                (yfinance_helper.batches tickers (Z.to_nat batch_size))
                (fun b r => spends_one_by_one env self s e b r) ∅ w)
      as (r & w' & extra & E & Hc & Hl & _).
    exists r, w', extra. split; [exact E|]. split; [exact Hc|].
    rewrite list_sum_scaled, batches_concat in Hl by exact Hn.
    unfold yfinance_helper.default_max_retries in Hl. lia.
Qed.

Lemma batch_download_budget_witness :
  exists results w' extra,
    yfinance_helper.batch_get_stock_data dark_feed (yfinance_helper.mk_helper false false)
      ["A"; "B"; "C"] "2024-01-15" "2024-02-04" 2 true boot = (Returned results, w') /\
    calls w' = (calls boot ++ extra)%list /\
    (length extra
     <= length (yfinance_helper.batches ["A"; "B"; "C"] (Z.to_nat 2)) + 3 * 3)%nat.
Proof.
  apply (batch_download_budget dark_feed (yfinance_helper.mk_helper false false)
           ["A"; "B"; "C"] "2024-01-15" "2024-02-04" 2 true boot).
  lia.
Defined.

(** ** The table of predictions *)

Section Table.
Import yfinance_helper KOLSentimentDB.

Lemma insert_desc_perm (r : row) (l : list row) : Permutation (insert_desc r l) (r :: l).
Proof.
  induction l as [|x l IH]; simpl; [reflexivity|].
  destruct (row_prediction_time x <=? row_prediction_time r); [reflexivity|].
  rewrite IH. apply perm_swap.
Qed.

Lemma order_desc_perm (l : list row) : Permutation (order_desc l) l.
Proof.
  induction l as [|r l IH]; simpl; [reflexivity|].
  rewrite insert_desc_perm. now constructor.
Qed.

Lemma insert_desc_sorted (r : row) (l : list row) :
  newest_first l -> newest_first (insert_desc r l).
Proof.
  unfold newest_first. induction l as [|x l IH]; intros Hs; simpl.
  - constructor; constructor.
  - apply StronglySorted_inv in Hs as [Hs Hx].
    destruct (Z.leb_spec (row_prediction_time x) (row_prediction_time r)) as [Hle|Hgt].
    + constructor; [constructor; assumption|].
      constructor; [exact Hle|].
      rewrite Forall_forall in *. intros y Hy. specialize (Hx y Hy). lia.
    + constructor; [now apply IH|].
      rewrite Forall_forall in *. intros y Hy.
      apply list_elem_of_In in Hy.
      apply (Permutation_in _ (insert_desc_perm r l)) in Hy as [<-|Hy]; [lia|].
      apply Hx. now apply list_elem_of_In.
Qed.

Lemma order_desc_sorted (l : list row) : newest_first (order_desc l).
Proof.
  induction l as [|r l IH]; simpl; [constructor|]. now apply insert_desc_sorted.
Qed.

Lemma select_desc_spec (cond : row -> bool) (w : World) :
  exists l,
    select_desc cond w = (Returned l, w) /\
    Permutation l (List.filter cond (table w)) /\ newest_first l.
Proof.
  eexists. split; [reflexivity|]. split; [apply order_desc_perm | apply order_desc_sorted].
Qed.

Lemma next_id_above (rows : list row) (r : row) : In r rows -> row_id r < next_id rows.
Proof.
  unfold next_id. induction rows as [|x rows IH]; intros H; [contradiction|].
  simpl. destruct H as [<-|H]; [lia|]. specialize (IH H). lia.
Qed.

Lemma next_id_fresh (rows : list row) : ~ In (next_id rows) (map row_id rows).
Proof.
  intros H. apply in_map_iff in H as (r & Hr & Hin).
  pose proof (next_id_above rows r Hin). lia.
Qed.

(** The three ways an insertion can end: no price and nothing stored; a
    NaN confidence, refused by the NOT NULL constraint; or one new row. *)
Lemma insert_outcome env self kol ticker sector sentiment confidence pt w :
  exists w',
    (insert_record_with_returns env self kol ticker sector sentiment confidence pt w
     = (Returned None, w') /\ table w' = table w)
    \/
    (exists e,
        insert_record_with_returns env self kol ticker sector sentiment confidence pt w
        = (Raised e, w') /\ table w' = table w /\ PrimFloat.is_nan confidence = true)
    \/
    (exists t p returns created_at,
        let new_row :=
          {| row_id := next_id (table w); row_prediction_time := t;
             row_kol_name := kol; row_ticker := ticker; row_sector := sector;
             row_sentiment := sentiment; row_confidence := sql_zero confidence;
             row_initial_price := sql_real p;
             row_return_1d := fst (fst returns) ≫= sql_real;
             row_return_3d := snd (fst returns) ≫= sql_real;
             row_return_10d := snd returns ≫= sql_real;
             row_created_at := created_at |} in
        insert_record_with_returns env self kol ticker sector sentiment confidence pt w
        = (Returned (Some (next_id (table w))), w') /\
        table w' = (table w ++ [new_row])%list /\
        PrimFloat.is_nan confidence = false /\
        (forall t', pt = Some t' -> t = t') /\
        (exists w1 w2, calculate_returns env self ticker t p w1 = (Returned returns, w2)) /\
        (exists w1 w2, get_stock_price env self ticker t w1 = (Returned (Some p), w2))).
Proof.
  assert (Hpt : exists t w0, match pt with Some t' => ret t' | None => time_time env end w
                             = (Returned t, w0) /\ table w0 = table w /\
                             (forall t', pt = Some t' -> t = t')).
  { destruct pt as [t'|].
    - exists t', w. repeat split. intros t'' [= ->]. reflexivity.
    - eexists _, _. split; [reflexivity|]. split; [reflexivity | discriminate]. }
  destruct Hpt as (t & w0 & Et & Ht0 & Hpt).
  destruct (get_stock_price_total env self ticker t w0) as (price & w1 & Ep).
  pose proof (keeps_get_stock_price env self ticker t w0) as Hk1.
  rewrite Ep in Hk1. simpl in Hk1.
  destruct (insert_record_with_returns env self kol ticker sector sentiment confidence pt w)
    as [res wf] eqn:E.
  unfold insert_record_with_returns in E. unfold bind at 1 in E. rewrite Et in E.
  unfold bind at 1 in E. rewrite Ep in E.
  destruct price as [p|].
  - destruct (calculate_returns_total env self ticker t p w1) as (returns & w2 & Er).
    pose proof (keeps_calculate_returns env self ticker t p w1) as Hk2.
    rewrite Er in Hk2. simpl in Hk2.
    unfold bind at 1 in E. rewrite Er in E. destruct returns as [[r1 r3] r10].
    unfold bind at 1, add_and_commit in E. unfold bind at 1, time_time in E.
    cbv beta iota zeta in E. unfold stored, sql_real at 1 in E.
    cbn [row_confidence table] in E.
    destruct (PrimFloat.is_nan confidence) eqn:Hnan.
    + unfold ret in E. inversion E; subst res wf. clear E.
      eexists. right. left. eexists. split; [reflexivity|].
      split; [|reflexivity]. cbn. now rewrite Hk2, Hk1, Ht0.
    + unfold bind, ret in E. inversion E; subst res wf. clear E.
      eexists. right. right. exists t, p, (r1, r3, r10). eexists.
      cbn. rewrite Hk2, Hk1, Ht0. split; [reflexivity|]. split; [reflexivity|].
      split; [reflexivity|]. split; [exact Hpt|]. split; eauto.
  - unfold ret in E. inversion E; subst res wf.
    exists w1. left. split; [reflexivity|]. now rewrite Hk1, Ht0.
Qed.

Lemma delete_record_spec (record_id : Z) (w : World) :
  exists b w',
    delete_record record_id w = (Returned b, w') /\
    (b = true <-> In record_id (map row_id (table w))) /\
    table w' = List.filter (fun r => negb (row_id r =? record_id)) (table w) /\
    files w' = files w /\ calls w' = calls w.
Proof.
  unfold delete_record.
  destruct (List.find (fun r => row_id r =? record_id) (table w)) as [record|] eqn:Ef.
  - apply find_some in Ef as [Hin Heq]. apply Z.eqb_eq in Heq.
    eexists _, _. split; [reflexivity|]. rewrite Heq. cbn.
    split; [|repeat split].
    split; [intros _|reflexivity]. apply in_map_iff. now exists record.
  - eexists _, _. split; [reflexivity|]. split; [|split; [|split; reflexivity]].
    + split; [discriminate|]. intros Hin. apply in_map_iff in Hin as (r & Hr & Hin).
      pose proof (find_none _ _ Ef r Hin) as Hn. simpl in Hn.
      apply Z.eqb_neq in Hn. contradiction.
    + symmetry. apply forallb_filter_id. apply forallb_forall. intros r Hin.
      now rewrite (find_none _ _ Ef r Hin).
Qed.

Lemma filter_drops_fresh (rows : list row) (new_row : row) :
  row_id new_row = next_id rows ->
  List.filter (fun r => negb (row_id r =? row_id new_row)) (rows ++ [new_row]) = rows.
Proof.
  intros Hid. rewrite List.filter_app. simpl. rewrite Z.eqb_refl. simpl. rewrite app_nil_r.
  apply forallb_filter_id. apply forallb_forall. intros r Hin.
  pose proof (next_id_above rows r Hin). apply negb_true_iff, Z.eqb_neq. lia.
Qed.
End Table.

Section TableMore.
Import yfinance_helper KOLSentimentDB.

Lemma set_returns_same_event (r : row) (returns : returns_t) :
  same_event r (set_returns r returns).
Proof. destruct returns as [[r1 r3] r10]. repeat split. Qed.

(** How the loop of [update_returns_for_existing_records] treats one row:
    it leaves it alone, or overwrites its returns with what
    [calculate_returns] gives for its ticker, time and price. *)
Lemma refresh_rows_steps env self rows :
  forall w,
    exists rows' w',
      refresh_rows env self rows w = (Returned rows', w') /\
      table w' = table w /\
      Forall2 (refreshed env self) rows rows'.
Proof.
  induction rows as [|record rest IH]; intros w.
  { exists [], w. split; [reflexivity|]. split; [reflexivity | constructor]. }
  cbn [refresh_rows].
  assert (Hhead : exists record' w1,
    (if is_not_none (row_return_1d record)
     then match row_initial_price record with
          | Some initial_price =>
              do returns <- calculate_returns env self (row_ticker record)
                              (row_prediction_time record) initial_price;
              ret (set_returns record returns)
          | None => ret record
          end
     else ret record) w = (Returned record', w1) /\
    table w1 = table w /\ refreshed env self record record').
  { destruct (row_return_1d record) as [x|] eqn:E1; cbn [is_not_none].
    - destruct (row_initial_price record) as [p|] eqn:Ep.
      + destruct (calculate_returns_total env self (row_ticker record)
                    (row_prediction_time record) p w) as (returns & w1 & Er).
        pose proof (keeps_calculate_returns env self (row_ticker record)
                      (row_prediction_time record) p w) as Hk.
        rewrite Er in Hk. simpl in Hk.
        exists (set_returns record returns), w1. unfold bind. rewrite Er.
        split; [reflexivity|]. split; [exact Hk|].
        right. exists p, returns, w, w1. rewrite E1.
        split; [eauto|]. split; [exact Ep|]. split; [exact Er | reflexivity].
      + exists record, w. split; [reflexivity|]. split; [reflexivity | now left].
    - exists record, w. split; [reflexivity|]. split; [reflexivity | now left]. }
  destruct Hhead as (record' & w1 & E1 & Ht1 & Hs).
  destruct (IH w1) as (rest' & w2 & E2 & Ht2 & Hall).
  exists (record' :: rest'), w2. unfold bind at 1. rewrite E1.
  unfold bind at 1. rewrite E2. split; [reflexivity|].
  split; [now rewrite Ht2|]. constructor; assumption.
Qed.

Lemma update_returns_steps env self w :
  exists w',
    update_returns_for_existing_records env self w = (Returned tt, w') /\
    Forall2 (refreshed env self) (table w) (table w').
Proof.
  unfold update_returns_for_existing_records. unfold bind at 1.
  destruct (refresh_rows_steps env self (table w) w) as (rows' & w1 & E & _ & Hall).
  unfold bind at 1. rewrite E. eexists. split; [reflexivity | exact Hall].
Qed.

Lemma refreshed_same_event env self (r r' : row) :
  refreshed env self r r' ->
  same_event r r' /\
  (row_return_1d r = None \/ row_initial_price r = None -> r' = r).
Proof.
  intros [->|(p & rs & w1 & w2 & H1 & Hp & _ & ->)].
  - split; [repeat split | reflexivity].
  - split; [apply set_returns_same_event|].
    intros [H|H]; [destruct H1 as [x Hx]; congruence | congruence].
Qed.

Lemma refreshed_ids env self (rows rows' : list row) :
  Forall2 (refreshed env self) rows rows' -> map row_id rows' = map row_id rows.
Proof.
  induction 1 as [|r r' l l' Hr _ IH]; [reflexivity|].
  simpl. apply refreshed_same_event in Hr as [[Hid _] _]. now rewrite Hid, IH.
Qed.

Lemma filter_ids_nodup (cond : row -> bool) (rows : list row) :
  NoDup (map row_id rows) -> NoDup (map row_id (List.filter cond rows)).
Proof.
  induction rows as [|r rows IH]; intros H; [constructor|].
  simpl in H. apply NoDup_cons in H as [Hr H]. simpl.
  destruct (cond r); [|now apply IH].
  simpl. apply NoDup_cons. split; [|now apply IH].
  intros Hin. apply Hr. apply list_elem_of_In. apply list_elem_of_In in Hin.
  apply in_map_iff in Hin as (x & Hx & Hin).
  apply filter_In in Hin as [Hin _]. apply in_map_iff. now exists x.
Qed.

(** A longer horizon is never filled while a shorter one is empty. *)
Lemma returns_of_nested (hist : DataFrame) (p : float) (rs : returns_t) :
  returns_of hist p = Returned rs -> nested rs.
Proof.
  destruct hist as [series|index groups].
  - rewrite returns_of_flat. intros [= <-]. unfold nested.
    rewrite !return_at_present. lia.
  - unfold returns_of, horizon, close_at. simpl.
    destruct (1 <? length index)%nat; [discriminate|].
    destruct (3 <? length index)%nat; [discriminate|].
    destruct (10 <? length index)%nat; [discriminate|].
    intros [= <-]. unfold nested. split; intros [x Hx]; discriminate.
Qed.

Lemma nested_none : nested (None, None, None).
Proof. split; intros [x Hx]; discriminate. Qed.

Lemma calculate_returns_nested env self ticker initial_date p w rs w' :
  calculate_returns env self ticker initial_date p w = (Returned rs, w') -> nested rs.
Proof.
  unfold calculate_returns, try_except, bind.
  destruct (get_stock_data env (yf_helper self) ticker (strftime_ymd initial_date)
              (strftime_ymd (plus_days initial_date 20)) default_max_retries w)
    as [[[hist|]|e] w1].
  - destruct (df_empty hist).
    + unfold ret. intros [= <- _]. apply nested_none.
    + unfold lift. destruct (returns_of hist p) as [rs'|e] eqn:E.
      * intros [= <- _]. exact (returns_of_nested _ _ _ E).
      * unfold ret. intros [= <- _]. apply nested_none.
  - unfold ret. intros [= <- _]. apply nested_none.
  - unfold ret. intros [= <- _]. apply nested_none.
Qed.

End TableMore.

(** X14: the five read queries ([get_records_with_returns], by commentator,
    by ticker, by sector, by date range with both ends included) return all
    and only the rows that meet their condition, newest prediction first, and
    leave the state as it is. *)
Theorem queries_select_and_order (w : World) :
  (exists l, KOLSentimentDB.get_records_with_returns w = (Returned l, w) /\
     Permutation l (List.filter (fun r => KOLSentimentDB.is_not_none (row_return_1d r))
                                (table w)) /\ newest_first l) /\
  (forall kol_name, exists l,
     KOLSentimentDB.get_records_by_kol kol_name w = (Returned l, w) /\
     Permutation l (List.filter (fun r => String.eqb (row_kol_name r) kol_name) (table w)) /\
     newest_first l) /\
  (forall ticker, exists l,
     KOLSentimentDB.get_records_by_ticker ticker w = (Returned l, w) /\
     Permutation l (List.filter (fun r => String.eqb (row_ticker r) ticker) (table w)) /\
     newest_first l) /\
  (forall sector, exists l,
     KOLSentimentDB.get_records_by_sector sector w = (Returned l, w) /\
     Permutation l (List.filter (fun r => String.eqb (row_sector r) sector) (table w)) /\
     newest_first l) /\
  (forall start_date end_date, exists l,
     KOLSentimentDB.get_records_by_date_range start_date end_date w = (Returned l, w) /\
     Permutation l (List.filter (fun r => (start_date <=? row_prediction_time r)
                                          && (row_prediction_time r <=? end_date))%bool
                                (table w)) /\
     newest_first l).
Proof.
  split; [apply select_desc_spec|].
  split; [intros k; apply select_desc_spec|].
  split; [intros k; apply select_desc_spec|].
  split; [intros k; apply select_desc_spec|].
  intros a b. apply select_desc_spec.
Qed.



(** A NaN close one day after the prediction: [calculate_returns] gives
    a NaN 1-day return, the row is stored with that column empty and with a
    3-day return; a NaN confidence is refused and stores nothing. *)
Lemma stored_nan_sample :
  let r := KOLSentimentDB.insert_record_with_returns gap_feed plain_db
             "kol" "AAPL" "Tech" "positive" 0.8 (Some monday) boot in
  fst r = Returned (Some 1) /\
  map row_initial_price (table (snd r)) = [Some 100%float] /\
  map row_return_1d (table (snd r)) = [None] /\
  map row_return_3d (table (snd r)) = [Some 0.03%float] /\
  (exists e w',
      KOLSentimentDB.insert_record_with_returns gap_feed plain_db
        "kol" "AAPL" "Tech" "positive" nan (Some monday) boot = (Raised e, w') /\
      table w' = []).
Proof.
  split; [vm_compute; reflexivity|]. split; [vm_compute; reflexivity|].
  split; [vm_compute; reflexivity|]. split; [vm_compute; reflexivity|].
  eexists _, _. split; [vm_compute; reflexivity | reflexivity].
Qed.

(** X16: [delete_record] returns [True] exactly when a row carries the id;
    afterwards no row carries it, every other row is still there, and the
    cache and the call log are untouched. *)
Theorem delete_removes_the_row (record_id : Z) (w : World) :
  exists b w',
    KOLSentimentDB.delete_record record_id w = (Returned b, w') /\
    (b = true <-> In record_id (map row_id (table w))) /\
    ~ In record_id (map row_id (table w')) /\
    (forall r, In r (table w') <-> In r (table w) /\ row_id r <> record_id) /\
    files w' = files w /\ calls w' = calls w.
Proof.
  destruct (delete_record_spec record_id w) as (b & w' & E & Hb & Ht & Hf & Hc).
  exists b, w'. split; [exact E|]. split; [exact Hb|].
  assert (Hin : forall r, In r (table w') <-> In r (table w) /\ row_id r <> record_id).
  { intros r. rewrite Ht, filter_In, negb_true_iff, Z.eqb_neq. reflexivity. }
  split; [|split; [exact Hin | split; assumption]].
  intros H. apply in_map_iff in H as (r & Hr & Hi). apply Hin in Hi as [_ Hne]. contradiction.
Qed.

(** X17: deleting the id that [insert_record_with_returns] has just
    returned succeeds and brings the table back to what it was before the
    insertion. *)
Theorem insert_then_delete env self kol_name ticker sector sentiment confidence
    prediction_time w id w1 :
  KOLSentimentDB.insert_record_with_returns env self kol_name ticker sector sentiment
    confidence prediction_time w = (Returned (Some id), w1) ->
  exists w2,
    KOLSentimentDB.delete_record id w1 = (Returned true, w2) /\
    table w2 = table w.
Proof.
  intros H.
  destruct (insert_outcome env self kol_name ticker sector sentiment confidence
              prediction_time w)
    as (wf & [[E _]|[(e & E & _)|(t & p & returns & created & E & Ht & _)]]).
  { rewrite E in H. discriminate. }
  { rewrite E in H. discriminate. }
  cbv zeta in E, Ht. rewrite E in H. inversion H; subst id wf. clear H.
  destruct (delete_record_spec (KOLSentimentDB.next_id (table w)) w1) as (b & w2 & Ed & Hb & Htab & _).
  assert (b = true) as ->.
  { apply Hb. rewrite Ht, map_app. apply in_or_app. right. now left. }
  exists w2. split; [exact Ed|]. rewrite Htab, Ht.
  match goal with
  | |- List.filter _ (_ ++ [?r])%list = _ =>
      exact (filter_drops_fresh (table w) r eq_refl)
  end.
Qed.

Lemma insert_then_delete_witness :
  exists w2,
    KOLSentimentDB.delete_record 1
      (snd (KOLSentimentDB.insert_record_with_returns steady_feed plain_db
              "kol" "AAPL" "Tech" "positive" 0.8 (Some monday) boot))
    = (Returned true, w2) /\
    table w2 = table boot.
Proof.
  apply (insert_then_delete steady_feed plain_db "kol" "AAPL" "Tech" "positive" 0.8
           (Some monday) boot 1).
  vm_compute. reflexivity.
Defined.

(** X18: row ids stay pairwise distinct: if they are in the table, they
    still are after an insertion, after a deletion and after
    [update_returns_for_existing_records]. *)
Theorem ids_stay_distinct env self (w : World) :
  NoDup (map row_id (table w)) ->
  (forall kol_name ticker sector sentiment confidence prediction_time,
      NoDup (map row_id (table (snd (KOLSentimentDB.insert_record_with_returns env self
               kol_name ticker sector sentiment confidence prediction_time w))))) /\
  (forall record_id,
      NoDup (map row_id (table (snd (KOLSentimentDB.delete_record record_id w))))) /\
  NoDup (map row_id (table (snd (KOLSentimentDB.update_returns_for_existing_records
                                   env self w)))).
Proof.
  intros Hnd. split; [|split].
  - intros kol ticker sector sentiment confidence pt.
    destruct (insert_outcome env self kol ticker sector sentiment confidence pt w)
      as (wf & [[E Ht]|[(e & E & Ht & _)|(t & p & returns & created & E & Ht & _)]]).
    + rewrite E. simpl. now rewrite Ht.
    + rewrite E. simpl. now rewrite Ht.
    + cbv zeta in E, Ht. rewrite E. simpl. rewrite Ht, map_app. simpl.
      apply NoDup_app. split; [exact Hnd|]. split; [|apply NoDup_singleton].
      intros x Hx Hx'. apply list_elem_of_In in Hx.
      apply list_elem_of_singleton in Hx'. subst x. revert Hx. apply next_id_fresh.
  - intros record_id.
    destruct (delete_record_spec record_id w) as (b & w' & E & _ & Ht & _).
    rewrite E. simpl. rewrite Ht. now apply filter_ids_nodup.
  - destruct (update_returns_steps env self w) as (w' & E & Hall).
    rewrite E. simpl. now rewrite (refreshed_ids _ _ _ _ Hall).
Qed.

Lemma ids_stay_distinct_witness :
  (forall kol_name ticker sector sentiment confidence prediction_time,
      NoDup (map row_id (table (snd (KOLSentimentDB.insert_record_with_returns
               steady_feed plain_db
               kol_name ticker sector sentiment confidence prediction_time lonely))))) /\
  (forall record_id,
      NoDup (map row_id (table (snd (KOLSentimentDB.delete_record record_id lonely))))) /\
  NoDup (map row_id (table (snd (KOLSentimentDB.update_returns_for_existing_records
                                   steady_feed plain_db lonely)))).
Proof.
  apply (ids_stay_distinct steady_feed plain_db lonely).
  repeat constructor. intros H. inversion H.
Defined.

(** X19: [update_returns_for_existing_records] never raises, keeps every
    row in its place and only ever rewrites the three return columns; a row
    whose 1-day return is absent, or whose price is absent, is left exactly as
    it is, so the function cannot give returns to a row that has none. *)
Theorem refresh_skips_rows_without_returns env self (w : World) :
  exists w',
    KOLSentimentDB.update_returns_for_existing_records env self w = (Returned tt, w') /\
    Forall2 (fun r r' =>
               same_event r r' /\
               (row_return_1d r = None \/ row_initial_price r = None -> r' = r))
            (table w) (table w').
Proof.
  destruct (update_returns_steps env self w) as (w' & E & Hall).
  exists w'. split; [exact E|].
  eapply Forall2_impl; [exact Hall|]. intros r r'. apply refreshed_same_event.
Qed.

(** On [lonely] the row has a price and no returns; the feed has bars, and
    still the refresh leaves the row without returns. *)
Lemma refresh_sample :
  table (snd (KOLSentimentDB.update_returns_for_existing_records steady_feed plain_db lonely))
  = [lonely_row] /\
  calls (snd (KOLSentimentDB.update_returns_for_existing_records steady_feed plain_db lonely))
  = [].
Proof. vm_compute. split; reflexivity. Qed.

(** X20: [calculate_returns] never fills a longer horizon while a shorter
    one is empty: whatever the feed answers, it returns three values of which
    the 10-day one is present only if the 3-day one is, and the 3-day one only
    if the 1-day one is. *)
Theorem returns_are_nested env self ticker initial_date initial_price (w : World) :
  exists return_1d return_3d return_10d w',
    KOLSentimentDB.calculate_returns env self ticker initial_date initial_price w
    = (Returned (return_1d, return_3d, return_10d), w') /\
    (is_Some return_10d -> is_Some return_3d) /\
    (is_Some return_3d -> is_Some return_1d).
Proof.
  destruct (calculate_returns_total env self ticker initial_date initial_price w)
    as ([[r1 r3] r10] & w' & E).
  exists r1, r3, r10, w'. split; [exact E|].
  exact (calculate_returns_nested _ _ _ _ _ _ _ _ E).
Qed.

(** ** Performance metrics per commentator *)

Section Metrics.
Import kol_accuracy.

Lemma collect_nil (data : kol_performance_metrics.kol_data) : collect [] data = data.
Proof.
  destruct data. unfold collect, count. simpl.
  rewrite !app_nil_r, !Nat.add_0_r. reflexivity.
Qed.

Lemma collect_cons (r : record) (x : float) (own : list record)
    (data : kol_performance_metrics.kol_data) :
  return_1d r = Some x ->
  collect (r :: own) data
  = collect own
      {| kol_performance_metrics.returns_1d :=
           kol_performance_metrics.append_present (return_1d r)
             (kol_performance_metrics.returns_1d data);
         kol_performance_metrics.returns_3d :=
           kol_performance_metrics.append_present (return_3d r)
             (kol_performance_metrics.returns_3d data);
         kol_performance_metrics.returns_10d :=
           kol_performance_metrics.append_present (return_10d r)
             (kol_performance_metrics.returns_10d data);
         kol_performance_metrics.correct_predictions :=
           if truthy (kol_performance_metrics.is_direction_correct (sentiment r) x)
           then S (kol_performance_metrics.correct_predictions data)
           else kol_performance_metrics.correct_predictions data;
         kol_performance_metrics.d_total_predictions :=
           S (kol_performance_metrics.d_total_predictions data) |}.
Proof.
  intros E1. unfold collect. cbn [kol_performance_metrics.returns_1d
    kol_performance_metrics.returns_3d kol_performance_metrics.returns_10d
    kol_performance_metrics.correct_predictions
    kol_performance_metrics.d_total_predictions].
  assert (Happ : forall (ret : option float) (l tl : list float),
            (l ++ match ret with Some y => y :: tl | None => tl end
             = kol_performance_metrics.append_present ret l ++ tl)%list).
  { intros [y|] l tl; simpl; [now rewrite <- app_assoc | reflexivity]. }
  f_equal.
  - simpl omap. rewrite <- Happ. reflexivity.
  - simpl omap. rewrite <- Happ. reflexivity.
  - simpl omap. rewrite <- Happ. reflexivity.
  - unfold count. simpl List.filter. unfold hit at 1. rewrite E1.
    change (kol_performance_metrics.is_direction_correct (sentiment r) x)
      with (is_direction_correct (sentiment r) x).
    destruct (truthy (is_direction_correct (sentiment r) x)); simpl; lia.
  - simpl. lia.
Qed.

(** One key of [kol_metrics] along the first loop. *)
Lemma metrics_fold_lookup (k : string) (rs : list record)
    (m : gmap string kol_performance_metrics.kol_data) :
  fold_left kol_performance_metrics.metrics_step rs m !! k
  = match own_records k rs with
    | [] => m !! k
    | own => Some (collect own (default kol_performance_metrics.fresh_data (m !! k)))
    end.
Proof.
  revert m. induction rs as [|r rs IH]; intros m; [reflexivity|].
  simpl fold_left. rewrite IH. unfold own_records. simpl List.filter.
  destruct (counted_for_kol k r) eqn:Ec.
  - unfold counted_for_kol in Ec. apply andb_prop in Ec as [Ek E1].
    apply String.eqb_eq in Ek. unfold kol_performance_metrics.metrics_step.
    destruct (return_1d r) as [x|] eqn:Ex; [|discriminate].
    rewrite Ek, lookup_insert_eq. cbn [default].
    rewrite (collect_cons r x _ _ Ex). rewrite Ex.
    destruct (List.filter (counted_for_kol k) rs); [now rewrite collect_nil | reflexivity].
  - assert (Hsame : kol_performance_metrics.metrics_step m r !! k = m !! k).
    { unfold counted_for_kol in Ec. unfold kol_performance_metrics.metrics_step.
      destruct (return_1d r); [|reflexivity].
      simpl in Ec. rewrite andb_true_r in Ec. apply String.eqb_neq in Ec.
      now rewrite lookup_insert_ne. }
    now rewrite Hsame.
Qed.

Lemma metrics_lookup (rs : list record) (k : string) :
  kol_performance_metrics.calculate_kol_performance_metrics rs !! k
  = match own_records k rs with
    | [] => None
    | own => Some (summary k own)
    end.
Proof.
  unfold kol_performance_metrics.calculate_kol_performance_metrics.
  rewrite map_lookup_imap, metrics_fold_lookup, lookup_empty.
  destruct (own_records k rs) as [|r own]; [reflexivity|].
  reflexivity.
Qed.

Lemma count_filter (sel q : record -> bool) (rs : list record) :
  count (fun r => sel r && q r)%bool rs = count q (List.filter sel rs).
Proof.
  unfold count. induction rs as [|r rs IH]; [reflexivity|].
  simpl. destruct (sel r); simpl; [destruct (q r); simpl; lia | exact IH].
Qed.

Lemma count_le (sel q : record -> bool) (rs : list record) :
  (count (fun r => sel r && q r)%bool rs <= count sel rs)%nat.
Proof.
  unfold count. induction rs as [|r rs IH]; [reflexivity|].
  simpl. destruct (sel r); simpl; [destruct (q r); simpl; lia | exact IH].
Qed.

(** Every counted record has a 1-day return. *)
Lemma own_returns_1d (k : string) (rs : list record) :
  length (omap return_1d (own_records k rs)) = length (own_records k rs).
Proof.
  unfold own_records. induction rs as [|r rs IH]; [reflexivity|].
  simpl List.filter. destruct (counted_for_kol k r) eqn:Ec; [|exact IH].
  unfold counted_for_kol in Ec. apply andb_prop in Ec as [_ E1].
  destruct (return_1d r) eqn:E; [|discriminate].
  cbn [omap list_omap]. rewrite E. cbn [length]. f_equal. exact IH.
Qed.

Lemma omap_length_le {A B} (f : A -> option B) (l : list A) :
  (length (omap f l) <= length l)%nat.
Proof.
  induction l as [|a l IH]; [reflexivity|]. cbn [omap list_omap].
  destruct (f a); cbn [length]; lia.
Qed.

End Metrics.

(** X22: [calculate_kol_performance_metrics] lists exactly the
    commentators with at least one record that has a 1-day return.  The entry
    of a commentator is computed from those records alone, in input order:
    [total_predictions] is their number, the correctness rate is the number of
    correct 1-day directions over it, and each horizon's period metrics are
    those of the returns present at that horizon; all of them have a 1-day
    return, possibly fewer a 3-day or 10-day one. *)
Theorem metrics_per_commentator (records : list kol_accuracy.record) (k : string) :
  kol_performance_metrics.calculate_kol_performance_metrics records !! k
  = match own_records k records with
    | [] => None
    | own => Some (summary k own)
    end /\
  length (omap kol_accuracy.return_1d (own_records k records))
  = length (own_records k records) /\
  (length (omap kol_accuracy.return_3d (own_records k records))
   <= length (own_records k records))%nat /\
  (length (omap kol_accuracy.return_10d (own_records k records))
   <= length (own_records k records))%nat.
Proof.
  split; [apply metrics_lookup|]. split; [apply own_returns_1d|].
  split; apply omap_length_le.
Qed.

(** On [mixed_calls]: "a" has one counted record and no 3-day return, so
    the 3-day metrics are the zero-filled ones; "c" is not listed. *)
Lemma metrics_sample :
  (exists m,
      kol_performance_metrics.calculate_kol_performance_metrics mixed_calls !! "a" = Some m /\
      kol_performance_metrics.total_predictions m = 1%nat /\
      kol_performance_metrics.direction_correctness_rate m = 1%float /\
      kol_performance_metrics.mean_return_1d m = 0.02%float /\
      kol_performance_metrics.mean_return_3d m = 0%float /\
      kol_performance_metrics.volatility_3d m = 0%float) /\
  kol_performance_metrics.calculate_kol_performance_metrics mixed_calls !! "c" = None.
Proof.
  split; [|vm_compute; reflexivity].
  eexists. split; [vm_compute; reflexivity|].
  repeat split; vm_compute; reflexivity.
Qed.

(** X23: the two modules agree: [calculate_kol_performance_metrics] and
    [get_kol_performance_stats] list the same commentators, and for each of
    them [total_predictions] is the same number and
    [direction_correctness_rate] is the same float as [accuracy_1d]. *)
Theorem metrics_agree_with_accuracy (records : list kol_accuracy.record) (k : string) :
  match kol_performance_metrics.calculate_kol_performance_metrics records !! k,
        kol_accuracy.get_kol_performance_stats records !! k with
  | Some m, Some st =>
      kol_performance_metrics.kol_name m = k /\
      kol_performance_metrics.total_predictions m = kol_accuracy.total_predictions st /\
      kol_performance_metrics.direction_correctness_rate m = kol_accuracy.accuracy_1d st
  | None, None => True
  | _, _ => False
  end.
Proof.
  rewrite metrics_lookup, kol_stats_lookup.
  change (count (counted_for_kol k) records) with (length (own_records k records)).
  pose proof (count_filter (counted_for_kol k)
                (fun r => hit (kol_accuracy.sentiment r) (kol_accuracy.return_1d r))
                records) as Hc.
  fold (own_records k records) in Hc.
  unfold tabulate. rewrite Hc.
  change (count (counted_for_kol k) records) with (length (own_records k records)).
  destruct (own_records k records) as [|r own]; [exact I|].
  simpl. repeat split.
Qed.

(** ** The range of the grade *)

Section GradeRange.
Import kol_grade_system.
Local Open Scope Q_scope.












End GradeRange.





(** Without a lower clamp on the sample score, a negative sample count
    gives a negative grade. *)
Lemma negative_samples_sample :
  kol_grade_system.calculate_kol_grade 0 0 (-50)
    kol_grade_system.default_w_acc kol_grade_system.default_w_sharpe
    kol_grade_system.default_w_sample kol_grade_system.default_sample_norm
  = Returned (-2000 # 100)%Q.
Proof. vm_compute. reflexivity. Qed.

(** ** Counters of the accuracy tables *)

Section Counters.
Import kol_accuracy.

Lemma tabulate_bounds (sel : record -> bool) (rs : list record) :
  (correct_1d (tabulate sel rs) <= total_predictions (tabulate sel rs))%nat /\
  (correct_3d (tabulate sel rs) <= total_predictions (tabulate sel rs))%nat /\
  (correct_10d (tabulate sel rs) <= total_predictions (tabulate sel rs))%nat.
Proof. unfold tabulate. simpl. repeat split; apply count_le. Qed.

Lemma class_totals (rs : list record) :
  (count (counted_for_sentiment "positive") rs
   + count (counted_for_sentiment "negative") rs
   + count (counted_for_sentiment "neutral") rs
   = count recognised rs)%nat.
Proof.
  unfold count. induction rs as [|r rs IH]; [reflexivity|].
  simpl List.filter. unfold recognised at 1.
  destruct (counted_for_sentiment "positive" r) eqn:Ep;
    destruct (counted_for_sentiment "negative" r) eqn:En;
    destruct (counted_for_sentiment "neutral" r) eqn:Eu;
    cbn [orb length]; try lia;
    exfalso; unfold counted_for_sentiment in *;
    repeat match goal with
           | H : (_ && _)%bool = true |- _ =>
               apply andb_prop in H as [H _]; apply String.eqb_eq in H
           end;
    congruence.
Qed.

End Counters.

(** X26: in both accuracy tables no correct count exceeds the entry's
    total, and a commentator is listed by [get_kol_performance_stats] only
    with a total of at least one, so its accuracies never divide by zero. *)
Theorem accuracy_counts_bounded :
  (forall (records : list kol_accuracy.record) (k : string) (st : kol_accuracy.stats),
      kol_accuracy.get_kol_performance_stats records !! k = Some st ->
      (1 <= kol_accuracy.total_predictions st)%nat /\
      (kol_accuracy.correct_1d st <= kol_accuracy.total_predictions st)%nat /\
      (kol_accuracy.correct_3d st <= kol_accuracy.total_predictions st)%nat /\
      (kol_accuracy.correct_10d st <= kol_accuracy.total_predictions st)%nat) /\
  (forall (records : list kol_accuracy.record) (k : string) (st : kol_accuracy.stats),
      kol_accuracy.analyze_sentiment_accuracy records !! k = Some st ->
      (kol_accuracy.correct_1d st <= kol_accuracy.total_predictions st)%nat /\
      (kol_accuracy.correct_3d st <= kol_accuracy.total_predictions st)%nat /\
      (kol_accuracy.correct_10d st <= kol_accuracy.total_predictions st)%nat).
Proof.
  split; intros rs k st H.
  - rewrite kol_stats_lookup in H.
    destruct (Nat.ltb_spec 0 (count (counted_for_kol k) rs)) as [Hpos|]; [|discriminate].
    injection H as <-. split; [exact Hpos | apply tabulate_bounds].
  - rewrite sentiment_stats_lookup in H.
    destruct (_ || _)%bool; [|discriminate].
    injection H as <-. apply tabulate_bounds.
Qed.

Lemma accuracy_counts_bounded_witness :
  let st := tabulate (counted_for_kol "a") two_calls in
  (1 <= kol_accuracy.total_predictions st)%nat /\
  (kol_accuracy.correct_1d st <= kol_accuracy.total_predictions st)%nat /\
  (kol_accuracy.correct_3d st <= kol_accuracy.total_predictions st)%nat /\
  (kol_accuracy.correct_10d st <= kol_accuracy.total_predictions st)%nat.
Proof.
  apply (proj1 accuracy_counts_bounded two_calls "a").
  vm_compute. reflexivity.
Defined.

(** X27: [analyze_sentiment_accuracy] always has its three classes, also
    for no records, and their totals add up to the number of records that have
    a 1-day return and, in lower case, one of the three sentiments: a record
    with any other sentiment is dropped without notice and none is counted
    twice. *)
Theorem sentiment_classes_partition (records : list kol_accuracy.record) :
  exists positive negative neutral,
    kol_accuracy.analyze_sentiment_accuracy records !! "positive" = Some positive /\
    kol_accuracy.analyze_sentiment_accuracy records !! "negative" = Some negative /\
    kol_accuracy.analyze_sentiment_accuracy records !! "neutral" = Some neutral /\
    (kol_accuracy.total_predictions positive + kol_accuracy.total_predictions negative
     + kol_accuracy.total_predictions neutral
     = count recognised records)%nat /\
    (count recognised records <= count (fun r => present (kol_accuracy.return_1d r)) records)%nat.
Proof.
  exists (tabulate (counted_for_sentiment "positive") records),
         (tabulate (counted_for_sentiment "negative") records),
         (tabulate (counted_for_sentiment "neutral") records).
  rewrite !sentiment_stats_lookup.
  split; [reflexivity|]. split; [reflexivity|]. split; [reflexivity|].
  split; [apply class_totals|].
  unfold count. induction records as [|r rs IH]; [reflexivity|].
  cbn [List.filter].
  assert (Hr : recognised r = true -> present (kol_accuracy.return_1d r) = true).
  { unfold recognised, counted_for_sentiment.
    destruct (present (kol_accuracy.return_1d r)); [reflexivity|].
    now rewrite !andb_false_r. }
  destruct (recognised r).
  - rewrite Hr by reflexivity. cbn [length]. lia.
  - destruct (present (kol_accuracy.return_1d r)); cbn [length]; lia.
Qed.

(** A "bullish" call with a return is in no class. *)
Lemma unknown_sentiment_sample :
  let records := [kol_accuracy.mk_record "a" "bullish" (Some 0.02%float) None None] in
  count recognised records = 0%nat /\
  count (fun r => present (kol_accuracy.return_1d r)) records = 1%nat /\
  kol_accuracy.total_predictions
    <$> kol_accuracy.analyze_sentiment_accuracy records !! "positive" = Some 0%nat.
Proof. vm_compute. repeat split. Qed.
